(** * IdeaTracker: the local record store ([src/lib/storage.ts])

    A shallow embedding of the persistence and query layer of the tracker:
    one JSON document under a single [localStorage] key, holding four record
    collections and four auto-increment counters, read and written in full
    by every operation.

    Modelling conventions.
    - JavaScript numbers are doubles.  The ids and counters of a document
      are the integer-valued ones, kept in [Z]; [++] adds one as the double
      addition does, exactly up to 2^53 and rounding to the nearest double
      from there on ([number_succ]).  Millisecond instants lie within
      8.64e15 of zero, where their differences keep their sign; the counts
      of the aggregates stay below the length of an array, where adding one
      is exact.
    - [localStorage.setItem] stores what it is given: a host that refuses
      the write (quota exceeded) is not modelled, so no write throws.
    - [JSON.parse (JSON.stringify d)] is the identity on documents of type
      [StorageData]; the value kept under the storage key is therefore the
      document itself.
    - [new Date().toISOString()] reads the host clock: every operation that
      calls it takes the string it received as its first argument [now].
    - [new Date(s).getTime()] is a host function from strings to instants,
      [None] standing for [NaN] (an invalid date). *)

From Stdlib Require Import ZArith Ascii String List Bool Lia Permutation Sorted.
Import ListNotations.
Local Open Scope Z_scope.

(** ** Data model ([types.ts]) *)

Inductive Frequency := rare | weekly | daily.
Inductive ProblemStatus := open | solved | ignored.
Inductive IdeaStatus := new | researching | validating | building | parked.
Inductive NoteType := interview | competitor | pricing | tech | general.

Module Problem.
Record t := mk {
  id : Z;
  title : string;
  description : string;
  observed_context : string;
  severity : Z;
  frequency : Frequency;
  status : ProblemStatus;
  tags : string;
  created_at : string;
  updated_at : string
}.
End Problem.

Module Idea.
Record t := mk {
  id : Z;
  title : string;
  pitch : string;
  target_user : string;
  value_prop : string;
  differentiation : string;
  assumptions : string;
  risks : string;
  status : IdeaStatus;
  score : option Z;
  tags : string;
  created_at : string;
  updated_at : string
}.
End Idea.

Module Note.
Record t := mk {
  id : Z;
  note_type : NoteType;
  content : string;
  links : string;
  problem_id : option Z;
  idea_id : option Z;
  created_at : string
}.
End Note.

Module ProblemIdeaLink.
Record t := mk {
  id : Z;
  problem_id : Z;
  idea_id : Z
}.
End ProblemIdeaLink.

Module Counters.
Record t := mk {
  problems : Z;
  ideas : Z;
  notes : Z;
  links : Z
}.
End Counters.

Module StorageData.
Record t := mk {
  problems : list Problem.t;
  ideas : list Idea.t;
  notes : list Note.t;
  links : list ProblemIdeaLink.t;
  counters : Counters.t
}.
End StorageData.

(** [keyof StorageData['counters']] *)
Inductive CounterKey := key_problems | key_ideas | key_notes | key_links.

(** The document both branches of [getStorageData] build, and [clearAllData]
    writes. *)
Definition initial : StorageData.t :=
  StorageData.mk [] [] [] [] (Counters.mk 0 0 0 0).

(** *** Field assignment on the in-memory document *)

Definition set_problems (data : StorageData.t) (v : list Problem.t) : StorageData.t :=
  StorageData.mk v (StorageData.ideas data) (StorageData.notes data)
    (StorageData.links data) (StorageData.counters data).

Definition set_ideas (data : StorageData.t) (v : list Idea.t) : StorageData.t :=
  StorageData.mk (StorageData.problems data) v (StorageData.notes data)
    (StorageData.links data) (StorageData.counters data).

Definition set_notes (data : StorageData.t) (v : list Note.t) : StorageData.t :=
  StorageData.mk (StorageData.problems data) (StorageData.ideas data) v
    (StorageData.links data) (StorageData.counters data).

Definition set_links (data : StorageData.t) (v : list ProblemIdeaLink.t) : StorageData.t :=
  StorageData.mk (StorageData.problems data) (StorageData.ideas data)
    (StorageData.notes data) v (StorageData.counters data).

Definition set_counters (data : StorageData.t) (v : Counters.t) : StorageData.t :=
  StorageData.mk (StorageData.problems data) (StorageData.ideas data)
    (StorageData.notes data) (StorageData.links data) v.

(** [data.counters[type]] *)
Definition counter (type : CounterKey) (data : StorageData.t) : Z :=
  match type with
  | key_problems => Counters.problems (StorageData.counters data)
  | key_ideas => Counters.ideas (StorageData.counters data)
  | key_notes => Counters.notes (StorageData.counters data)
  | key_links => Counters.links (StorageData.counters data)
  end.

(** [data.counters[type] = v] *)
Definition set_counter (type : CounterKey) (v : Z) (data : StorageData.t) : StorageData.t :=
  let c := StorageData.counters data in
  set_counters data
    match type with
    | key_problems => Counters.mk v (Counters.ideas c) (Counters.notes c) (Counters.links c)
    | key_ideas => Counters.mk (Counters.problems c) v (Counters.notes c) (Counters.links c)
    | key_notes => Counters.mk (Counters.problems c) (Counters.ideas c) v (Counters.links c)
    | key_links => Counters.mk (Counters.problems c) (Counters.ideas c) (Counters.notes c) v
    end.

(** [{ ...n, problem_id: v }] and [{ ...n, idea_id: v }] *)
Definition with_problem_id (n : Note.t) (v : option Z) : Note.t :=
  Note.mk (Note.id n) (Note.note_type n) (Note.content n) (Note.links n)
    v (Note.idea_id n) (Note.created_at n).

Definition with_idea_id (n : Note.t) (v : option Z) : Note.t :=
  Note.mk (Note.id n) (Note.note_type n) (Note.content n) (Note.links n)
    (Note.problem_id n) v (Note.created_at n).

(** [r === id] for a reference of type [number | null]: [null] equals no id. *)
Definition ref_is (r : option Z) (id : Z) : bool :=
  match r with
  | Some x => x =? id
  | None => false
  end.

(** ** Array helpers *)

(** [Array.prototype.findIndex]: the first index whose element satisfies the
    predicate, [-1] when there is none. *)
Fixpoint findIndex {A : Type} (f : A -> bool) (l : list A) : Z :=
  match l with
  | [] => -1
  | x :: l' =>
      if f x then 0
      else let i := findIndex f l' in if i =? -1 then -1 else i + 1
  end.

(** [arr[index] = g(arr[index])] for an index inside the array, the only way
    the store assigns by index (the index always comes from [findIndex] and
    was tested against [-1]). *)
Fixpoint assign_at {A : Type} (index : nat) (g : A -> A) (l : list A) : list A :=
  match l, index with
  | [], _ => []
  | x :: l', O => g x :: l'
  | x :: l', S i => x :: assign_at i g l'
  end.

(** [Array.prototype.sort] with a comparator.  The standard requires a stable
    sort and, for a consistent comparator, fixes the result: the elements in
    non-decreasing comparator order, equal ones in their original order.
    Insertion from the right computes exactly that list.  (For a comparator
    that is not consistent the standard leaves the order to the engine;
    order properties below are stated for dates that make it consistent.) *)
Fixpoint sort_insert {A : Type} (cmp : A -> A -> Z) (x : A) (l : list A) : list A :=
  match l with
  | [] => [x]
  | y :: l' => if cmp x y <=? 0 then x :: l else y :: sort_insert cmp x l'
  end.

Definition Array_sort {A : Type} (cmp : A -> A -> Z) (l : list A) : list A :=
  fold_right (sort_insert cmp) [] l.

(** ** The host: [window] and [localStorage]

    Outside a browser ([typeof window === 'undefined']) there is no store.
    In a browser the state is the value under [STORAGE_KEY]: absent, or a
    serialized document. *)
Inductive Host :=
| NoWindow
| Browser (item : option StorageData.t).

(** Store operations read and write the host. *)
Definition Store (A : Type) : Type := Host -> A * Host.

Definition ret {A : Type} (a : A) : Store A := fun h => (a, h).

Definition bind {A B : Type} (c : Store A) (k : A -> Store B) : Store B :=
  fun h => let (a, h') := c h in k a h'.

Notation "x <- c ;; k" := (bind c (fun x => k))
  (at level 61, c at next level, right associativity).
Notation "c ;; k" := (bind c (fun _ => k))
  (at level 61, right associativity).

Definition getStorageData : Store StorageData.t :=
  fun h =>
    match h with
    | NoWindow => (initial, NoWindow)
    | Browser None => (initial, Browser (Some initial))
    | Browser (Some stored) => (stored, h)
    end.

Definition saveStorageData (data : StorageData.t) : Store unit :=
  fun h =>
    match h with
    | NoWindow => (tt, NoWindow)
    | Browser _ => (tt, Browser (Some data))
    end.

(** ** Numbers

    Every integer of magnitude at most 2^53 is a double.  Beyond, the
    doubles between 2^e and 2^(e+1) are the multiples of 2^(e-52), and an
    integer rounds to the nearest of them, to the one with the even
    significand when it lies half way. *)
Definition two_53 : Z := 9007199254740992.

Definition round_double (y : Z) : Z :=
  let m := Z.abs y in
  if m <=? two_53 then y
  else
    let ulp := 2 ^ (Z.log2 m - 52) in
    let q := m / ulp in
    let r := m mod ulp in
    let q' :=
      if 2 * r <? ulp then q
      else if ulp <? 2 * r then q + 1
      else if Z.even q then q else q + 1 in
    Z.sgn y * (q' * ulp).

(** [x + 1] on doubles, the value [x++] stores. *)
Definition number_succ (x : Z) : Z := round_double (x + 1).

Arguments number_succ x : simpl never.

(** The value a counter holds after [n] increments. *)
Fixpoint advance (n : nat) (c : Z) : Z :=
  match n with
  | O => c
  | S n' => advance n' (number_succ c)
  end.

(** [data.counters[type]++; return data.counters[type]]: the mutated document
    is returned together with the id. *)
Definition getNextId (data : StorageData.t) (type : CounterKey) : Z * StorageData.t :=
  let data := set_counter type (number_succ (counter type data)) data in
  (counter type data, data).

(** The document a host holds, as every operation first reads it. *)
Definition document (h : Host) : StorageData.t := fst (getStorageData h).

(** ** Problems CRUD *)

(** Defaults of the source: [description = ''], [observed_context = ''],
    [severity = 3], [frequency = 'weekly'], [status = 'open'], [tags = '']. *)
Definition createProblem (now : string) (title description observed_context : string)
    (severity : Z) (frequency : Frequency) (status : ProblemStatus) (tags : string)
    : Store Z :=
  data <- getStorageData ;;
  let (id, data) := getNextId data key_problems in
  let problem :=
    Problem.mk id title description observed_context severity frequency status tags
      now now in
  let data := set_problems data (StorageData.problems data ++ [problem]) in
  saveStorageData data ;;
  ret id.

Section Dates.

(** [s => new Date(s).getTime()], [None] for [NaN]. *)
Variable Date_getTime : string -> option Z.

(** [new Date(b).getTime() - new Date(a).getTime()] on the two [created_at]
    strings; a [NaN] difference is read as [+0] by [sort]. *)
Definition by_created_at_desc (a b : string) : Z :=
  match Date_getTime b, Date_getTime a with
  | Some tb, Some ta => tb - ta
  | _, _ => 0
  end.

Definition getAllProblems : Store (list Problem.t) :=
  data <- getStorageData ;;
  ret (Array_sort
         (fun a b => by_created_at_desc (Problem.created_at a) (Problem.created_at b))
         (StorageData.problems data)).

Definition getAllIdeas : Store (list Idea.t) :=
  data <- getStorageData ;;
  ret (Array_sort
         (fun a b => by_created_at_desc (Idea.created_at a) (Idea.created_at b))
         (StorageData.ideas data)).

Definition getAllNotes : Store (list Note.t) :=
  data <- getStorageData ;;
  ret (Array_sort
         (fun a b => by_created_at_desc (Note.created_at a) (Note.created_at b))
         (StorageData.notes data)).

End Dates.

(** [find(...) || null]: a record is never falsy, so the result is the
    record found or [null]. *)
Definition getProblemById (id : Z) : Store (option Problem.t) :=
  data <- getStorageData ;;
  ret (find (fun p => Problem.id p =? id) (StorageData.problems data)).

Definition updateProblem (now : string) (id : Z) (title description observed_context : string)
    (severity : Z) (frequency : Frequency) (status : ProblemStatus) (tags : string)
    : Store bool :=
  data <- getStorageData ;;
  let index := findIndex (fun p => Problem.id p =? id) (StorageData.problems data) in
  if index =? -1 then ret false
  else
    let data :=
      set_problems data
        (assign_at (Z.to_nat index)
           (fun old =>
              Problem.mk (Problem.id old) title description observed_context severity
                frequency status tags (Problem.created_at old) now)
           (StorageData.problems data)) in
    saveStorageData data ;;
    ret true.

Definition deleteProblem (id : Z) : Store bool :=
  data <- getStorageData ;;
  let originalLen := length (StorageData.problems data) in
  let data :=
    set_problems data
      (filter (fun p => negb (Problem.id p =? id)) (StorageData.problems data)) in
  if (length (StorageData.problems data) <? originalLen)%nat then
    let data :=
      set_links data
        (filter (fun l => negb (ProblemIdeaLink.problem_id l =? id))
           (StorageData.links data)) in
    let data :=
      set_notes data
        (map (fun n => if ref_is (Note.problem_id n) id then with_problem_id n None else n)
           (StorageData.notes data)) in
    saveStorageData data ;;
    ret true
  else ret false.

(** ** Ideas CRUD *)

(** Defaults of the source: every text field [''], [status = 'new'],
    [score = null]. *)
Definition createIdea (now : string)
    (title pitch target_user value_prop differentiation assumptions risks : string)
    (status : IdeaStatus) (score : option Z) (tags : string) : Store Z :=
  data <- getStorageData ;;
  let (id, data) := getNextId data key_ideas in
  let idea :=
    Idea.mk id title pitch target_user value_prop differentiation assumptions risks
      status score tags now now in
  let data := set_ideas data (StorageData.ideas data ++ [idea]) in
  saveStorageData data ;;
  ret id.

Definition getIdeaById (id : Z) : Store (option Idea.t) :=
  data <- getStorageData ;;
  ret (find (fun i => Idea.id i =? id) (StorageData.ideas data)).

Definition updateIdea (now : string) (id : Z)
    (title pitch target_user value_prop differentiation assumptions risks : string)
    (status : IdeaStatus) (score : option Z) (tags : string) : Store bool :=
  data <- getStorageData ;;
  let index := findIndex (fun i => Idea.id i =? id) (StorageData.ideas data) in
  if index =? -1 then ret false
  else
    let data :=
      set_ideas data
        (assign_at (Z.to_nat index)
           (fun old =>
              Idea.mk (Idea.id old) title pitch target_user value_prop differentiation
                assumptions risks status score tags (Idea.created_at old) now)
           (StorageData.ideas data)) in
    saveStorageData data ;;
    ret true.

Definition deleteIdea (id : Z) : Store bool :=
  data <- getStorageData ;;
  let originalLen := length (StorageData.ideas data) in
  let data :=
    set_ideas data (filter (fun i => negb (Idea.id i =? id)) (StorageData.ideas data)) in
  if (length (StorageData.ideas data) <? originalLen)%nat then
    let data :=
      set_links data
        (filter (fun l => negb (ProblemIdeaLink.idea_id l =? id))
           (StorageData.links data)) in
    let data :=
      set_notes data
        (map (fun n => if ref_is (Note.idea_id n) id then with_idea_id n None else n)
           (StorageData.notes data)) in
    saveStorageData data ;;
    ret true
  else ret false.

(** ** Problem-idea links *)

Definition linkProblemToIdea (problem_id idea_id : Z) : Store bool :=
  data <- getStorageData ;;
  if existsb
       (fun l => (ProblemIdeaLink.problem_id l =? problem_id)
                 && (ProblemIdeaLink.idea_id l =? idea_id))
       (StorageData.links data)
  then ret false
  else
    let (id, data) := getNextId data key_links in
    let data :=
      set_links data (StorageData.links data ++ [ProblemIdeaLink.mk id problem_id idea_id]) in
    saveStorageData data ;;
    ret true.

Definition unlinkProblemFromIdea (problem_id idea_id : Z) : Store bool :=
  data <- getStorageData ;;
  let originalLen := length (StorageData.links data) in
  let data :=
    set_links data
      (filter
         (fun l => negb ((ProblemIdeaLink.problem_id l =? problem_id)
                         && (ProblemIdeaLink.idea_id l =? idea_id)))
         (StorageData.links data)) in
  if (length (StorageData.links data) <? originalLen)%nat then
    saveStorageData data ;;
    ret true
  else ret false.

(** [ids.includes(x)] *)
Definition includes (ids : list Z) (x : Z) : bool := existsb (fun y => y =? x) ids.

Definition getIdeasForProblem (problem_id : Z) : Store (list Idea.t) :=
  data <- getStorageData ;;
  let ideaIds :=
    map ProblemIdeaLink.idea_id
      (filter (fun l => ProblemIdeaLink.problem_id l =? problem_id)
         (StorageData.links data)) in
  ret (filter (fun i => includes ideaIds (Idea.id i)) (StorageData.ideas data)).

Definition getProblemsForIdea (idea_id : Z) : Store (list Problem.t) :=
  data <- getStorageData ;;
  let problemIds :=
    map ProblemIdeaLink.problem_id
      (filter (fun l => ProblemIdeaLink.idea_id l =? idea_id) (StorageData.links data)) in
  ret (filter (fun p => includes problemIds (Problem.id p)) (StorageData.problems data)).

Definition getLinkedProblemIdsForIdea (idea_id : Z) : Store (list Z) :=
  data <- getStorageData ;;
  ret (map ProblemIdeaLink.problem_id
         (filter (fun l => ProblemIdeaLink.idea_id l =? idea_id) (StorageData.links data))).

(** The body of the [forEach] callback of [setProblemLinksForIdea]. *)
Definition add_link (idea_id : Z) (data : StorageData.t) (problem_id : Z) : StorageData.t :=
  let (id, data) := getNextId data key_links in
  set_links data (StorageData.links data ++ [ProblemIdeaLink.mk id problem_id idea_id]).

Definition setProblemLinksForIdea (idea_id : Z) (problem_ids : list Z) : Store unit :=
  data <- getStorageData ;;
  let data :=
    set_links data
      (filter (fun l => negb (ProblemIdeaLink.idea_id l =? idea_id))
         (StorageData.links data)) in
  let data := fold_left (add_link idea_id) problem_ids data in
  saveStorageData data.

(** ** Notes CRUD *)

(** Defaults of the source: [links = ''], [problem_id = null],
    [idea_id = null]. *)
Definition createNote (now : string) (note_type : NoteType) (content links : string)
    (problem_id idea_id : option Z) : Store Z :=
  data <- getStorageData ;;
  let (id, data) := getNextId data key_notes in
  let note := Note.mk id note_type content links problem_id idea_id now in
  let data := set_notes data (StorageData.notes data ++ [note]) in
  saveStorageData data ;;
  ret id.

Definition getNoteById (id : Z) : Store (option Note.t) :=
  data <- getStorageData ;;
  ret (find (fun n => Note.id n =? id) (StorageData.notes data)).

Definition updateNote (id : Z) (note_type : NoteType) (content links : string)
    (problem_id idea_id : option Z) : Store bool :=
  data <- getStorageData ;;
  let index := findIndex (fun n => Note.id n =? id) (StorageData.notes data) in
  if index =? -1 then ret false
  else
    let data :=
      set_notes data
        (assign_at (Z.to_nat index)
           (fun old =>
              Note.mk (Note.id old) note_type content links problem_id idea_id
                (Note.created_at old))
           (StorageData.notes data)) in
    saveStorageData data ;;
    ret true.

Definition deleteNote (id : Z) : Store bool :=
  data <- getStorageData ;;
  let originalLen := length (StorageData.notes data) in
  let data :=
    set_notes data (filter (fun n => negb (Note.id n =? id)) (StorageData.notes data)) in
  if (length (StorageData.notes data) <? originalLen)%nat then
    saveStorageData data ;;
    ret true
  else ret false.

(** ** Data management *)

Definition exportAllData : Store StorageData.t := getStorageData.

(** [try { saveStorageData(data); return true } catch { return false }]:
    the write does not throw on the hosts modelled, so the call answers
    [true]; what it leaves is stated for the calls that answer [true]. *)
Definition importAllData (data : StorageData.t) : Store bool :=
  saveStorageData data ;;
  ret true.

Definition clearAllData : Store unit := saveStorageData initial.

(** ** Calls as data

    One constructor per mutating entry point, carrying the arguments of the
    call (and the clock reading, for those that stamp a date). *)
Inductive Op :=
| CreateProblem (now title description observed_context : string) (severity : Z)
    (frequency : Frequency) (status : ProblemStatus) (tags : string)
| UpdateProblem (now : string) (id : Z) (title description observed_context : string)
    (severity : Z) (frequency : Frequency) (status : ProblemStatus) (tags : string)
| DeleteProblem (id : Z)
| CreateIdea (now title pitch target_user value_prop differentiation assumptions risks : string)
    (status : IdeaStatus) (score : option Z) (tags : string)
| UpdateIdea (now : string) (id : Z)
    (title pitch target_user value_prop differentiation assumptions risks : string)
    (status : IdeaStatus) (score : option Z) (tags : string)
| DeleteIdea (id : Z)
| CreateNote (now : string) (note_type : NoteType) (content links : string)
    (problem_id idea_id : option Z)
| UpdateNote (id : Z) (note_type : NoteType) (content links : string)
    (problem_id idea_id : option Z)
| DeleteNote (id : Z)
| LinkProblemToIdea (problem_id idea_id : Z)
| UnlinkProblemFromIdea (problem_id idea_id : Z)
| SetProblemLinksForIdea (idea_id : Z) (problem_ids : list Z)
| ClearAllData
| ImportAllData (data : StorageData.t).

(** What a call hands back: a new id, a boolean, or nothing. *)
Inductive Ret :=
| RetId (id : Z)
| RetBool (b : bool)
| RetVoid.

Definition exec (o : Op) : Store Ret :=
  match o with
  | CreateProblem now t d oc sv f st tg =>
      id <- createProblem now t d oc sv f st tg ;; ret (RetId id)
  | UpdateProblem now id t d oc sv f st tg =>
      b <- updateProblem now id t d oc sv f st tg ;; ret (RetBool b)
  | DeleteProblem id => b <- deleteProblem id ;; ret (RetBool b)
  | CreateIdea now t p tu vp df a r st sc tg =>
      id <- createIdea now t p tu vp df a r st sc tg ;; ret (RetId id)
  | UpdateIdea now id t p tu vp df a r st sc tg =>
      b <- updateIdea now id t p tu vp df a r st sc tg ;; ret (RetBool b)
  | DeleteIdea id => b <- deleteIdea id ;; ret (RetBool b)
  | CreateNote now nt c l p i => id <- createNote now nt c l p i ;; ret (RetId id)
  | UpdateNote id nt c l p i => b <- updateNote id nt c l p i ;; ret (RetBool b)
  | DeleteNote id => b <- deleteNote id ;; ret (RetBool b)
  | LinkProblemToIdea p i => b <- linkProblemToIdea p i ;; ret (RetBool b)
  | UnlinkProblemFromIdea p i => b <- unlinkProblemFromIdea p i ;; ret (RetBool b)
  | SetProblemLinksForIdea i ps => setProblemLinksForIdea i ps ;; ret RetVoid
  | ClearAllData => clearAllData ;; ret RetVoid
  | ImportAllData data => b <- importAllData data ;; ret (RetBool b)
  end.

(** What a call does to the stored document, read off [exec] on a browser
    that holds the document. *)
Definition effect (o : Op) (data : StorageData.t) : Ret * StorageData.t :=
  let (r, h) := exec o (Browser (Some data)) in (r, document h).

(** The host after a sequence of calls. *)
Definition run (ops : list Op) (h : Host) : Host :=
  fold_left (fun h o => snd (exec o h)) ops h.


(** ** Vocabulary of the properties *)

(** The (problem_id, idea_id) pair a link joins. *)
Definition pair_of (l : ProblemIdeaLink.t) : Z * Z :=
  (ProblemIdeaLink.problem_id l, ProblemIdeaLink.idea_id l).

(** No two link records join the same pair. *)
Definition links_unique (data : StorageData.t) : Prop :=
  NoDup (map pair_of (StorageData.links data)).

Definition has_problem (data : StorageData.t) (id : Z) : bool :=
  existsb (fun p => Problem.id p =? id) (StorageData.problems data).

Definition has_idea (data : StorageData.t) (id : Z) : bool :=
  existsb (fun i => Idea.id i =? id) (StorageData.ideas data).

(** Both ends of a link are records of the document. *)
Definition link_resolves (data : StorageData.t) (l : ProblemIdeaLink.t) : bool :=
  has_problem data (ProblemIdeaLink.problem_id l)
  && has_idea data (ProblemIdeaLink.idea_id l).

Definition links_resolve (data : StorageData.t) : bool :=
  forallb (link_resolves data) (StorageData.links data).

(** The caller names only existing records in a call that introduces links. *)
Definition refs_exist (o : Op) (data : StorageData.t) : bool :=
  match o with
  | LinkProblemToIdea p i => has_problem data p && has_idea data i
  | SetProblemLinksForIdea i ps =>
      forallb (fun p => has_problem data p && has_idea data i) ps
  | ImportAllData d => links_resolve d
  | _ => true
  end.

(** [refs_exist] holds at the moment of each call of the sequence. *)
Fixpoint refs_exist_along (ops : list Op) (h : Host) : bool :=
  match ops with
  | [] => true
  | o :: rest => refs_exist o (document h) && refs_exist_along rest (snd (exec o h))
  end.

(** The last [n] elements of an array. *)
Definition last_n {A : Type} (n : nat) (l : list A) : list A :=
  skipn (length l - n) l.

(** The link records a call minted.  Each call of [getNextId] for a link is
    followed by the push of the link, and nothing is pushed after:
    [linkProblemToIdea] leaves one new link at the end when it answers
    [true], [setProblemLinksForIdea] one per problem id it was given. *)
Definition minted_links (o : Op) (r : Ret) (after : StorageData.t)
    : list ProblemIdeaLink.t :=
  match o, r with
  | LinkProblemToIdea _ _, RetBool true => last_n 1 (StorageData.links after)
  | SetProblemLinksForIdea _ ps, _ => last_n (length ps) (StorageData.links after)
  | _, _ => []
  end.



(** How many ids of a collection a call draws from the counter. *)
Definition mints (type : CounterKey) (o : Op) (data : StorageData.t) : Z :=
  match type, o with
  | key_problems, CreateProblem _ _ _ _ _ _ _ _ => 1
  | key_ideas, CreateIdea _ _ _ _ _ _ _ _ _ _ _ => 1
  | key_notes, CreateNote _ _ _ _ _ _ => 1
  | key_links, LinkProblemToIdea p i =>
      if existsb
           (fun l => (ProblemIdeaLink.problem_id l =? p) && (ProblemIdeaLink.idea_id l =? i))
           (StorageData.links data)
      then 0 else 1
  | key_links, SetProblemLinksForIdea _ ps => Z.of_nat (length ps)
  | _, _ => 0
  end.

(** The counter can take [n] increments exactly: it is an integer a double
    holds exactly, and so is each of the next [n]. *)
Definition counts_exactly (c n : Z) : Prop := - two_53 <= c /\ c + n <= two_53.

Definition counts_exactly_b (c n : Z) : bool := (- two_53 <=? c) && (c + n <=? two_53).

(** The call draws no id of the collection, or the counter takes its
    increments exactly. *)
Definition stays_exact (type : CounterKey) (o : Op) (data : StorageData.t) : bool :=
  (mints type o data =? 0) || counts_exactly_b (counter type data) (mints type o data).

(** [stays_exact] holds at the moment of each call of the sequence. *)
Fixpoint stays_exact_along (type : CounterKey) (ops : list Op) (h : Host) : bool :=
  match ops with
  | [] => true
  | o :: rest => stays_exact type o (document h) && stays_exact_along type rest (snd (exec o h))
  end.

(** The links of an idea, in storage order. *)
Definition links_of_idea (idea_id : Z) (data : StorageData.t) : list ProblemIdeaLink.t :=
  filter (fun l => ProblemIdeaLink.idea_id l =? idea_id) (StorageData.links data).

(** The instant a [created_at] string denotes is known to the host. *)
Definition valid_date (Date_getTime : string -> option Z) (s : string) : Prop :=
  Date_getTime s <> None.

(** Later-or-equal, on [created_at] strings. *)
Definition not_before (Date_getTime : string -> option Z) (a b : string) : Prop :=
  match Date_getTime a, Date_getTime b with
  | Some ta, Some tb => tb <= ta
  | _, _ => False
  end.

(** The [created_at] string denotes the instant [t]. *)
Definition at_instant (Date_getTime : string -> option Z) (t : Z) (s : string) : bool :=
  match Date_getTime s with
  | Some u => u =? t
  | None => false
  end.

(** The comparator of the listings, the order it sorts into and the
    records it can compare, for a collection whose dates [created_at]
    reads. *)
Definition created_at_cmp {A : Type} (Date_getTime : string -> option Z)
    (created_at : A -> string) (a b : A) : Z :=
  by_created_at_desc Date_getTime (created_at a) (created_at b).

Definition created_at_desc {A : Type} (Date_getTime : string -> option Z)
    (created_at : A -> string) (a b : A) : Prop :=
  not_before Date_getTime (created_at a) (created_at b).

Definition created_at_valid {A : Type} (Date_getTime : string -> option Z)
    (created_at : A -> string) (a : A) : Prop :=
  valid_date Date_getTime (created_at a).

(** The ids of a collection are increasing in storage order and none
    exceeds the counter. *)
Definition numbered_within {A : Type} (get_id : A -> Z) (c : Z) (l : list A) : Prop :=
  StronglySorted Z.lt (map get_id l) /\ Forall (fun x => get_id x <= c) l.

Definition well_numbered (data : StorageData.t) : Prop :=
  numbered_within Problem.id (counter key_problems data) (StorageData.problems data)
  /\ numbered_within Idea.id (counter key_ideas data) (StorageData.ideas data)
  /\ numbered_within Note.id (counter key_notes data) (StorageData.notes data)
  /\ numbered_within ProblemIdeaLink.id (counter key_links data) (StorageData.links data).

(** An import brings a well numbered document; any other call qualifies. *)
Definition keeps_numbering (o : Op) : Prop :=
  match o with
  | ImportAllData d => well_numbered d
  | _ => True
  end.

(** The call creates a problem and reads [now] on the clock. *)
Definition creates_problem_at (now : string) (o : Op) : Prop :=
  match o with
  | CreateProblem n _ _ _ _ _ _ _ => n = now
  | _ => False
  end.

(** No record of the collection carries the id; some record does. *)
Definition absent {A : Type} (get_id : A -> Z) (id : Z) (l : list A) : Prop :=
  ~ In id (map get_id l).

Definition present {A : Type} (get_id : A -> Z) (id : Z) (l : list A) : Prop :=
  In id (map get_id l).

(** A note after a problem was deleted: detached if it referenced the
    problem, the same note otherwise. *)
Definition detached_from_problem (id : Z) (n n' : Note.t) : Prop :=
  Note.id n' = Note.id n
  /\ Note.note_type n' = Note.note_type n
  /\ Note.content n' = Note.content n
  /\ Note.links n' = Note.links n
  /\ Note.idea_id n' = Note.idea_id n
  /\ Note.created_at n' = Note.created_at n
  /\ (Note.problem_id n = Some id -> Note.problem_id n' = None)
  /\ (Note.problem_id n <> Some id -> n' = n).

(** The links [setProblemLinksForIdea] pushes when the links counter is [c]:
    one per given problem id, each numbered by the next increment of the
    counter. *)
Fixpoint numbered_links (idea_id : Z) (c : Z) (problem_ids : list Z)
    : list ProblemIdeaLink.t :=
  match problem_ids with
  | [] => []
  | p :: ps =>
      ProblemIdeaLink.mk (number_succ c) p idea_id
      :: numbered_links idea_id (number_succ c) ps
  end.

(** The same document with other links and another links counter. *)
Definition relinked (data : StorageData.t) (links : list ProblemIdeaLink.t) (c : Z)
    : StorageData.t :=
  set_counter key_links c (set_links data links).

Definition Idea_eq_dec (a b : Idea.t) : {a = b} + {a <> b}.
Proof.
  repeat decide equality.
Defined.

Definition Problem_eq_dec (a b : Problem.t) : {a = b} + {a <> b}.
Proof.
  repeat decide equality.
Defined.

(** ** Sample data *)

Definition t0900 : string := "2024-03-01T09:00:00.000Z".
Definition t0930 : string := "2024-03-01T09:30:00.000Z".
Definition t1000 : string := "2024-03-01T10:00:00.000Z".

(** What [new Date(s).getTime()] gives on the three sample strings (and
    [NaN] on a string that is no date). *)
Definition sample_getTime (s : string) : option Z :=
  if String.eqb s t0900 then Some 1709283600000
  else if String.eqb s t0930 then Some 1709285400000
  else if String.eqb s t1000 then Some 1709287200000
  else None.

Definition sample_document : StorageData.t :=
  StorageData.mk
    [ Problem.mk 1 "Slow onboarding" "Setup takes days" "Customer calls" 4 weekly open
        "onboarding" t0900 t0900;
      Problem.mk 2 "Churn after trial" "Users leave" "Analytics" 3 daily open
        "retention" t0930 t0930 ]
    [ Idea.mk 1 "Guided setup wizard" "Wizard" "Admins" "Faster start" "Guided"
        "Users read" "Scope" new None "onboarding" t0900 t0900;
      Idea.mk 2 "Trial concierge" "Human help" "Trials" "Retention" "Personal"
        "Cost" "Scale" researching (Some 70) "retention" t1000 t1000 ]
    [ Note.mk 1 interview "Call with admin" "n/a" (Some 1) (Some 1) t0900;
      Note.mk 2 general "Unrelated thought" "n/a" None (Some 2) t0930;
      Note.mk 3 pricing "Pricing of setup" "n/a" (Some 2) None t1000 ]
    [ ProblemIdeaLink.mk 1 1 1;
      ProblemIdeaLink.mk 2 1 2;
      ProblemIdeaLink.mk 3 2 1 ]
    (Counters.mk 2 2 3 3).

Definition sample_host : Host := Browser (Some sample_document).

(** Three problems created one after the other, at the clock readings
    given. *)
Definition create_ABC (nowA nowB nowC : string) : list Op :=
  [ CreateProblem nowA "A" "first" "ctx" 3 weekly open "t";
    CreateProblem nowB "B" "second" "ctx" 3 weekly open "t";
    CreateProblem nowC "C" "third" "ctx" 3 weekly open "t" ].

(** A session: two problems and an idea are created, linked one by one and
    then at once; a problem is deleted; a link is made again. *)
Definition sample_calls : list Op :=
  [ CreateProblem t0900 "Slow onboarding" "Setup takes days" "Calls" 4 weekly open "ux";
    CreateProblem t0930 "Churn after trial" "Users leave" "Analytics" 3 daily open "ux";
    CreateIdea t0930 "Guided setup wizard" "Wizard" "Admins" "Speed" "Guided" "Read"
      "Scope" new None "ux";
    LinkProblemToIdea 1 1;
    SetProblemLinksForIdea 1 [2; 1];
    DeleteProblem 1;
    CreateProblem t1000 "Pricing unclear" "Tiers" "Sales" 2 rare open "pricing";
    LinkProblemToIdea 3 1 ].

(** A document in which two link records join problem 1 and idea 1. *)
Definition doubly_linked : StorageData.t :=
  set_links sample_document
    [ ProblemIdeaLink.mk 1 1 1; ProblemIdeaLink.mk 2 1 1; ProblemIdeaLink.mk 3 2 1 ].

(** A document whose problems counter and links counter stand one below
    2^53, with no record yet; the store takes it as it takes any document
    ([importAllData] reads nothing of what it writes). *)
Definition nearly_full : StorageData.t :=
  StorageData.mk [] [] [] [] (Counters.mk (two_53 - 1) 0 0 (two_53 - 1)).

Definition nearly_full_host : Host := Browser (Some nearly_full).

(** ** Aggregates, recent records, notes of a record ([storage.ts]) *)

(** [a === b] on the two status enumerations. *)
Definition ProblemStatus_eqb (a b : ProblemStatus) : bool :=
  match a, b with
  | open, open | solved, solved | ignored, ignored => true
  | _, _ => false
  end.

Definition IdeaStatus_eqb (a b : IdeaStatus) : bool :=
  match a, b with
  | new, new | researching, researching | validating, validating
  | building, building | parked, parked => true
  | _, _ => false
  end.

(** [counts[key] = (counts[key] || 0) + 1] on a [Record<string, number>]
    that starts empty.  The object is kept as the list of its entries in
    insertion order, the order [Object.entries] and [Object.values] walk
    for keys like these: a key already there keeps its place and gets its
    value plus one, a new key is added at the end with [(undefined || 0) + 1]. *)
Fixpoint count_up {K : Type} (eqb : K -> K -> bool) (key : K) (counts : list (K * Z))
    : list (K * Z) :=
  match counts with
  | [] => [(key, 0 + 1)]
  | (k, v) :: rest =>
      if eqb k key then (k, v + 1) :: rest else (k, v) :: count_up eqb key rest
  end.

(** [counts[key]], [None] for [undefined]. *)
Fixpoint count_of {K : Type} (eqb : K -> K -> bool) (key : K) (counts : list (K * Z))
    : option Z :=
  match counts with
  | [] => None
  | (k, v) :: rest => if eqb k key then Some v else count_of eqb key rest
  end.

Definition getProblemsCountByStatus : Store (list (ProblemStatus * Z)) :=
  data <- getStorageData ;;
  ret (fold_left (fun counts p => count_up ProblemStatus_eqb (Problem.status p) counts)
         (StorageData.problems data) []).

Definition getIdeasCountByStatus : Store (list (IdeaStatus * Z)) :=
  data <- getStorageData ;;
  ret (fold_left (fun counts i => count_up IdeaStatus_eqb (Idea.status i) counts)
         (StorageData.ideas data) []).

(** [Object.values(counts).reduce((a, b) => a + b, 0)], the total the
    dashboard and the home page show. *)
Definition total_of {K : Type} (counts : list (K * Z)) : Z :=
  fold_left (fun a b => a + b) (map snd counts) 0.

(** [arr.slice(0, end)] for an integer [end]: a negative [end] counts from
    the end of the array, and the bound is clamped to the array. *)
Definition slice0 {A : Type} (end_ : Z) (l : list A) : list A :=
  let len := Z.of_nat (length l) in
  let final := if end_ <? 0 then Z.max (len + end_) 0 else Z.min end_ len in
  firstn (Z.to_nat final) l.

Section DatedQueries.

Variable Date_getTime : string -> option Z.

(** Default of the source: [limit = 5]. *)
Definition getRecentProblems (limit : Z) : Store (list Problem.t) :=
  all <- getAllProblems Date_getTime ;;
  ret (slice0 limit all).

Definition getRecentIdeas (limit : Z) : Store (list Idea.t) :=
  all <- getAllIdeas Date_getTime ;;
  ret (slice0 limit all).

Definition getNotesForProblem (problem_id : Z) : Store (list Note.t) :=
  data <- getStorageData ;;
  ret (Array_sort
         (fun a b => by_created_at_desc Date_getTime (Note.created_at a) (Note.created_at b))
         (filter (fun n => ref_is (Note.problem_id n) problem_id) (StorageData.notes data))).

Definition getNotesForIdea (idea_id : Z) : Store (list Note.t) :=
  data <- getStorageData ;;
  ret (Array_sort
         (fun a b => by_created_at_desc Date_getTime (Note.created_at a) (Note.created_at b))
         (filter (fun n => ref_is (Note.idea_id n) idea_id) (StorageData.notes data))).

End DatedQueries.

(** ** The ideas page: the checkbox of a problem in the idea form

    [toggleProblemLink] updates [form.linkedProblemIds]: a checked problem is
    taken out, an unchecked one is added at the end. *)
Definition toggleProblemLink (linkedProblemIds : list Z) (problemId : Z) : list Z :=
  if includes linkedProblemIds problemId
  then filter (fun id => negb (id =? problemId)) linkedProblemIds
  else linkedProblemIds ++ [problemId].

(** A note after an idea was deleted: detached if it referenced the idea,
    the same note otherwise. *)
Definition detached_from_idea (id : Z) (n n' : Note.t) : Prop :=
  Note.id n' = Note.id n
  /\ Note.note_type n' = Note.note_type n
  /\ Note.content n' = Note.content n
  /\ Note.links n' = Note.links n
  /\ Note.problem_id n' = Note.problem_id n
  /\ Note.created_at n' = Note.created_at n
  /\ (Note.idea_id n = Some id -> Note.idea_id n' = None)
  /\ (Note.idea_id n <> Some id -> n' = n).

(** [l'] is [l] with the first element that satisfies [f] replaced by its
    image under [g], everything else in place. *)
Inductive first_replaced {A : Type} (f : A -> bool) (g : A -> A) : list A -> list A -> Prop :=
| first_replaced_here (x : A) (l : list A) :
    f x = true -> first_replaced f g (x :: l) (g x :: l)
| first_replaced_later (x : A) (l l' : list A) :
    f x = false -> first_replaced f g l l' -> first_replaced f g (x :: l) (x :: l').

(** The call cannot put two links on one pair: a replacement is given
    pairwise different problem ids, an import brings a document with one
    link per pair. *)
Definition gives_unique_links (o : Op) : Prop :=
  match o with
  | SetProblemLinksForIdea _ ps => NoDup ps
  | ImportAllData d => links_unique d
  | _ => True
  end.

(** ** The notes page: the filters above the list

    [applyFilters] narrows the loaded notes by type, problem and idea.
    [filterType] is ['All'] or one of the note types, the options of its
    select: [None] stands for ['All'].  [filterProblem] and [filterIdea]
    are a number or [null]. *)
Definition NoteType_eqb (a b : NoteType) : bool :=
  match a, b with
  | interview, interview | competitor, competitor | pricing, pricing
  | tech, tech | general, general => true
  | _, _ => false
  end.

Module NotesPage.

Definition applyFilters (notes : list Note.t) (filterType : option NoteType)
    (filterProblem filterIdea : option Z) : list Note.t :=
  let filtered := notes in
  let filtered :=
    match filterType with
    | Some type => filter (fun n => NoteType_eqb (Note.note_type n) type) filtered
    | None => filtered
    end in
  let filtered :=
    match filterProblem with
    | Some problem => filter (fun n => ref_is (Note.problem_id n) problem) filtered
    | None => filtered
    end in
  let filtered :=
    match filterIdea with
    | Some idea => filter (fun n => ref_is (Note.idea_id n) idea) filtered
    | None => filtered
    end in
  filtered.

End NotesPage.

(** ** The problems page and the ideas page: the filters above the list *)

(** A string in a condition: the empty string is falsy. *)
Definition truthy (s : string) : bool :=
  match s with
  | EmptyString => false
  | String _ _ => true
  end.

(** [s.includes(t)]: [t] occurs in [s] at some position; the empty string
    occurs in every string. *)
Fixpoint String_includes (s t : string) : bool :=
  String.prefix t s
  || match s with
     | EmptyString => false
     | String _ rest => String_includes rest t
     end.

(** [s.split(',')]: the pieces between the commas, in order; one piece more
    than there are commas, empty pieces included. *)
Fixpoint split_comma (s : string) : list string :=
  match s with
  | EmptyString => [EmptyString]
  | String c rest =>
      if Ascii.eqb c ","%char then EmptyString :: split_comma rest
      else match split_comma rest with
           | piece :: pieces => String c piece :: pieces
           | [] => [String c EmptyString]
           end
  end.

Section PageFilters.

(** [s.toLowerCase()] and [s.trim()], functions of the host. *)
Variable toLowerCase : string -> string.
Variable trim : string -> string.

(** [filterTags.toLowerCase().split(',').map((t) => t.trim())] *)
Definition filter_terms (filterTags : string) : list string :=
  map trim (split_comma (toLowerCase filterTags)).

(** [tags && terms.some((t) => tags.toLowerCase().includes(t))] *)
Definition matches_tags (terms : list string) (tags : string) : bool :=
  truthy tags && existsb (fun t => String_includes (toLowerCase tags) t) terms.

(** [applyFilters] of the problems page.  [filterStatus] is ['All'] or a
    status, [filterSeverity] is ['All'] or the text of a number, as their
    selects offer: [None] stands for ['All'], [Some n] for the text that
    [Number] reads as [n]. *)
Definition ProblemsPage_applyFilters (problems : list Problem.t)
    (filterStatus : option ProblemStatus) (filterSeverity : option Z)
    (filterTags keyword : string) : list Problem.t :=
  let filtered := problems in
  let filtered :=
    match filterStatus with
    | Some status => filter (fun p => ProblemStatus_eqb (Problem.status p) status) filtered
    | None => filtered
    end in
  let filtered :=
    match filterSeverity with
    | Some severity => filter (fun p => Problem.severity p =? severity) filtered
    | None => filtered
    end in
  let filtered :=
    if truthy filterTags then
      let tags := filter_terms filterTags in
      filter (fun p => matches_tags tags (Problem.tags p)) filtered
    else filtered in
  let filtered :=
    if truthy keyword then
      let kw := toLowerCase keyword in
      filter
        (fun p => String_includes (toLowerCase (Problem.title p)) kw
                  || String_includes (toLowerCase (Problem.description p)) kw)
        filtered
    else filtered in
  filtered.

(** [applyFilters] of the ideas page. *)
Definition IdeasPage_applyFilters (ideas : list Idea.t)
    (filterStatus : option IdeaStatus) (filterTags keyword : string) : list Idea.t :=
  let filtered := ideas in
  let filtered :=
    match filterStatus with
    | Some status => filter (fun i => IdeaStatus_eqb (Idea.status i) status) filtered
    | None => filtered
    end in
  let filtered :=
    if truthy filterTags then
      let tags := filter_terms filterTags in
      filter (fun i => matches_tags tags (Idea.tags i)) filtered
    else filtered in
  let filtered :=
    if truthy keyword then
      let kw := toLowerCase keyword in
      filter
        (fun i => String_includes (toLowerCase (Idea.title i)) kw
                  || String_includes (toLowerCase (Idea.pitch i)) kw)
        filtered
    else filtered in
  filtered.

End PageFilters.

(** On lower-case text without blanks around it, [toLowerCase] and [trim]
    change nothing; the samples below use such text only. *)
Definition sample_toLowerCase (s : string) : string := s.
Definition sample_trim (s : string) : string := s.

(** * Properties *)

(** ** Reading and writing the host *)

Lemma document_stored (d : StorageData.t) : document (Browser (Some d)) = d.
Proof. reflexivity. Qed.

Lemma document_absent : document (Browser None) = initial.
Proof. reflexivity. Qed.

Lemma document_no_window : document NoWindow = initial.
Proof. reflexivity. Qed.

Lemma document_after_read (h : Host) : document (snd (getStorageData h)) = document h.
Proof. destruct h as [|[d|]]; reflexivity. Qed.

Lemma getStorageData_browser (item : option StorageData.t) :
  getStorageData (Browser item)
  = (document (Browser item), Browser (Some (document (Browser item)))).
Proof. destruct item; reflexivity. Qed.

Lemma saveStorageData_browser (data : StorageData.t) (item : option StorageData.t) :
  saveStorageData data (Browser item) = (tt, Browser (Some data)).
Proof. reflexivity. Qed.

(** Every operation starts with [getStorageData]: its outcome on a host is
    its outcome on the host left by that first read. *)
Lemma bind_read {A : Type} (k : StorageData.t -> Store A) (h : Host) :
  (data <- getStorageData ;; k data) h = k (document h) (snd (getStorageData h)).
Proof. unfold bind. destruct (getStorageData h) eqn:E. unfold document. rewrite E. reflexivity. Qed.

Ltac store_unfold :=
  unfold exportAllData, importAllData, clearAllData,
    getProblemById, getIdeaById, getNoteById,
    createProblem, createIdea, createNote,
    updateProblem, updateIdea, updateNote,
    deleteProblem, deleteIdea, deleteNote,
    linkProblemToIdea, unlinkProblemFromIdea, setProblemLinksForIdea,
    getIdeasForProblem, getProblemsForIdea, getLinkedProblemIdsForIdea.

(** ** Array helpers *)

Lemma findIndex_ge {A : Type} (f : A -> bool) (l : list A) : -1 <= findIndex f l.
Proof.
  induction l as [|x l IH]; simpl; [lia|].
  destruct (f x); [lia|].
  destruct (findIndex f l =? -1) eqn:E; lia.
Qed.

Lemma findIndex_none {A : Type} (f : A -> bool) (l : list A) :
  findIndex f l = -1 <-> forall x, In x l -> f x = false.
Proof.
  induction l as [|x l IH]; simpl.
  - split; [intros _ y []|reflexivity].
  - destruct (f x) eqn:Fx.
    + split; [discriminate|]. intros H. specialize (H x (or_introl eq_refl)). congruence.
    + pose proof (findIndex_ge f l) as Hge.
      destruct (findIndex f l =? -1) eqn:E.
      * apply Z.eqb_eq in E. split; [|reflexivity].
        intros _ y [<-|Hy]; [assumption|]. now apply IH.
      * apply Z.eqb_neq in E. split; [lia|].
        intros H. exfalso. apply E, IH. intros y Hy. apply H. now right.
Qed.

Lemma find_none_iff {A : Type} (f : A -> bool) (l : list A) :
  find f l = None <-> forall x, In x l -> f x = false.
Proof.
  split; [apply find_none|].
  induction l as [|x l IH]; simpl; intros H; [reflexivity|].
  rewrite (H x (or_introl eq_refl)). apply IH. intros y Hy. apply H. now right.
Qed.

Lemma filter_all {A : Type} (f : A -> bool) (l : list A) :
  (forall x, In x l -> f x = true) -> filter f l = l.
Proof.
  induction l as [|x l IH]; simpl; intros H; [reflexivity|].
  rewrite (H x (or_introl eq_refl)). f_equal. apply IH. intros y Hy. apply H. now right.
Qed.

Lemma filter_length_lt {A : Type} (f : A -> bool) (l : list A) :
  (length (filter f l) < length l)%nat <-> exists x, In x l /\ f x = false.
Proof.
  induction l as [|x l IH]; simpl.
  - split; [lia|intros (y & [] & _)].
  - pose proof (filter_length_le f l) as Hle.
    destruct (f x) eqn:Fx; simpl.
    + rewrite <- Nat.succ_lt_mono, IH. split.
      * intros (y & Hy & Fy). exists y. auto.
      * intros (y & [<-|Hy] & Fy); [congruence|]. exists y. auto.
    + split; [|lia]. intros _. exists x. auto.
Qed.

Lemma absent_differs {A : Type} (get_id : A -> Z) (id : Z) (l : list A) :
  absent get_id id l -> forall x, In x l -> (get_id x =? id) = false.
Proof.
  intros H x Hx. apply Z.eqb_neq. intros E. apply H. rewrite <- E. now apply in_map.
Qed.

Lemma present_some {A : Type} (get_id : A -> Z) (id : Z) (l : list A) :
  present get_id id l <-> exists x, In x l /\ (get_id x =? id) = true.
Proof.
  unfold present. rewrite in_map_iff. split; intros (x & H1 & H2); exists x.
  - split; [assumption|]. now apply Z.eqb_eq.
  - split; [|assumption]. now apply Z.eqb_eq.
Qed.

Lemma present_or_absent {A : Type} (get_id : A -> Z) (id : Z) (l : list A) :
  present get_id id l \/ absent get_id id l.
Proof.
  unfold present, absent. destruct (in_dec Z.eq_dec id (map get_id l)); auto.
Qed.

Lemma absent_filter_same {A : Type} (get_id : A -> Z) (id : Z) (l : list A) :
  absent get_id id l -> filter (fun x => negb (get_id x =? id)) l = l.
Proof.
  intros H. apply filter_all. intros x Hx.
  now rewrite (absent_differs get_id id l H x Hx).
Qed.

(** ** Counting on doubles *)

(** Up to 2^53 the increment is exact. *)
Lemma number_succ_exact (x : Z) : - two_53 <= x < two_53 -> number_succ x = x + 1.
Proof.
  intros H. unfold number_succ, round_double. cbv zeta.
  destruct (Z.leb_spec (Z.abs (x + 1)) two_53) as [_|Hgt]; [reflexivity|].
  unfold two_53 in *. lia.
Qed.

(** At 2^53 it changes nothing; further up it lands on a double next to
    the counter, or on the counter again. *)
Example number_succ_from_two_53 :
  number_succ (two_53 - 1) = two_53
  /\ number_succ two_53 = two_53
  /\ number_succ (two_53 + 2) = two_53 + 4
  /\ number_succ (2 * two_53) = 2 * two_53.
Proof. repeat split; reflexivity. Qed.

Lemma counts_exactly_b_spec (c n : Z) : counts_exactly_b c n = true <-> counts_exactly c n.
Proof.
  unfold counts_exactly_b, counts_exactly.
  rewrite andb_true_iff, !Z.leb_le. reflexivity.
Qed.

Lemma number_succ_one (c : Z) : counts_exactly c 1 -> number_succ c = c + 1.
Proof. intros (H1 & H2). apply number_succ_exact. lia. Qed.

Lemma number_succ_first (c : Z) (n : nat) :
  counts_exactly c (Z.of_nat (S n)) -> number_succ c = c + 1.
Proof. intros (H1 & H2). apply number_succ_exact. lia. Qed.

Lemma counts_exactly_next (c : Z) (n : nat) :
  counts_exactly c (Z.of_nat (S n)) -> counts_exactly (c + 1) (Z.of_nat n).
Proof. unfold counts_exactly. lia. Qed.

Lemma advance_exact (n : nat) (c : Z) :
  counts_exactly c (Z.of_nat n) -> advance n c = c + Z.of_nat n.
Proof.
  revert c. induction n as [|n IH]; intros c Hc; cbn [advance]; [lia|].
  rewrite (number_succ_first c n Hc), (IH _ (counts_exactly_next c n Hc)). lia.
Qed.

(** ** Export and import *)

(** C5: importing what was just exported leaves the four collections and
    the four counters as they were; the import reports success. *)
Theorem export_import_roundtrip (h : Host) :
  let exported := exportAllData h in
  let imported := importAllData (fst exported) (snd exported) in
  fst imported = true
  /\ document (snd imported) = document h
  /\ StorageData.problems (document (snd imported)) = StorageData.problems (document h)
  /\ StorageData.ideas (document (snd imported)) = StorageData.ideas (document h)
  /\ StorageData.notes (document (snd imported)) = StorageData.notes (document h)
  /\ StorageData.links (document (snd imported)) = StorageData.links (document h)
  /\ (forall type, counter type (document (snd imported)) = counter type (document h)).
Proof.
  destruct h as [|[d|]]; cbn; repeat split; reflexivity.
Qed.

(** ** A missing id *)

Section Missing.

Context {A : Type} (get_id : A -> Z) (id : Z) (l : list A).
Hypothesis Habsent : absent get_id id l.

Lemma find_absent : find (fun x => get_id x =? id) l = None.
Proof. apply find_none_iff, absent_differs, Habsent. Qed.

Lemma findIndex_absent : findIndex (fun x => get_id x =? id) l = -1.
Proof. apply findIndex_none, absent_differs, Habsent. Qed.

Lemma filter_absent_length :
  Nat.ltb (length (filter (fun x => negb (get_id x =? id)) l)) (length l) = false.
Proof. rewrite absent_filter_same by assumption. apply Nat.ltb_irrefl. Qed.

End Missing.

Lemma missing_problem (h : Host) (id : Z) :
  absent Problem.id id (StorageData.problems (document h)) ->
  fst (getProblemById id h) = None
  /\ (forall now t d oc sv f st tg,
        updateProblem now id t d oc sv f st tg h = (false, snd (getStorageData h)))
  /\ deleteProblem id h = (false, snd (getStorageData h)).
Proof.
  intros H. store_unfold. rewrite !bind_read. repeat split.
  - cbn. now apply find_absent.
  - intros. rewrite bind_read, findIndex_absent by assumption. reflexivity.
  - cbn [set_problems StorageData.problems]. rewrite filter_absent_length by assumption.
    reflexivity.
Qed.

Lemma missing_idea (h : Host) (id : Z) :
  absent Idea.id id (StorageData.ideas (document h)) ->
  fst (getIdeaById id h) = None
  /\ (forall now t p tu vp df a r st sc tg,
        updateIdea now id t p tu vp df a r st sc tg h = (false, snd (getStorageData h)))
  /\ deleteIdea id h = (false, snd (getStorageData h)).
Proof.
  intros H. store_unfold. rewrite !bind_read. repeat split.
  - cbn. now apply find_absent.
  - intros. rewrite bind_read, findIndex_absent by assumption. reflexivity.
  - cbn [set_ideas StorageData.ideas]. rewrite filter_absent_length by assumption.
    reflexivity.
Qed.

Lemma missing_note (h : Host) (id : Z) :
  absent Note.id id (StorageData.notes (document h)) ->
  fst (getNoteById id h) = None
  /\ (forall nt c l p i, updateNote id nt c l p i h = (false, snd (getStorageData h)))
  /\ deleteNote id h = (false, snd (getStorageData h)).
Proof.
  intros H. store_unfold. rewrite !bind_read. repeat split.
  - cbn. now apply find_absent.
  - intros. rewrite bind_read, findIndex_absent by assumption. reflexivity.
  - cbn [set_notes StorageData.notes]. rewrite filter_absent_length by assumption.
    reflexivity.
Qed.

(** C9: with an id that no record of the collection carries, the lookup by
    id gives the absent result, and update and delete answer [false] and
    write nothing: the host is the one a plain read leaves, which holds the
    same document (and is the very same host once a document is stored). *)
Theorem missing_id_is_reported (h : Host) (id : Z) :
  (document (snd (getStorageData h)) = document h
   /\ forall d, h = Browser (Some d) -> snd (getStorageData h) = h)
  /\ (absent Problem.id id (StorageData.problems (document h)) ->
      fst (getProblemById id h) = None
      /\ (forall now t d oc sv f st tg,
            updateProblem now id t d oc sv f st tg h = (false, snd (getStorageData h)))
      /\ deleteProblem id h = (false, snd (getStorageData h)))
  /\ (absent Idea.id id (StorageData.ideas (document h)) ->
      fst (getIdeaById id h) = None
      /\ (forall now t p tu vp df a r st sc tg,
            updateIdea now id t p tu vp df a r st sc tg h = (false, snd (getStorageData h)))
      /\ deleteIdea id h = (false, snd (getStorageData h)))
  /\ (absent Note.id id (StorageData.notes (document h)) ->
      fst (getNoteById id h) = None
      /\ (forall nt c l p i, updateNote id nt c l p i h = (false, snd (getStorageData h)))
      /\ deleteNote id h = (false, snd (getStorageData h))).
Proof.
  split; [split; [apply document_after_read | intros d ->; reflexivity]|].
  split; [apply missing_problem|]. split; [apply missing_idea | apply missing_note].
Qed.

Lemma missing_id_is_reported_witness :
  absent Problem.id 99 (StorageData.problems (document sample_host))
  /\ absent Idea.id 99 (StorageData.ideas (document sample_host))
  /\ absent Note.id 99 (StorageData.notes (document sample_host))
  /\ fst (getProblemById 99 sample_host) = None
  /\ deleteProblem 99 sample_host = (false, sample_host)
  /\ updateIdea t1000 99 "t" "p" "u" "v" "d" "a" "r" parked None "x" sample_host
     = (false, sample_host)
  /\ fst (getNoteById 99 sample_host) = None
  /\ deleteNote 99 sample_host = (false, sample_host).
Proof.
  assert (Hp : absent Problem.id 99 (StorageData.problems (document sample_host))).
  { unfold absent. cbn. intros [H|[H|[]]]; discriminate H. }
  assert (Hi : absent Idea.id 99 (StorageData.ideas (document sample_host))).
  { unfold absent. cbn. intros [H|[H|[]]]; discriminate H. }
  assert (Hn : absent Note.id 99 (StorageData.notes (document sample_host))).
  { unfold absent. cbn. intros [H|[H|[H|[]]]]; discriminate H. }
  destruct (missing_id_is_reported sample_host 99) as ((_ & Hsame) & HP & HI & HN).
  specialize (Hsame sample_document eq_refl).
  destruct (HP Hp) as (P1 & _ & P3).
  destruct (HI Hi) as (_ & I2 & _).
  destruct (HN Hn) as (N1 & _ & N3).
  rewrite Hsame in P3, N3.
  specialize (I2 t1000 "t" "p" "u" "v" "d" "a" "r" parked None "x")%string.
  rewrite Hsame in I2.
  split; [exact Hp|]. split; [exact Hi|]. split; [exact Hn|]. split; [exact P1|].
  split; [exact P3|]. split; [exact I2|]. split; [exact N1 | exact N3].
Defined.

(** ** Deleting a problem *)

Lemma filter_length_ltb_present {A : Type} (get_id : A -> Z) (id : Z) (l : list A) :
  present get_id id l ->
  Nat.ltb (length (filter (fun x => negb (get_id x =? id)) l)) (length l) = true.
Proof.
  intros H. apply Nat.ltb_lt, filter_length_lt.
  apply present_some in H. destruct H as (x & Hx & E). exists x. now rewrite E.
Qed.

Lemma In_filter_differs {A : Type} (get_id : A -> Z) (id : Z) (l : list A) (x : A) :
  In x (filter (fun x => negb (get_id x =? id)) l) <-> In x l /\ get_id x <> id.
Proof.
  rewrite filter_In, negb_true_iff, Z.eqb_neq. reflexivity.
Qed.

Lemma ref_is_true (r : option Z) (id : Z) : ref_is r id = true <-> r = Some id.
Proof.
  destruct r as [x|]; simpl.
  - rewrite Z.eqb_eq. split; congruence.
  - split; discriminate.
Qed.

Lemma detach_notes (id : Z) (l : list Note.t) :
  Forall2 (detached_from_problem id) l
    (map (fun n => if ref_is (Note.problem_id n) id then with_problem_id n None else n) l).
Proof.
  induction l as [|n l IH]; simpl; constructor; [|assumption].
  unfold detached_from_problem. destruct (ref_is (Note.problem_id n) id) eqn:E.
  - apply ref_is_true in E. cbn. repeat split; try reflexivity. intros H. congruence.
  - repeat split; try reflexivity. intros H. apply ref_is_true in H. congruence.
Qed.

(** C3: deleting a problem whose id is present answers [true] and leaves a
    document without that problem, without any link to it, with every note
    kept and detached exactly when it referenced the problem, and with the
    ideas (and the counters) as they were.  With an id that is not present
    the answer is [false]. *)
Theorem deleteProblem_cascades (h : Host) (id : Z) :
  let before := document h in
  let result := deleteProblem id h in
  let after := document (snd result) in
  (present Problem.id id (StorageData.problems before) ->
   fst result = true
   /\ (forall p, In p (StorageData.problems after)
                 <-> In p (StorageData.problems before) /\ Problem.id p <> id)
   /\ absent Problem.id id (StorageData.problems after)
   /\ (forall l, In l (StorageData.links after)
                 <-> In l (StorageData.links before) /\ ProblemIdeaLink.problem_id l <> id)
   /\ Forall2 (detached_from_problem id) (StorageData.notes before) (StorageData.notes after)
   /\ StorageData.ideas after = StorageData.ideas before
   /\ StorageData.counters after = StorageData.counters before)
  /\ (absent Problem.id id (StorageData.problems before) -> fst result = false).
Proof.
  cbv zeta. split.
  - intros Hin. unfold deleteProblem. rewrite bind_read.
    cbn [set_problems StorageData.problems].
    rewrite filter_length_ltb_present by assumption.
    pose proof (document_after_read h) as Hd.
    destruct h as [|item].
    + exfalso. unfold present in Hin. cbn in Hin. exact Hin.
    + rewrite getStorageData_browser. cbn [snd]. unfold bind, ret.
      rewrite saveStorageData_browser. cbn [fst snd]. rewrite document_stored.
      cbn [set_notes set_links StorageData.problems StorageData.ideas StorageData.notes
             StorageData.links StorageData.counters].
      split; [reflexivity|].
      split; [intros p; apply In_filter_differs|].
      split.
      { unfold absent. rewrite in_map_iff. intros (p & E & Hp).
        apply In_filter_differs in Hp. tauto. }
      split; [intros l; apply In_filter_differs|].
      split; [apply detach_notes|].
      split; reflexivity.
  - intros Habs. now rewrite (proj2 (proj2 (missing_problem h id Habs))).
Qed.

Lemma deleteProblem_cascades_witness :
  present Problem.id 1 (StorageData.problems (document sample_host))
  /\ fst (deleteProblem 1 sample_host) = true
  /\ absent Problem.id 1
       (StorageData.problems (document (snd (deleteProblem 1 sample_host))))
  /\ StorageData.ideas (document (snd (deleteProblem 1 sample_host)))
     = StorageData.ideas (document sample_host)
  /\ absent Problem.id 99 (StorageData.problems (document sample_host))
  /\ fst (deleteProblem 99 sample_host) = false.
Proof.
  assert (Hp : present Problem.id 1 (StorageData.problems (document sample_host))).
  { unfold present. cbn. left. reflexivity. }
  assert (Ha : absent Problem.id 99 (StorageData.problems (document sample_host))).
  { unfold absent. cbn. intros [H|[H|[]]]; discriminate H. }
  destruct (deleteProblem_cascades sample_host 1) as (H1 & _).
  destruct (deleteProblem_cascades sample_host 99) as (_ & H99).
  destruct (H1 Hp) as (R & _ & Gone & _ & _ & Ideas & _).
  split; [exact Hp|]. split; [exact R|]. split; [exact Gone|]. split; [exact Ideas|].
  split; [exact Ha | exact (H99 Ha)].
Defined.

(** The cascade on the sample document: problem 1 goes, its two links go,
    note 1 stays without its problem reference, ideas stay. *)
Example deleteProblem_sample :
  deleteProblem 1 sample_host
  = (true,
     Browser (Some
       (StorageData.mk
          [ Problem.mk 2 "Churn after trial" "Users leave" "Analytics" 3 daily open
              "retention" t0930 t0930 ]
          (StorageData.ideas sample_document)
          [ Note.mk 1 interview "Call with admin" "n/a" None (Some 1) t0900;
            Note.mk 2 general "Unrelated thought" "n/a" None (Some 2) t0930;
            Note.mk 3 pricing "Pricing of setup" "n/a" (Some 2) None t1000 ]
          [ ProblemIdeaLink.mk 3 2 1 ]
          (Counters.mk 2 2 3 3)))).
Proof. reflexivity. Qed.

(** ** Linking a problem to an idea *)

(** Some link joins the pair. *)
Lemma existsb_pair (p i : Z) (l : list ProblemIdeaLink.t) :
  existsb (fun l => (ProblemIdeaLink.problem_id l =? p) && (ProblemIdeaLink.idea_id l =? i)) l
  = true
  <-> In (p, i) (map pair_of l).
Proof.
  rewrite existsb_exists, in_map_iff. unfold pair_of.
  split; intros (x & H1 & H2); exists x.
  - apply andb_true_iff in H2. destruct H2 as (E1 & E2).
    apply Z.eqb_eq in E1, E2. subst. auto.
  - injection H1 as -> ->. rewrite !Z.eqb_refl. auto.
Qed.

Lemma linkProblemToIdea_duplicate (h : Host) (p i : Z) :
  In (p, i) (map pair_of (StorageData.links (document h))) ->
  linkProblemToIdea p i h = (false, snd (getStorageData h)).
Proof.
  intros H. apply existsb_pair in H. unfold linkProblemToIdea.
  rewrite bind_read, H. reflexivity.
Qed.

Lemma linkProblemToIdea_new (item : option StorageData.t) (p i : Z) :
  let before := document (Browser item) in
  ~ In (p, i) (map pair_of (StorageData.links before)) ->
  linkProblemToIdea p i (Browser item)
  = (true,
     Browser (Some
       (StorageData.mk (StorageData.problems before) (StorageData.ideas before)
          (StorageData.notes before)
          (StorageData.links before
           ++ [ProblemIdeaLink.mk (number_succ (counter key_links before)) p i])
          (Counters.mk (counter key_problems before) (counter key_ideas before)
             (counter key_notes before) (number_succ (counter key_links before)))))).
Proof.
  intros before H. unfold linkProblemToIdea. rewrite bind_read.
  fold before. destruct (existsb _ _) eqn:E.
  - exfalso. apply H. now apply existsb_pair.
  - rewrite getStorageData_browser. reflexivity.
Qed.

(** C8, as the code has it: in a browser, linking a pair that some link
    already joins answers [false] and changes nothing (no link added, no
    counter moved); linking a pair that no link joins answers [true] and
    adds, at the end, exactly one link for the pair, numbered by the
    increment of the links counter, and nothing else changes.  As long as
    the counter takes the increment exactly, the id is the counter plus
    one, and it is new to the collection whenever no link id exceeds the
    counter, as in every document the store numbered itself
    ([well_numbered_run]). *)
Theorem linkProblemToIdea_once_per_pair (item : option StorageData.t) (p i : Z) :
  let h := Browser item in
  let before := document h in
  let result := linkProblemToIdea p i h in
  let after := document (snd result) in
  (In (p, i) (map pair_of (StorageData.links before)) ->
   fst result = false /\ after = before /\ snd result = snd (getStorageData h))
  /\ (~ In (p, i) (map pair_of (StorageData.links before)) ->
      fst result = true
      /\ StorageData.links after
         = StorageData.links before
           ++ [ProblemIdeaLink.mk (counter key_links after) p i]
      /\ counter key_links after = number_succ (counter key_links before)
      /\ StorageData.problems after = StorageData.problems before
      /\ StorageData.ideas after = StorageData.ideas before
      /\ StorageData.notes after = StorageData.notes before
      /\ counter key_problems after = counter key_problems before
      /\ counter key_ideas after = counter key_ideas before
      /\ counter key_notes after = counter key_notes before
      /\ (counts_exactly (counter key_links before) 1 ->
          counter key_links after = counter key_links before + 1
          /\ (Forall (fun l => ProblemIdeaLink.id l <= counter key_links before)
                (StorageData.links before) ->
              ~ In (counter key_links after)
                  (map ProblemIdeaLink.id (StorageData.links before))))).
Proof.
  cbv zeta. split; intros H.
  - rewrite (linkProblemToIdea_duplicate _ p i H). cbn [fst snd].
    split; [reflexivity|]. split; [|reflexivity]. apply document_after_read.
  - rewrite (linkProblemToIdea_new item p i H). cbn [fst snd].
    rewrite document_stored. do 9 (split; [reflexivity|]).
    cbn [counter StorageData.counters Counters.links].
    intros Hc. rewrite (number_succ_one _ Hc). split; [reflexivity|].
    intros Hle Hin. apply in_map_iff in Hin. destruct Hin as (l & E & Hl).
    rewrite Forall_forall in Hle. specialize (Hle l Hl).
    cbn [counter] in Hle. lia.
Qed.

Lemma linkProblemToIdea_once_per_pair_witness :
  In (1, 2) (map pair_of (StorageData.links (document sample_host)))
  /\ linkProblemToIdea 1 2 sample_host = (false, sample_host)
  /\ ~ In (2, 2) (map pair_of (StorageData.links (document sample_host)))
  /\ fst (linkProblemToIdea 2 2 sample_host) = true
  /\ counts_exactly (counter key_links (document sample_host)) 1
  /\ StorageData.links (document (snd (linkProblemToIdea 2 2 sample_host)))
     = StorageData.links sample_document ++ [ProblemIdeaLink.mk 4 2 2]
  /\ counter key_links (document (snd (linkProblemToIdea 2 2 sample_host))) = 3 + 1
  /\ ~ In (counter key_links (document (snd (linkProblemToIdea 2 2 sample_host))))
         (map ProblemIdeaLink.id (StorageData.links (document sample_host))).
Proof.
  assert (Hdup : In (1, 2) (map pair_of (StorageData.links (document sample_host)))).
  { cbn. right. left. reflexivity. }
  assert (Hnew : ~ In (2, 2) (map pair_of (StorageData.links (document sample_host)))).
  { cbn. intros [H|[H|[H|[]]]]; discriminate H. }
  assert (Hroom : counts_exactly (counter key_links (document sample_host)) 1).
  { split; vm_compute; discriminate. }
  assert (Hle : Forall (fun l => ProblemIdeaLink.id l <= counter key_links (document sample_host))
                  (StorageData.links (document sample_host))).
  { repeat constructor; vm_compute; discriminate. }
  destruct (linkProblemToIdea_once_per_pair (Some sample_document) 1 2) as (D & _).
  destruct (linkProblemToIdea_once_per_pair (Some sample_document) 2 2) as (_ & N).
  destruct (D Hdup) as (D1 & _ & D3).
  destruct (N Hnew) as (N1 & N2 & _ & _ & _ & _ & _ & _ & _ & N10).
  destruct (N10 Hroom) as (N11 & N12).
  split; [exact Hdup|]. split.
  { rewrite (surjective_pairing (linkProblemToIdea 1 2 sample_host)).
    unfold sample_host. rewrite D1, D3. reflexivity. }
  split; [exact Hnew|]. split; [exact N1|]. split; [exact Hroom|].
  split; [exact N2|]. split; [exact N11 | exact (N12 Hle)].
Defined.

(** C8 fails as stated where the links counter has reached 2^53: the
    increment leaves the counter as it is, and the link added for a new
    pair repeats the id of the link before it. *)
Lemma linkProblemToIdea_repeats_id :
  ~ In (2, 1)
      (map pair_of
         (StorageData.links (document (snd (linkProblemToIdea 1 1 nearly_full_host)))))
  /\ fst (linkProblemToIdea 2 1 (snd (linkProblemToIdea 1 1 nearly_full_host))) = true
  /\ StorageData.links
       (document (snd (linkProblemToIdea 2 1 (snd (linkProblemToIdea 1 1 nearly_full_host)))))
     = [ProblemIdeaLink.mk two_53 1 1; ProblemIdeaLink.mk two_53 2 1]
  /\ counter key_links
       (document (snd (linkProblemToIdea 2 1 (snd (linkProblemToIdea 1 1 nearly_full_host)))))
     = counter key_links (document (snd (linkProblemToIdea 1 1 nearly_full_host)))
  /\ In two_53
       (map ProblemIdeaLink.id
          (StorageData.links (document (snd (linkProblemToIdea 1 1 nearly_full_host))))).
Proof.
  split; [vm_compute; intros [H|[]]; discriminate H|].
  split; [reflexivity|]. split; [reflexivity|]. split; [reflexivity|].
  left. reflexivity.
Qed.

(** ** Replacing the links of an idea *)

Lemma numbered_links_problem_ids (i c : Z) (ps : list Z) :
  map ProblemIdeaLink.problem_id (numbered_links i c ps) = ps.
Proof.
  revert c. induction ps as [|p ps IH]; intros c; simpl; [reflexivity|].
  now rewrite IH.
Qed.

Lemma numbered_links_length (i c : Z) (ps : list Z) :
  length (numbered_links i c ps) = length ps.
Proof.
  rewrite <- (numbered_links_problem_ids i c ps) at 2. now rewrite length_map.
Qed.

Lemma numbered_links_idea (i c : Z) (ps : list Z) (l : ProblemIdeaLink.t) :
  In l (numbered_links i c ps) -> ProblemIdeaLink.idea_id l = i.
Proof.
  revert c. induction ps as [|p ps IH]; intros c; simpl; [intros []|].
  intros [<-|H]; [reflexivity|]. eapply IH, H.
Qed.

(** While the counter counts exactly, the links are numbered from [c + 1]
    on. *)
Lemma numbered_links_range (i c : Z) (ps : list Z) (l : ProblemIdeaLink.t) :
  counts_exactly c (Z.of_nat (length ps)) ->
  In l (numbered_links i c ps) ->
  c < ProblemIdeaLink.id l <= c + Z.of_nat (length ps).
Proof.
  revert c. induction ps as [|p ps IH]; intros c Hc; [intros []|].
  cbn [numbered_links In]. rewrite (number_succ_first c _ Hc).
  apply counts_exactly_next in Hc. cbn [length] in *.
  intros [<-|H].
  - cbn. lia.
  - apply (IH _ Hc) in H. lia.
Qed.

Lemma numbered_links_increasing (i c : Z) (ps : list Z) :
  counts_exactly c (Z.of_nat (length ps)) ->
  StronglySorted Z.lt (map ProblemIdeaLink.id (numbered_links i c ps)).
Proof.
  revert c. induction ps as [|p ps IH]; intros c Hc; [constructor|].
  cbn [numbered_links map]. rewrite (number_succ_first c _ Hc).
  apply counts_exactly_next in Hc.
  constructor; [now apply IH|].
  apply Forall_forall. intros x Hx. apply in_map_iff in Hx.
  destruct Hx as (l & <- & Hl). apply (numbered_links_range _ _ _ _ Hc) in Hl.
  cbn. lia.
Qed.

Lemma numbered_links_pairs (i c : Z) (ps : list Z) :
  map pair_of (numbered_links i c ps) = map (fun p => (p, i)) ps.
Proof.
  revert c. induction ps as [|p ps IH]; intros c; simpl; [reflexivity|].
  now rewrite IH.
Qed.

(** The [forEach] loop: every field but the links and their counter is left
    alone; the links gain the numbered links; the counter is incremented
    once per id given. *)
Lemma fold_add_link (i : Z) (ps : list Z) (data : StorageData.t) :
  fold_left (add_link i) ps data
  = relinked data
      (StorageData.links data ++ numbered_links i (counter key_links data) ps)
      (advance (length ps) (counter key_links data)).
Proof.
  revert data. induction ps as [|p ps IH]; intros data.
  - destruct data as [a b c d [e f g k]]. cbn. unfold relinked, set_counter, set_links.
    cbn. now rewrite app_nil_r.
  - cbn [fold_left]. rewrite IH. destruct data as [a b c d [e f g k]].
    unfold relinked, add_link, getNextId, set_counter, set_links, set_counters, counter.
    cbn [StorageData.links StorageData.counters Counters.links StorageData.problems
           StorageData.ideas StorageData.notes Counters.problems Counters.ideas
           Counters.notes numbered_links length advance].
    rewrite <- app_assoc. reflexivity.
Qed.

Lemma setProblemLinksForIdea_browser (item : option StorageData.t) (i : Z) (ps : list Z) :
  let before := document (Browser item) in
  setProblemLinksForIdea i ps (Browser item)
  = (tt,
     Browser (Some
       (relinked before
          (filter (fun l => negb (ProblemIdeaLink.idea_id l =? i)) (StorageData.links before)
           ++ numbered_links i (counter key_links before) ps)
          (advance (length ps) (counter key_links before))))).
Proof.
  intros before. unfold setProblemLinksForIdea. rewrite bind_read. fold before.
  rewrite fold_add_link, getStorageData_browser. cbn [snd]. rewrite saveStorageData_browser.
  destruct before as [a b c d [e f g k]]. reflexivity.
Qed.

Lemma relinked_links (data : StorageData.t) (ls : list ProblemIdeaLink.t) (c : Z) :
  StorageData.links (relinked data ls c) = ls.
Proof. reflexivity. Qed.

Lemma relinked_counter (data : StorageData.t) (ls : list ProblemIdeaLink.t) (c : Z) :
  counter key_links (relinked data ls c) = c.
Proof. reflexivity. Qed.

Lemma filter_filter_negb {A : Type} (f : A -> bool) (l : list A) :
  filter f (filter (fun x => negb (f x)) l) = [].
Proof.
  induction l as [|x l IH]; simpl; [reflexivity|].
  destruct (f x) eqn:E; simpl; [assumption|]. now rewrite E.
Qed.

(** After the call, the links of the idea are the numbered links. *)
Lemma links_of_idea_replaced (data : StorageData.t) (i c c' : Z) (ps : list Z) :
  links_of_idea i
    (relinked data
       (filter (fun l => negb (ProblemIdeaLink.idea_id l =? i)) (StorageData.links data)
        ++ numbered_links i c ps) c')
  = numbered_links i c ps.
Proof.
  unfold links_of_idea. rewrite relinked_links, filter_app.
  rewrite (filter_filter_negb (fun l => ProblemIdeaLink.idea_id l =? i)). cbn [app].
  apply filter_all. intros l Hl. apply Z.eqb_eq. eapply numbered_links_idea, Hl.
Qed.

(** C4, as the code has it: in a browser, replacing the links of an idea
    twice with the same list of problem ids leaves, after the second call,
    as many links of the idea as after the first, joined to exactly the
    given problem ids, in the given order.  As long as the links counter
    takes the increments of both calls exactly, every link id of the second
    call is larger than every link id of the first, so none is kept: the
    links of the first call are no longer in the store. *)
Theorem setProblemLinksForIdea_twice (item : option StorageData.t) (i : Z) (ps : list Z) :
  let h1 := snd (setProblemLinksForIdea i ps (Browser item)) in
  let h2 := snd (setProblemLinksForIdea i ps h1) in
  let first := links_of_idea i (document h1) in
  let second := links_of_idea i (document h2) in
  length second = length first
  /\ length second = length ps
  /\ map ProblemIdeaLink.problem_id first = ps
  /\ map ProblemIdeaLink.problem_id second = ps
  /\ fst (getLinkedProblemIdsForIdea i h2) = ps
  /\ (counts_exactly (counter key_links (document (Browser item)))
        (2 * Z.of_nat (length ps)) ->
      (forall l1 l2, In l1 first -> In l2 second ->
         ProblemIdeaLink.id l1 < ProblemIdeaLink.id l2)
      /\ (forall l1, In l1 first -> ~ In l1 (StorageData.links (document h2)))).
Proof.
  cbv zeta. rewrite setProblemLinksForIdea_browser. cbn [snd].
  rewrite setProblemLinksForIdea_browser. cbn [snd]. rewrite !document_stored.
  set (d0 := document (Browser item)).
  set (d1 := relinked d0 _ _).
  assert (L1 : links_of_idea i d1 = numbered_links i (counter key_links d0) ps)
    by apply links_of_idea_replaced.
  assert (C1 : counter key_links d1 = advance (length ps) (counter key_links d0))
    by apply relinked_counter.
  rewrite L1, links_of_idea_replaced, C1.
  rewrite !numbered_links_length, !numbered_links_problem_ids.
  do 4 (split; [reflexivity|]). split.
  { unfold getLinkedProblemIdsForIdea. rewrite bind_read, document_stored. cbn [fst ret].
    change (filter _ (StorageData.links ?d)) with (links_of_idea i d).
    rewrite links_of_idea_replaced. apply numbered_links_problem_ids. }
  intros (Hlow & Hhigh).
  assert (H1 : counts_exactly (counter key_links d0) (Z.of_nat (length ps)))
    by (split; lia).
  assert (H2 : counts_exactly (counter key_links d0 + Z.of_nat (length ps))
                 (Z.of_nat (length ps)))
    by (split; lia).
  rewrite (advance_exact _ _ H1).
  assert (Hlt : forall l1 l2,
             In l1 (numbered_links i (counter key_links d0) ps) ->
             In l2 (numbered_links i (counter key_links d0 + Z.of_nat (length ps)) ps) ->
             ProblemIdeaLink.id l1 < ProblemIdeaLink.id l2).
  { intros l1 l2 Hl1 Hl2. apply (numbered_links_range _ _ _ _ H1) in Hl1.
    apply (numbered_links_range _ _ _ _ H2) in Hl2. lia. }
  split; [exact Hlt|].
  intros l1 Hl1 Hin. rewrite relinked_links in Hin. apply in_app_or in Hin.
  destruct Hin as [Hin|Hin].
  - apply filter_In in Hin. destruct Hin as (_ & Hne).
    apply numbered_links_idea in Hl1. rewrite Hl1, Z.eqb_refl in Hne. discriminate.
  - specialize (Hlt l1 l1 Hl1 Hin). lia.
Qed.

Lemma setProblemLinksForIdea_twice_witness :
  counts_exactly (counter key_links (document sample_host)) (2 * Z.of_nat (length [1; 2]))
  /\ map ProblemIdeaLink.id
       (links_of_idea 5 (document (snd (setProblemLinksForIdea 5 [1; 2] sample_host))))
     = [4; 5]
  /\ map ProblemIdeaLink.id
       (links_of_idea 5
          (document
             (snd (setProblemLinksForIdea 5 [1; 2]
                     (snd (setProblemLinksForIdea 5 [1; 2] sample_host))))))
     = [6; 7]
  /\ forall l1 l2,
       In l1 (links_of_idea 5 (document (snd (setProblemLinksForIdea 5 [1; 2] sample_host)))) ->
       In l2 (links_of_idea 5
                (document
                   (snd (setProblemLinksForIdea 5 [1; 2]
                           (snd (setProblemLinksForIdea 5 [1; 2] sample_host)))))) ->
       ProblemIdeaLink.id l1 < ProblemIdeaLink.id l2.
Proof.
  assert (Hroom : counts_exactly (counter key_links (document sample_host))
                    (2 * Z.of_nat (length [1; 2]))).
  { split; vm_compute; discriminate. }
  split; [exact Hroom|]. split; [reflexivity|]. split; [reflexivity|].
  destruct (setProblemLinksForIdea_twice (Some sample_document) 5 [1; 2])
    as (_ & _ & _ & _ & _ & Hids).
  exact (proj1 (Hids Hroom)).
Defined.

(** The scenario of the specification: idea 5, problems 1 and 2. *)
Example setProblemLinksForIdea_twice_sample :
  StorageData.links (document (snd (setProblemLinksForIdea 5 [1; 2] (Browser None))))
  = [ProblemIdeaLink.mk 1 1 5; ProblemIdeaLink.mk 2 2 5]
  /\ StorageData.links
       (document
          (snd (setProblemLinksForIdea 5 [1; 2]
                  (snd (setProblemLinksForIdea 5 [1; 2] (Browser None))))))
     = [ProblemIdeaLink.mk 3 1 5; ProblemIdeaLink.mk 4 2 5].
Proof. split; reflexivity. Qed.

(** C4 fails as stated where the links counter has reached 2^53: the
    increments leave the counter as it is, and the second call numbers its
    links as the first did. *)
Lemma setProblemLinksForIdea_same_ids :
  map ProblemIdeaLink.id
    (links_of_idea 5 (document (snd (setProblemLinksForIdea 5 [1; 2] nearly_full_host))))
  = [two_53; two_53]
  /\ map ProblemIdeaLink.id
       (links_of_idea 5
          (document
             (snd (setProblemLinksForIdea 5 [1; 2]
                     (snd (setProblemLinksForIdea 5 [1; 2] nearly_full_host))))))
     = [two_53; two_53]
  /\ links_of_idea 5
       (document
          (snd (setProblemLinksForIdea 5 [1; 2]
                  (snd (setProblemLinksForIdea 5 [1; 2] nearly_full_host)))))
     = links_of_idea 5 (document (snd (setProblemLinksForIdea 5 [1; 2] nearly_full_host))).
Proof. repeat split; reflexivity. Qed.

(** ** Records linked to a record *)

Lemma count_occ_filter_le {A : Type} (eq_dec : forall a b : A, {a = b} + {a <> b})
    (f : A -> bool) (l : list A) (x : A) :
  (count_occ eq_dec (filter f l) x <= count_occ eq_dec l x)%nat.
Proof.
  induction l as [|y l IH]; simpl; [lia|].
  destruct (f y); simpl; destruct (eq_dec y x); lia.
Qed.

Lemma NoDup_map_filter {A B : Type} (g : A -> B) (f : A -> bool) (l : list A) :
  NoDup (map g l) -> NoDup (map g (filter f l)).
Proof.
  induction l as [|y l IH]; simpl; intros H; [constructor|].
  inversion H as [|? ? Hnotin Hrest]; subst.
  destruct (f y); simpl; [|now apply IH].
  constructor; [|now apply IH].
  intros Hin. apply Hnotin. apply in_map_iff in Hin. destruct Hin as (z & E & Hz).
  apply filter_In in Hz. rewrite <- E. apply in_map. tauto.
Qed.

Lemma includes_In (ids : list Z) (x : Z) : includes ids x = true <-> In x ids.
Proof.
  unfold includes. rewrite existsb_exists. split.
  - intros (y & Hy & E). apply Z.eqb_eq in E. now subst.
  - intros H. exists x. now rewrite Z.eqb_refl.
Qed.

(** C10: [getIdeasForProblem] returns each idea record of the collection
    at most as often as the collection holds it, whatever number of link
    records join the pair; so when no two ideas share an id, no idea is
    listed twice.  [getProblemsForIdea] likewise.  The ideas listed are
    those of the collection that some link joins to the problem. *)
Theorem linked_records_listed_once (h : Host) (problem_id idea_id : Z) :
  let ideas := fst (getIdeasForProblem problem_id h) in
  let problems := fst (getProblemsForIdea idea_id h) in
  (forall x, (count_occ Idea_eq_dec ideas x
              <= count_occ Idea_eq_dec (StorageData.ideas (document h)) x)%nat)
  /\ (NoDup (map Idea.id (StorageData.ideas (document h))) -> NoDup (map Idea.id ideas))
  /\ (forall x, In x ideas
                <-> In x (StorageData.ideas (document h))
                    /\ In (problem_id, Idea.id x)
                         (map pair_of (StorageData.links (document h))))
  /\ (forall x, (count_occ Problem_eq_dec problems x
                 <= count_occ Problem_eq_dec (StorageData.problems (document h)) x)%nat)
  /\ (NoDup (map Problem.id (StorageData.problems (document h)))
      -> NoDup (map Problem.id problems))
  /\ (forall x, In x problems
                <-> In x (StorageData.problems (document h))
                    /\ In (Problem.id x, idea_id)
                         (map pair_of (StorageData.links (document h)))).
Proof.
  cbv zeta. unfold getIdeasForProblem, getProblemsForIdea. rewrite !bind_read.
  cbn [fst ret].
  split; [intros x; apply count_occ_filter_le|].
  split; [apply NoDup_map_filter|].
  split.
  { intros x. rewrite filter_In, includes_In, !in_map_iff.
    split; intros (Hx & l & E & Hl); (split; [exact Hx|]); exists l.
    - apply filter_In in Hl. destruct Hl as (Hl & Hp). apply Z.eqb_eq in Hp.
      unfold pair_of. split; [congruence | assumption].
    - unfold pair_of in E. injection E as E1 E2. split; [assumption|].
      apply filter_In. split; [assumption|]. now apply Z.eqb_eq. }
  split; [intros x; apply count_occ_filter_le|].
  split; [apply NoDup_map_filter|].
  intros x. rewrite filter_In, includes_In, !in_map_iff.
  split; intros (Hx & l & E & Hl); (split; [exact Hx|]); exists l.
  - apply filter_In in Hl. destruct Hl as (Hl & Hp). apply Z.eqb_eq in Hp.
    unfold pair_of. split; [congruence | assumption].
  - unfold pair_of in E. injection E as E1 E2. split; [assumption|].
    apply filter_In. split; [assumption|]. now apply Z.eqb_eq.
Qed.

Lemma linked_records_listed_once_witness :
  NoDup (map Idea.id (StorageData.ideas (document (Browser (Some doubly_linked)))))
  /\ NoDup (map Problem.id (StorageData.problems (document (Browser (Some doubly_linked)))))
  /\ NoDup (map Idea.id (fst (getIdeasForProblem 1 (Browser (Some doubly_linked)))))
  /\ NoDup (map Problem.id (fst (getProblemsForIdea 1 (Browser (Some doubly_linked))))).
Proof.
  assert (Hi : NoDup (map Idea.id
                        (StorageData.ideas (document (Browser (Some doubly_linked)))))).
  { cbn. constructor; [intros [H|[]]; discriminate H|].
    constructor; [intros []|constructor]. }
  assert (Hp : NoDup (map Problem.id
                        (StorageData.problems (document (Browser (Some doubly_linked)))))).
  { cbn. constructor; [intros [H|[]]; discriminate H|].
    constructor; [intros []|constructor]. }
  destruct (linked_records_listed_once (Browser (Some doubly_linked)) 1 1)
    as (_ & I & _ & _ & P & _).
  split; [exact Hi|]. split; [exact Hp|]. split; [exact (I Hi) | exact (P Hp)].
Defined.

(** Two link records for problem 1 and idea 1: idea 1 is listed once. *)
Example getIdeasForProblem_doubly_linked :
  map Idea.id (fst (getIdeasForProblem 1 (Browser (Some doubly_linked)))) = [1]
  /\ map Problem.id (fst (getProblemsForIdea 1 (Browser (Some doubly_linked)))) = [1; 2].
Proof. split; reflexivity. Qed.

(** ** Calls, hosts and documents *)

Ltac split_ifs :=
  repeat match goal with
         | |- context [if ?c then _ else _] => destruct c eqn:?
         end.

(** Without a window nothing is ever written. *)
Lemma exec_no_window (o : Op) : snd (exec o NoWindow) = NoWindow.
Proof.
  destruct o; unfold exec; store_unfold; unfold bind, ret; cbn;
    split_ifs; reflexivity.
Qed.

(** In a browser a call acts on the stored document alone. *)
Lemma exec_browser (o : Op) (item : option StorageData.t) :
  exec o (Browser item)
  = (fst (effect o (document (Browser item))),
     Browser (Some (snd (effect o (document (Browser item)))))).
Proof.
  unfold effect.
  destruct o; unfold exec; store_unfold; rewrite ?bind_read;
    unfold bind, ret; rewrite ?getStorageData_browser;
    cbn [fst snd document getStorageData];
    split_ifs; try reflexivity;
    repeat match goal with
           | |- context [getNextId ?d ?k] => destruct (getNextId d k)
           end; reflexivity.
Qed.

Lemma run_nil (h : Host) : run [] h = h.
Proof. reflexivity. Qed.

Lemma run_cons (o : Op) (ops : list Op) (h : Host) :
  run (o :: ops) h = run ops (snd (exec o h)).
Proof. reflexivity. Qed.

Lemma run_cons_browser (o : Op) (ops : list Op) (item : option StorageData.t) :
  run (o :: ops) (Browser item)
  = run ops (Browser (Some (snd (effect o (document (Browser item)))))).
Proof. now rewrite run_cons, exec_browser. Qed.

(** Without a window the store forgets: every creation answers id 1. *)
Example no_window_forgets :
  fst (createProblem t0900 "A" "d" "c" 3 weekly open "t" NoWindow) = 1
  /\ fst (createProblem t0930 "B" "d" "c" 3 weekly open "t"
            (snd (createProblem t0900 "A" "d" "c" 3 weekly open "t" NoWindow))) = 1
  /\ fst (getProblemById 1
            (snd (createProblem t0900 "A" "d" "c" 3 weekly open "t" NoWindow))) = None.
Proof. repeat split; reflexivity. Qed.

Lemma run_no_window (ops : list Op) : run ops NoWindow = NoWindow.
Proof.
  induction ops as [|o ops IH]; [reflexivity|].
  now rewrite run_cons, exec_no_window.
Qed.

(** *** The effect of each call, as an equation *)

Ltac effect_equation :=
  unfold effect, exec; store_unfold; unfold bind, ret; cbn;
  split_ifs; reflexivity.

Lemma effect_CreateProblem now t d oc sv f st tg (data : StorageData.t) :
  effect (CreateProblem now t d oc sv f st tg) data
  = (RetId (number_succ (counter key_problems data)),
     set_problems (set_counter key_problems (number_succ (counter key_problems data)) data)
       (StorageData.problems data
        ++ [Problem.mk (number_succ (counter key_problems data)) t d oc sv f st tg now now])).
Proof. effect_equation. Qed.

Lemma effect_UpdateProblem now id t d oc sv f st tg (data : StorageData.t) :
  effect (UpdateProblem now id t d oc sv f st tg) data
  = if findIndex (fun p => Problem.id p =? id) (StorageData.problems data) =? -1
    then (RetBool false, data)
    else (RetBool true,
          set_problems data
            (assign_at
               (Z.to_nat (findIndex (fun p => Problem.id p =? id) (StorageData.problems data)))
               (fun old =>
                  Problem.mk (Problem.id old) t d oc sv f st tg (Problem.created_at old) now)
               (StorageData.problems data))).
Proof. effect_equation. Qed.

Lemma effect_DeleteProblem id (data : StorageData.t) :
  effect (DeleteProblem id) data
  = if Nat.ltb
         (length (filter (fun p => negb (Problem.id p =? id)) (StorageData.problems data)))
         (length (StorageData.problems data))
    then (RetBool true,
          StorageData.mk
            (filter (fun p => negb (Problem.id p =? id)) (StorageData.problems data))
            (StorageData.ideas data)
            (map (fun n => if ref_is (Note.problem_id n) id then with_problem_id n None else n)
               (StorageData.notes data))
            (filter (fun l => negb (ProblemIdeaLink.problem_id l =? id))
               (StorageData.links data))
            (StorageData.counters data))
    else (RetBool false, data).
Proof. effect_equation. Qed.

Lemma effect_CreateIdea now t p tu vp df a r st sc tg (data : StorageData.t) :
  effect (CreateIdea now t p tu vp df a r st sc tg) data
  = (RetId (number_succ (counter key_ideas data)),
     set_ideas (set_counter key_ideas (number_succ (counter key_ideas data)) data)
       (StorageData.ideas data
        ++ [Idea.mk (number_succ (counter key_ideas data)) t p tu vp df a r st sc tg now now])).
Proof. effect_equation. Qed.

Lemma effect_UpdateIdea now id t p tu vp df a r st sc tg (data : StorageData.t) :
  effect (UpdateIdea now id t p tu vp df a r st sc tg) data
  = if findIndex (fun i => Idea.id i =? id) (StorageData.ideas data) =? -1
    then (RetBool false, data)
    else (RetBool true,
          set_ideas data
            (assign_at
               (Z.to_nat (findIndex (fun i => Idea.id i =? id) (StorageData.ideas data)))
               (fun old =>
                  Idea.mk (Idea.id old) t p tu vp df a r st sc tg (Idea.created_at old) now)
               (StorageData.ideas data))).
Proof. effect_equation. Qed.

Lemma effect_DeleteIdea id (data : StorageData.t) :
  effect (DeleteIdea id) data
  = if Nat.ltb
         (length (filter (fun i => negb (Idea.id i =? id)) (StorageData.ideas data)))
         (length (StorageData.ideas data))
    then (RetBool true,
          StorageData.mk
            (StorageData.problems data)
            (filter (fun i => negb (Idea.id i =? id)) (StorageData.ideas data))
            (map (fun n => if ref_is (Note.idea_id n) id then with_idea_id n None else n)
               (StorageData.notes data))
            (filter (fun l => negb (ProblemIdeaLink.idea_id l =? id))
               (StorageData.links data))
            (StorageData.counters data))
    else (RetBool false, data).
Proof. effect_equation. Qed.

Lemma effect_CreateNote now nt c l p i (data : StorageData.t) :
  effect (CreateNote now nt c l p i) data
  = (RetId (number_succ (counter key_notes data)),
     set_notes (set_counter key_notes (number_succ (counter key_notes data)) data)
       (StorageData.notes data ++ [Note.mk (number_succ (counter key_notes data)) nt c l p i now])).
Proof. effect_equation. Qed.

Lemma effect_UpdateNote id nt c l p i (data : StorageData.t) :
  effect (UpdateNote id nt c l p i) data
  = if findIndex (fun n => Note.id n =? id) (StorageData.notes data) =? -1
    then (RetBool false, data)
    else (RetBool true,
          set_notes data
            (assign_at
               (Z.to_nat (findIndex (fun n => Note.id n =? id) (StorageData.notes data)))
               (fun old => Note.mk (Note.id old) nt c l p i (Note.created_at old))
               (StorageData.notes data))).
Proof. effect_equation. Qed.

Lemma effect_DeleteNote id (data : StorageData.t) :
  effect (DeleteNote id) data
  = if Nat.ltb
         (length (filter (fun n => negb (Note.id n =? id)) (StorageData.notes data)))
         (length (StorageData.notes data))
    then (RetBool true,
          set_notes data (filter (fun n => negb (Note.id n =? id)) (StorageData.notes data)))
    else (RetBool false, data).
Proof. effect_equation. Qed.

Lemma effect_LinkProblemToIdea p i (data : StorageData.t) :
  effect (LinkProblemToIdea p i) data
  = if existsb
         (fun l => (ProblemIdeaLink.problem_id l =? p) && (ProblemIdeaLink.idea_id l =? i))
         (StorageData.links data)
    then (RetBool false, data)
    else (RetBool true,
          relinked data
            (StorageData.links data ++ [ProblemIdeaLink.mk (number_succ (counter key_links data)) p i])
            (number_succ (counter key_links data))).
Proof. effect_equation. Qed.

Lemma effect_UnlinkProblemFromIdea p i (data : StorageData.t) :
  effect (UnlinkProblemFromIdea p i) data
  = if Nat.ltb
         (length
            (filter
               (fun l => negb ((ProblemIdeaLink.problem_id l =? p)
                               && (ProblemIdeaLink.idea_id l =? i)))
               (StorageData.links data)))
         (length (StorageData.links data))
    then (RetBool true,
          set_links data
            (filter
               (fun l => negb ((ProblemIdeaLink.problem_id l =? p)
                               && (ProblemIdeaLink.idea_id l =? i)))
               (StorageData.links data)))
    else (RetBool false, data).
Proof. effect_equation. Qed.

Lemma effect_SetProblemLinksForIdea i ps (data : StorageData.t) :
  effect (SetProblemLinksForIdea i ps) data
  = (RetVoid,
     relinked data
       (filter (fun l => negb (ProblemIdeaLink.idea_id l =? i)) (StorageData.links data)
        ++ numbered_links i (counter key_links data) ps)
       (advance (length ps) (counter key_links data))).
Proof.
  unfold effect, exec, bind, ret.
  pose proof (setProblemLinksForIdea_browser (Some data) i ps) as E. cbv zeta in E.
  rewrite document_stored in E. rewrite E. reflexivity.
Qed.

Lemma effect_ClearAllData (data : StorageData.t) :
  effect ClearAllData data = (RetVoid, initial).
Proof. effect_equation. Qed.

Lemma effect_ImportAllData d (data : StorageData.t) :
  effect (ImportAllData d) data = (RetBool true, d).
Proof. effect_equation. Qed.

Create Rewrite HintDb effect.
#[local] Hint Rewrite effect_CreateProblem effect_UpdateProblem effect_DeleteProblem
  effect_CreateIdea effect_UpdateIdea effect_DeleteIdea
  effect_CreateNote effect_UpdateNote effect_DeleteNote
  effect_LinkProblemToIdea effect_UnlinkProblemFromIdea effect_SetProblemLinksForIdea
  effect_ClearAllData effect_ImportAllData : effect.

(** Case analysis on a call and on the tests it makes. *)
Ltac effect_cases o :=
  destruct o; autorewrite with effect; split_ifs; cbn [fst snd].

(** ** One link per pair *)

Lemma links_unique_filter (f : ProblemIdeaLink.t -> bool) (data : StorageData.t)
    (ls : list ProblemIdeaLink.t) :
  links_unique data -> ls = filter f (StorageData.links data) ->
  NoDup (map pair_of ls).
Proof. intros H ->. now apply NoDup_map_filter. Qed.

Lemma NoDup_snoc {A : Type} (l : list A) (x : A) :
  NoDup l -> ~ In x l -> NoDup (l ++ [x]).
Proof.
  intros Hl Hx. apply NoDup_app; [assumption|constructor; [intros []|constructor]|].
  intros y Hy [<-|[]]. contradiction.
Qed.

Lemma NoDup_map_pairing (i : Z) (ps : list Z) :
  NoDup ps -> NoDup (map (fun p => (p, i)) ps).
Proof.
  induction 1 as [|p ps Hnotin _ IH]; simpl; constructor; [|exact IH].
  rewrite in_map_iff. intros (q & E & Hq). injection E as ->. contradiction.
Qed.

(** Replacing the links of an idea by links to pairwise different problems
    keeps one link per pair. *)
Lemma links_unique_replaced (data : StorageData.t) (i c : Z) (ps : list Z) :
  links_unique data -> NoDup ps ->
  NoDup (map pair_of
           (filter (fun l => negb (ProblemIdeaLink.idea_id l =? i)) (StorageData.links data)
            ++ numbered_links i c ps)).
Proof.
  intros Hd Hps. rewrite map_app. apply NoDup_app.
  - now apply NoDup_map_filter.
  - rewrite numbered_links_pairs. now apply NoDup_map_pairing.
  - intros [p j] H1 H2. rewrite numbered_links_pairs in H2.
    apply in_map_iff in H1, H2. destruct H1 as (l & E & Hl). destruct H2 as (q & E' & _).
    apply filter_In in Hl. destruct Hl as (_ & Hne).
    unfold pair_of in E. injection E as _ Ej. injection E' as _ Ei.
    rewrite Ej, <- Ei, Z.eqb_refl in Hne. discriminate.
Qed.

(** Every mutation keeps one link per pair, provided that
    [setProblemLinksForIdea] is given pairwise different problem ids (and
    that an imported document has one link per pair itself). *)
Lemma links_unique_effect (o : Op) (data : StorageData.t) :
  (forall i ps, o = SetProblemLinksForIdea i ps -> NoDup ps) ->
  (forall d, o = ImportAllData d -> links_unique d) ->
  links_unique data -> links_unique (snd (effect o data)).
Proof.
  intros Hset Himp H. unfold links_unique.
  effect_cases o; cbn; try exact H;
    try (eapply links_unique_filter; [exact H | reflexivity]).
  - rewrite map_app. apply NoDup_snoc; [exact H|].
    intros Hin. apply existsb_pair in Hin. cbn in Hin. congruence.
  - apply links_unique_replaced; [exact H | eapply Hset; reflexivity].
  - constructor.
  - now apply Himp.
Qed.

(** C1, on the code: given the same problem id twice,
    [setProblemLinksForIdea] mints two links for one pair.  From the empty
    store, which has one link per pair, the call with problem ids 1 and 1
    for idea 5 leaves links 1 and 2, both joining problem 1 and idea 5. *)
Theorem setProblemLinksForIdea_repeated_id :
  links_unique (document (Browser None))
  /\ StorageData.links (document (snd (setProblemLinksForIdea 5 [1; 1] (Browser None))))
     = [ProblemIdeaLink.mk 1 1 5; ProblemIdeaLink.mk 2 1 5]
  /\ ~ links_unique (document (snd (setProblemLinksForIdea 5 [1; 1] (Browser None)))).
Proof.
  split; [constructor|]. split; [reflexivity|].
  unfold links_unique. cbn. intros H. inversion H as [|? ? Hnotin _]; subst.
  apply Hnotin. left. reflexivity.
Qed.

(** ** Links and the records they name *)

Lemma links_resolve_iff (data : StorageData.t) :
  links_resolve data = true
  <-> forall l, In l (StorageData.links data) ->
        has_problem data (ProblemIdeaLink.problem_id l) = true
        /\ has_idea data (ProblemIdeaLink.idea_id l) = true.
Proof.
  unfold links_resolve, link_resolves. rewrite forallb_forall.
  split; intros H l Hl; specialize (H l Hl); now apply andb_true_iff.
Qed.

(** Links that were there, among records that are all still there. *)
Lemma links_resolve_mono (data data' : StorageData.t) :
  links_resolve data = true ->
  incl (StorageData.links data') (StorageData.links data) ->
  (forall x, has_problem data x = true -> has_problem data' x = true) ->
  (forall x, has_idea data x = true -> has_idea data' x = true) ->
  links_resolve data' = true.
Proof.
  rewrite !links_resolve_iff. intros H Hincl Hp Hi l Hl.
  destruct (H l (Hincl l Hl)). auto.
Qed.

Lemma existsb_snoc {A : Type} (f : A -> bool) (l : list A) (x : A) :
  existsb f l = true -> existsb f (l ++ [x]) = true.
Proof. intros H. rewrite existsb_app, H. reflexivity. Qed.

(** Assigning at an index a record with the id of the one it replaces
    changes no id. *)
Lemma assign_at_ids {A : Type} (get_id : A -> Z) (g : A -> A) (n : nat) (l : list A) :
  (forall x, get_id (g x) = get_id x) ->
  map get_id (assign_at n g l) = map get_id l.
Proof.
  intros Hg. revert n. induction l as [|x l IH]; intros [|n]; simpl; try reflexivity.
  - now rewrite Hg.
  - now rewrite IH.
Qed.

Lemma existsb_id {A : Type} (get_id : A -> Z) (id : Z) (l : list A) :
  existsb (fun x => get_id x =? id) l = existsb (fun y => y =? id) (map get_id l).
Proof. induction l as [|x l IH]; simpl; [reflexivity|]. now rewrite IH. Qed.

Lemma existsb_assign_at {A : Type} (get_id : A -> Z) (g : A -> A) (n : nat) (l : list A)
    (id : Z) :
  (forall x, get_id (g x) = get_id x) ->
  existsb (fun x => get_id x =? id) (assign_at n g l)
  = existsb (fun x => get_id x =? id) l.
Proof.
  intros Hg.
  rewrite (existsb_id get_id id (assign_at n g l)), (existsb_id get_id id l).
  now rewrite assign_at_ids.
Qed.

(** Deleting the record with one id keeps the records with the others. *)
Lemma existsb_filter_other {A : Type} (get_id : A -> Z) (id x : Z) (l : list A) :
  x <> id ->
  existsb (fun a => get_id a =? x) (filter (fun a => negb (get_id a =? id)) l)
  = existsb (fun a => get_id a =? x) l.
Proof.
  intros Hx. induction l as [|a l IH]; simpl; [reflexivity|].
  destruct (get_id a =? id) eqn:E; simpl.
  - apply Z.eqb_eq in E. rewrite IH.
    destruct (get_id a =? x) eqn:E'; [|reflexivity]. apply Z.eqb_eq in E'. congruence.
  - now rewrite IH.
Qed.

(** A call whose ids name existing records keeps every link resolved. *)
Lemma links_resolve_effect (o : Op) (data : StorageData.t) :
  refs_exist o data = true ->
  links_resolve data = true ->
  links_resolve (snd (effect o data)) = true.
Proof.
  intros Hrefs H.
  effect_cases o; try exact H;
    try (apply (links_resolve_mono data); cbn;
         [ exact H
         | first [ apply incl_refl | apply incl_filter ]
         | unfold has_problem; cbn; intros x Hx;
           first [ exact Hx | now apply existsb_snoc
                 | now rewrite existsb_assign_at ]
         | unfold has_idea; cbn; intros x Hx;
           first [ exact Hx | now apply existsb_snoc
                 | now rewrite existsb_assign_at ] ]).
  - (* deleteProblem *)
    apply links_resolve_iff. intros l Hl. cbn in Hl. apply filter_In in Hl.
    destruct Hl as (Hl & Hne). apply negb_true_iff, Z.eqb_neq in Hne.
    pose proof (proj1 (links_resolve_iff data) H l Hl) as (Hp & Hi).
    unfold has_problem, has_idea in *. cbn. split; [|exact Hi].
    now rewrite existsb_filter_other.
  - (* deleteIdea *)
    apply links_resolve_iff. intros l Hl. cbn in Hl. apply filter_In in Hl.
    destruct Hl as (Hl & Hne). apply negb_true_iff, Z.eqb_neq in Hne.
    pose proof (proj1 (links_resolve_iff data) H l Hl) as (Hp & Hi).
    unfold has_problem, has_idea in *. cbn. split; [exact Hp|].
    now rewrite existsb_filter_other.
  - (* linkProblemToIdea *)
    apply links_resolve_iff. intros l Hl. cbn in Hl. apply in_app_or in Hl.
    cbn in Hrefs. apply andb_true_iff in Hrefs.
    destruct Hl as [Hl|[<-|[]]]; [|exact Hrefs].
    exact (proj1 (links_resolve_iff data) H l Hl).
  - (* setProblemLinksForIdea *)
    apply links_resolve_iff. intros l Hl. cbn in Hl. apply in_app_or in Hl.
    destruct Hl as [Hl|Hl].
    + apply filter_In in Hl. exact (proj1 (links_resolve_iff data) H l (proj1 Hl)).
    + cbn in Hrefs. rewrite forallb_forall in Hrefs.
      assert (Hp : In (ProblemIdeaLink.problem_id l) problem_ids).
      { rewrite <- (numbered_links_problem_ids idea_id (counter key_links data) problem_ids).
        now apply in_map. }
      apply numbered_links_idea in Hl. rewrite Hl.
      apply andb_true_iff. exact (Hrefs _ Hp).
  - (* clearAllData *) reflexivity.
  - (* importAllData *) exact Hrefs.
Qed.

(** C2, as the code has it: the store never looks a problem or an idea up
    before it records a link, so a link names existing records only when
    the caller names existing records.  Along every sequence of calls in
    which each link-introducing call (link, replace, import) names records
    that exist at that moment, starting from a document whose links all
    name existing records (the empty document is one), every link of the
    store names an existing problem and an existing idea; deletions
    preserve this by removing the links of the deleted record. *)
Theorem links_name_existing_records (ops : list Op) (h : Host) :
  links_resolve (document h) = true ->
  refs_exist_along ops h = true ->
  links_resolve (document (run ops h)) = true.
Proof.
  revert h. induction ops as [|o ops IH]; intros h H Hrefs; [exact H|].
  rewrite run_cons. cbn [refs_exist_along] in Hrefs.
  apply andb_true_iff in Hrefs. destruct Hrefs as (Ho & Hrest).
  apply IH; [|exact Hrest].
  destruct h as [|item].
  - now rewrite exec_no_window.
  - rewrite exec_browser. cbn [snd]. rewrite document_stored.
    now apply links_resolve_effect.
Qed.

Lemma links_name_existing_records_witness :
  links_resolve (document (Browser None)) = true
  /\ refs_exist_along sample_calls (Browser None) = true
  /\ links_resolve (document (run sample_calls (Browser None))) = true.
Proof.
  assert (H0 : links_resolve (document (Browser None)) = true) by reflexivity.
  assert (H1 : refs_exist_along sample_calls (Browser None) = true) by reflexivity.
  split; [exact H0|]. split; [exact H1|].
  exact (links_name_existing_records sample_calls (Browser None) H0 H1).
Defined.

(** C2 fails as stated: in the empty store there is no problem 3 and no
    idea 5, yet [linkProblemToIdea 3 5] answers [true] and records the
    link; [setProblemLinksForIdea 5 [3]] records one as well. *)
Lemma link_to_missing_records :
  fst (getProblemById 3 (Browser None)) = None
  /\ fst (getIdeaById 5 (Browser None)) = None
  /\ fst (linkProblemToIdea 3 5 (Browser None)) = true
  /\ StorageData.links (document (snd (linkProblemToIdea 3 5 (Browser None))))
     = [ProblemIdeaLink.mk 1 3 5]
  /\ StorageData.problems (document (snd (linkProblemToIdea 3 5 (Browser None)))) = []
  /\ StorageData.ideas (document (snd (linkProblemToIdea 3 5 (Browser None)))) = []
  /\ links_resolve (document (snd (linkProblemToIdea 3 5 (Browser None)))) = false
  /\ StorageData.links (document (snd (setProblemLinksForIdea 5 [3] (Browser None))))
     = [ProblemIdeaLink.mk 1 3 5]
  /\ links_resolve (document (snd (setProblemLinksForIdea 5 [3] (Browser None)))) = false.
Proof. repeat split; reflexivity. Qed.

(** The session of [sample_calls], step by step. *)
Example sample_calls_links :
  StorageData.links (document (run sample_calls (Browser None)))
  = [ProblemIdeaLink.mk 2 2 1; ProblemIdeaLink.mk 4 3 1]
  /\ map Problem.id (StorageData.problems (document (run sample_calls (Browser None))))
     = [2; 3].
Proof. split; reflexivity. Qed.

(** ** Ids and counters *)

Lemma last_n_app {A : Type} (kept pushed : list A) :
  last_n (length pushed) (kept ++ pushed) = pushed.
Proof.
  unfold last_n. rewrite length_app.
  replace (length kept + length pushed - length pushed)%nat with (length kept + 0)%nat by lia.
  rewrite skipn_app, Nat.add_0_r, skipn_all. cbn [app].
  replace (length kept - length kept)%nat with 0%nat by lia. reflexivity.
Qed.

Lemma last_n_numbered (kept : list ProblemIdeaLink.t) (i c : Z) (ps : list Z) :
  last_n (length ps) (kept ++ numbered_links i c ps) = numbered_links i c ps.
Proof.
  rewrite <- (numbered_links_length i c ps) at 1. apply last_n_app.
Qed.

(** [getNextId] increments the counter and hands out its new value. *)
Lemma getNextId_next (data : StorageData.t) (type : CounterKey) :
  fst (getNextId data type) = number_succ (counter type data)
  /\ counter type (snd (getNextId data type)) = number_succ (counter type data)
  /\ (forall other, other <> type ->
        counter other (snd (getNextId data type)) = counter other data).
Proof.
  destruct data as [a b c d [e f g k]].
  destruct type; cbn; repeat split; intros [] H; try reflexivity; congruence.
Qed.

(** *** The ids a call creates are those of the records it pushes *)

Lemma minted_links_LinkProblemToIdea (data : StorageData.t) (p i : Z) :
  ~ In (p, i) (map pair_of (StorageData.links data)) ->
  minted_links (LinkProblemToIdea p i) (fst (effect (LinkProblemToIdea p i) data))
    (snd (effect (LinkProblemToIdea p i) data))
  = [ProblemIdeaLink.mk (number_succ (counter key_links data)) p i].
Proof.
  intros H. rewrite effect_LinkProblemToIdea.
  destruct (existsb _ _) eqn:E; [exfalso; apply H; now apply existsb_pair|].
  cbn [fst snd minted_links]. rewrite relinked_links.
  apply (last_n_app _ [_]).
Qed.

Lemma minted_links_SetProblemLinksForIdea (data : StorageData.t) (i : Z) (ps : list Z) :
  minted_links (SetProblemLinksForIdea i ps) (fst (effect (SetProblemLinksForIdea i ps) data))
    (snd (effect (SetProblemLinksForIdea i ps) data))
  = numbered_links i (counter key_links data) ps.
Proof.
  rewrite effect_SetProblemLinksForIdea. cbn [fst snd minted_links].
  rewrite relinked_links. apply last_n_numbered.
Qed.

(** The id [createProblem] returns is the id of the problem it pushed, the
    last of the collection. *)
Lemma createProblem_returns_pushed_id (item : option StorageData.t)
    (now t d oc : string) (sv : Z) (f : Frequency) (st : ProblemStatus) (tg : string) :
  let result := createProblem now t d oc sv f st tg (Browser item) in
  StorageData.problems (document (snd result))
  = StorageData.problems (document (Browser item))
    ++ [Problem.mk (fst result) t d oc sv f st tg now now]
  /\ fst result = number_succ (counter key_problems (document (Browser item)))
  /\ counter key_problems (document (snd result)) = fst result.
Proof.
  cbv zeta. unfold createProblem. rewrite bind_read, getStorageData_browser.
  destruct (document (Browser item)) as [a b c e [k1 k2 k3 k4]]. cbn. auto.
Qed.

(** *** Counting exactly *)


Lemma stays_exact_spec (type : CounterKey) (o : Op) (data : StorageData.t) :
  stays_exact type o data = true ->
  mints type o data = 0 \/ counts_exactly (counter type data) (mints type o data).
Proof.
  unfold stays_exact. intros H. apply orb_true_iff in H. destruct H as [H|H].
  - left. now apply Z.eqb_eq.
  - right. now apply counts_exactly_b_spec.
Qed.


Lemma StronglySorted_lt_app (l1 l2 : list Z) (m : Z) :
  StronglySorted Z.lt l1 -> StronglySorted Z.lt l2 ->
  Forall (fun x => x <= m) l1 -> Forall (fun y => m < y) l2 ->
  StronglySorted Z.lt (l1 ++ l2).
Proof.
  intros S1 S2 B1 B2. induction S1 as [|x l1 S1 IH Hx]; [exact S2|].
  inversion B1 as [|? ? Bx B1']; subst. cbn. constructor; [now apply IH|].
  apply Forall_app. split; [exact Hx|].
  eapply Forall_impl; [|exact B2]. cbn. intros y Hy. lia.
Qed.







(** The two calls left out do lower counters, and ids come again. *)
Example clearAllData_resets_ids :
  fst (createProblem t0900 "A" "d" "c" 3 weekly open "t" (Browser None)) = 1
  /\ fst (createProblem t0900 "B" "d" "c" 3 weekly open "t"
            (snd (clearAllData
                    (snd (createProblem t0900 "A" "d" "c" 3 weekly open "t"
                            (Browser None)))))) = 1
  /\ counter key_problems (document (snd (clearAllData sample_host))) = 0
  /\ counter key_problems (document (snd (importAllData initial sample_host))) = 0.
Proof. repeat split; reflexivity. Qed.

(** *** Numbering *)

Lemma StronglySorted_lt_NoDup (l : list Z) : StronglySorted Z.lt l -> NoDup l.
Proof.
  induction 1 as [|x l S IH Hx]; constructor; [|exact IH].
  intros Hin. rewrite Forall_forall in Hx. specialize (Hx x Hin). lia.
Qed.

Lemma StronglySorted_lt_filter {A : Type} (get_id : A -> Z) (f : A -> bool) (l : list A) :
  StronglySorted Z.lt (map get_id l) -> StronglySorted Z.lt (map get_id (filter f l)).
Proof.
  induction l as [|x l IH]; simpl; intros S; [constructor|].
  inversion S as [|? ? S' Hx]; subst.
  destruct (f x); simpl; [|now apply IH].
  constructor; [now apply IH|].
  rewrite Forall_forall in *. intros y Hy. apply Hx.
  apply in_map_iff in Hy. destruct Hy as (z & <- & Hz). apply in_map.
  apply filter_In in Hz. tauto.
Qed.

Section Numbering.

Context {A : Type} (get_id : A -> Z).

Lemma numbered_within_nil (c : Z) : numbered_within get_id c [].
Proof. split; constructor. Qed.

Lemma numbered_within_NoDup (c : Z) (l : list A) :
  numbered_within get_id c l -> NoDup (map get_id l).
Proof. intros (S & _). now apply StronglySorted_lt_NoDup. Qed.

Lemma numbered_within_filter (c : Z) (f : A -> bool) (l : list A) :
  numbered_within get_id c l -> numbered_within get_id c (filter f l).
Proof.
  intros (S & B). split; [now apply StronglySorted_lt_filter|].
  rewrite Forall_forall in *. intros x Hx. apply B. apply filter_In in Hx. tauto.
Qed.

Lemma numbered_within_same_ids (c : Z) (l l' : list A) :
  map get_id l' = map get_id l ->
  numbered_within get_id c l -> numbered_within get_id c l'.
Proof.
  intros E (S & B). split; [now rewrite E|].
  rewrite Forall_forall in *. intros x Hx.
  assert (Hin : In (get_id x) (map get_id l)) by (rewrite <- E; now apply in_map).
  apply in_map_iff in Hin. destruct Hin as (y & Ey & Hy). rewrite <- Ey. now apply B.
Qed.

Lemma numbered_within_app (c c' : Z) (l fresh : list A) :
  numbered_within get_id c l ->
  c <= c' ->
  StronglySorted Z.lt (map get_id fresh) ->
  Forall (fun x => c < get_id x <= c') fresh ->
  numbered_within get_id c' (l ++ fresh).
Proof.
  intros (S & B) Hc Sf Bf. split.
  - rewrite map_app. apply (StronglySorted_lt_app _ _ c); try assumption.
    + rewrite Forall_map. exact B.
    + rewrite Forall_map. eapply Forall_impl; [|exact Bf]. cbn. intros; lia.
  - apply Forall_app. split.
    + eapply Forall_impl; [|exact B]. cbn. intros; lia.
    + eapply Forall_impl; [|exact Bf]. cbn. intros; lia.
Qed.

(** A record pushed under the incremented counter, while the counter counts
    exactly. *)
Lemma numbered_within_push (c : Z) (l : list A) (x : A) :
  counts_exactly c 1 ->
  numbered_within get_id c l -> get_id x = number_succ c ->
  numbered_within get_id (number_succ c) (l ++ [x]).
Proof.
  intros Hc H E. rewrite (number_succ_one c Hc) in *.
  apply (numbered_within_app c); [exact H | lia | repeat constructor |].
  constructor; [lia | constructor].
Qed.

Lemma numbered_within_assign_at (c : Z) (n : nat) (g : A -> A) (l : list A) :
  (forall x, get_id (g x) = get_id x) ->
  numbered_within get_id c l -> numbered_within get_id c (assign_at n g l).
Proof. intros Hg. apply numbered_within_same_ids. now apply assign_at_ids. Qed.

Lemma numbered_within_map (c : Z) (g : A -> A) (l : list A) :
  (forall x, get_id (g x) = get_id x) ->
  numbered_within get_id c l -> numbered_within get_id c (map g l).
Proof.
  intros Hg. apply numbered_within_same_ids. rewrite map_map.
  apply map_ext. exact Hg.
Qed.

End Numbering.

Lemma numbered_within_numbered_links (c i : Z) (ps : list Z)
    (kept : list ProblemIdeaLink.t) :
  Z.of_nat (length ps) = 0 \/ counts_exactly c (Z.of_nat (length ps)) ->
  numbered_within ProblemIdeaLink.id c kept ->
  numbered_within ProblemIdeaLink.id (advance (length ps) c)
    (kept ++ numbered_links i c ps).
Proof.
  intros [Hc|Hc] H.
  - destruct ps as [|p ps]; [|cbn in Hc; lia]. cbn. now rewrite app_nil_r.
  - rewrite (advance_exact _ _ Hc).
    apply (numbered_within_app _ c); [exact H | lia | |].
    + now apply numbered_links_increasing.
    + apply Forall_forall. intros l Hl. now apply numbered_links_range in Hl.
Qed.

(** Every call keeps the document well numbered while the counters it
    increments count exactly (an import, if the document it brings is well
    numbered). *)
Lemma well_numbered_effect (o : Op) (data : StorageData.t) :
  keeps_numbering o ->
  (forall type, stays_exact type o data = true) ->
  well_numbered data -> well_numbered (snd (effect o data)).
Proof.
  intros Hkeep Hex (Hp & Hi & Hn & Hl).
  pose proof (stays_exact_spec _ _ _ (Hex key_problems)) as E1.
  pose proof (stays_exact_spec _ _ _ (Hex key_ideas)) as E2.
  pose proof (stays_exact_spec _ _ _ (Hex key_notes)) as E3.
  pose proof (stays_exact_spec _ _ _ (Hex key_links)) as E4.
  clear Hex. revert E1 E2 E3 E4.
  destruct data as [a b c d [k1 k2 k3 k4]]. cbn in Hp, Hi, Hn, Hl.
  destruct o; cbn [mints]; autorewrite with effect; split_ifs; cbn [fst snd];
    intros E1 E2 E3 E4; unfold well_numbered; cbn in E1, E2, E3, E4 |- *;
    repeat match goal with
           | H : 1 = 0 \/ _ |- _ => destruct H as [H|H]; [discriminate H|]
           end;
    repeat match goal with
           | |- _ /\ _ => split
           end;
    try assumption;
    try (apply numbered_within_push; [assumption | assumption | reflexivity]);
    try (apply numbered_within_assign_at; [reflexivity | assumption]);
    try (apply numbered_within_filter; assumption).
  - apply numbered_within_map; [|assumption].
    intros n. now destruct (ref_is (Note.problem_id n) id).
  - apply numbered_within_map; [|assumption].
    intros n. now destruct (ref_is (Note.idea_id n) id).
  - apply numbered_within_numbered_links; [assumption|].
    now apply numbered_within_filter.
  - apply numbered_within_nil.
  - apply numbered_within_nil.
  - apply numbered_within_nil.
  - apply numbered_within_nil.
  - apply Hkeep.
  - apply Hkeep.
  - apply Hkeep.
  - apply Hkeep.
Qed.

Lemma well_numbered_initial : well_numbered initial.
Proof. repeat split; constructor. Qed.

(** Along calls that keep the numbering, every document the store holds
    is well numbered: in each collection the ids increase in storage
    order, so no two records share an id, and none exceeds the counter. *)
Lemma well_numbered_run (ops : list Op) (h : Host) :
  Forall keeps_numbering ops ->
  (forall type, stays_exact_along type ops h = true) ->
  well_numbered (document h) ->
  well_numbered (document (run ops h)).
Proof.
  intros Hops. revert h. induction Hops as [|o ops Ho _ IH]; intros h Hex H; [exact H|].
  assert (Hnow : forall type, stays_exact type o (document h) = true).
  { intros type. specialize (Hex type). cbn [stays_exact_along] in Hex.
    now apply andb_true_iff in Hex. }
  assert (Hrest : forall type, stays_exact_along type ops (snd (exec o h)) = true).
  { intros type. specialize (Hex type). cbn [stays_exact_along] in Hex.
    now apply andb_true_iff in Hex. }
  rewrite run_cons. apply IH; [exact Hrest|]. destruct h as [|item].
  - rewrite exec_no_window. apply well_numbered_initial.
  - rewrite exec_browser. cbn [snd]. rewrite document_stored.
    now apply well_numbered_effect.
Qed.

(** In such a document no idea and no problem is listed twice among the
    records linked to a record. *)
Lemma linked_records_distinct (ops : list Op) (problem_id idea_id : Z) :
  Forall keeps_numbering ops ->
  (forall type, stays_exact_along type ops (Browser None) = true) ->
  let h := run ops (Browser None) in
  NoDup (map Idea.id (fst (getIdeasForProblem problem_id h)))
  /\ NoDup (map Problem.id (fst (getProblemsForIdea idea_id h))).
Proof.
  intros Hops Hex h.
  destruct (well_numbered_run ops (Browser None) Hops Hex well_numbered_initial)
    as (Hp & Hi & _).
  unfold getIdeasForProblem, getProblemsForIdea. rewrite !bind_read. cbn [fst ret].
  split; apply NoDup_map_filter; eapply numbered_within_NoDup; eassumption.
Qed.

(** ** Listings *)

Section Listings.

Variable Date_getTime : string -> option Z.

Section Sorting.

Context {A : Type} (created_at : A -> string).

Local Abbreviation cmp := (created_at_cmp Date_getTime created_at).
Local Abbreviation later_first := (created_at_desc Date_getTime created_at).
Local Abbreviation dated := (created_at_valid Date_getTime created_at).

Lemma sort_insert_perm (x : A) (l : list A) : Permutation (sort_insert cmp x l) (x :: l).
Proof.
  induction l as [|y l IH]; simpl; [reflexivity|].
  destruct (cmp x y <=? 0); [reflexivity|].
  rewrite IH. apply perm_swap.
Qed.

Lemma Array_sort_perm (l : list A) : Permutation (Array_sort cmp l) l.
Proof.
  induction l as [|x l IH]; simpl; [constructor|].
  unfold Array_sort in IH. rewrite sort_insert_perm. now constructor.
Qed.

Lemma cmp_le (x y : A) :
  dated x -> dated y -> cmp x y <= 0 -> later_first x y.
Proof.
  unfold dated, valid_date, cmp, later_first, not_before, by_created_at_desc.
  destruct (Date_getTime (created_at x)), (Date_getTime (created_at y));
    intros; try congruence. lia.
Qed.

Lemma cmp_gt (x y : A) :
  dated x -> dated y -> 0 < cmp x y -> later_first y x.
Proof.
  unfold dated, valid_date, cmp, later_first, not_before, by_created_at_desc.
  destruct (Date_getTime (created_at x)), (Date_getTime (created_at y));
    intros; try congruence. lia.
Qed.

Lemma later_first_trans (x y z : A) : later_first x y -> later_first y z -> later_first x z.
Proof.
  unfold later_first, not_before.
  destruct (Date_getTime (created_at x)), (Date_getTime (created_at y)),
    (Date_getTime (created_at z)); intros; try contradiction. lia.
Qed.

Lemma sort_insert_sorted (x : A) (l : list A) :
  dated x -> Forall dated l ->
  StronglySorted later_first l -> StronglySorted later_first (sort_insert cmp x l).
Proof.
  intros Hx Hl S. induction S as [|y l S IH Hy]; simpl.
  - repeat constructor.
  - inversion Hl as [|? ? Dy Dl]; subst.
    destruct (cmp x y <=? 0) eqn:E.
    + apply Z.leb_le in E. pose proof (cmp_le x y Hx Dy E) as Hxy.
      constructor; [now constructor|]. constructor; [exact Hxy|].
      eapply Forall_impl; [|exact Hy]. intros z Hz. eapply later_first_trans; eassumption.
    + apply Z.leb_gt in E. constructor; [now apply IH|].
      rewrite sort_insert_perm. constructor; [|exact Hy]. now apply cmp_gt.
Qed.

Lemma Array_sort_sorted (l : list A) :
  Forall dated l -> StronglySorted later_first (Array_sort cmp l).
Proof.
  induction 1 as [|x l Hx Hl IH]; simpl; [constructor|].
  apply sort_insert_sorted; [exact Hx| |exact IH].
  eapply Permutation_Forall; [|exact Hl]. symmetry. apply Array_sort_perm.
Qed.

(** Records of one instant keep the order they are stored in. *)
Lemma sort_insert_stable (t : Z) (x : A) (l : list A) :
  filter (fun a => at_instant Date_getTime t (created_at a)) (sort_insert cmp x l)
  = filter (fun a => at_instant Date_getTime t (created_at a)) (x :: l).
Proof.
  induction l as [|y l IH]; [reflexivity|].
  cbn [sort_insert]. destruct (cmp x y <=? 0) eqn:E; [reflexivity|].
  apply Z.leb_gt in E. cbn [filter] in *. rewrite IH.
  destruct (at_instant Date_getTime t (created_at x)) eqn:Ex; [|reflexivity].
  destruct (at_instant Date_getTime t (created_at y)) eqn:Ey; [|reflexivity].
  exfalso. unfold at_instant in Ex, Ey. unfold cmp, by_created_at_desc in E.
  destruct (Date_getTime (created_at x)), (Date_getTime (created_at y)); try discriminate.
  apply Z.eqb_eq in Ex, Ey. lia.
Qed.

Lemma Array_sort_stable (t : Z) (l : list A) :
  filter (fun a => at_instant Date_getTime t (created_at a)) (Array_sort cmp l)
  = filter (fun a => at_instant Date_getTime t (created_at a)) l.
Proof.
  induction l as [|x l IH]; [reflexivity|].
  cbn [Array_sort fold_right]. rewrite sort_insert_stable. cbn [filter].
  unfold Array_sort in IH. now rewrite IH.
Qed.

Lemma cmp_dated (x y : A) (tx ty : Z) :
  Date_getTime (created_at x) = Some tx -> Date_getTime (created_at y) = Some ty ->
  cmp x y = ty - tx.
Proof. intros Ex Ey. unfold cmp, by_created_at_desc. now rewrite Ex, Ey. Qed.

Lemma sort_insert_after (x y : A) (l : list A) :
  0 < cmp x y -> sort_insert cmp x (y :: l) = y :: sort_insert cmp x l.
Proof. intros H. cbn [sort_insert]. apply Z.leb_gt in H. now rewrite H. Qed.

(** Three records with increasing dates come out reversed. *)
Lemma Array_sort_three (a b c : A) (ta tb tc : Z) :
  Date_getTime (created_at a) = Some ta ->
  Date_getTime (created_at b) = Some tb ->
  Date_getTime (created_at c) = Some tc ->
  ta < tb < tc ->
  Array_sort cmp [a; b; c] = [c; b; a].
Proof.
  intros Ea Eb Ec Hlt. unfold Array_sort. cbn [fold_right].
  change (sort_insert cmp c []) with [c].
  rewrite (sort_insert_after b c) by (rewrite (cmp_dated b c tb tc); [lia | assumption..]).
  change (sort_insert cmp b []) with [b].
  rewrite (sort_insert_after a c) by (rewrite (cmp_dated a c ta tc); [lia | assumption..]).
  rewrite (sort_insert_after a b) by (rewrite (cmp_dated a b ta tb); [lia | assumption..]).
  reflexivity.
Qed.

End Sorting.

(** Records that compare equal throughout are left as they are. *)
Lemma Array_sort_three_ties {A : Type} (created_at : A -> string) (a b c : A) :
  created_at b = created_at a -> created_at c = created_at a ->
  Array_sort
    (fun x y => by_created_at_desc Date_getTime (created_at x) (created_at y)) [a; b; c]
  = [a; b; c].
Proof.
  intros Eb Ec.
  assert (Hzero : forall s, (by_created_at_desc Date_getTime s s <=? 0) = true).
  { intros s. unfold by_created_at_desc.
    destruct (Date_getTime s); [rewrite Z.sub_diag|]; reflexivity. }
  unfold Array_sort. cbn [fold_right].
  do 3 (cbn [sort_insert]; rewrite ?Eb, ?Ec, ?Hzero). reflexivity.
Qed.

(** Three creations in a store without problems leave three problems, in
    order of creation, numbered by three increments of the counter, each
    dated with the clock reading of its call. *)
Lemma three_created (item : option StorageData.t) (oA oB oC : Op) (nowA nowB nowC : string) :
  creates_problem_at nowA oA -> creates_problem_at nowB oB -> creates_problem_at nowC oC ->
  StorageData.problems (document (Browser item)) = [] ->
  exists a b c,
    StorageData.problems (document (run [oA; oB; oC] (Browser item))) = [a; b; c]
    /\ map Problem.id [a; b; c]
       = map (fun n => advance n (counter key_problems (document (Browser item))))
           [1; 2; 3]%nat
    /\ Problem.created_at a = nowA
    /\ Problem.created_at b = nowB
    /\ Problem.created_at c = nowC.
Proof.
  intros HA HB HC Hempty.
  destruct oA; try contradiction. destruct oB; try contradiction.
  destruct oC; try contradiction. cbn in HA, HB, HC. subst.
  rewrite !run_cons_browser, run_nil, !document_stored.
  autorewrite with effect. cbn [snd]. rewrite Hempty.
  destruct (document (Browser item)) as [a b c d [k1 k2 k3 k4]]. cbn.
  do 3 eexists. split; [reflexivity|]. cbn. auto.
Qed.

(** C7, as the code has it: each listing is the collection rearranged,
    latest [created_at] first when the dates are valid dates, records of
    the same instant in storage order.  So three problems created in a
    store without problems are listed last-created first when the clock
    advanced between the creations, and first-created first when the three
    creations read the same instant on the clock. *)
Theorem listings_latest_first :
  (forall h : Host,
     let listed := fst (getAllProblems Date_getTime h) in
     let stored := StorageData.problems (document h) in
     Permutation listed stored
     /\ (Forall (fun p => valid_date Date_getTime (Problem.created_at p)) stored ->
         StronglySorted
           (fun a b => not_before Date_getTime (Problem.created_at a) (Problem.created_at b))
           listed
         /\ forall t,
              filter (fun p => at_instant Date_getTime t (Problem.created_at p)) listed
              = filter (fun p => at_instant Date_getTime t (Problem.created_at p)) stored))
  /\ (forall h : Host,
        let listed := fst (getAllIdeas Date_getTime h) in
        let stored := StorageData.ideas (document h) in
        Permutation listed stored
        /\ (Forall (fun i => valid_date Date_getTime (Idea.created_at i)) stored ->
            StronglySorted
              (fun a b => not_before Date_getTime (Idea.created_at a) (Idea.created_at b))
              listed
            /\ forall t,
                 filter (fun i => at_instant Date_getTime t (Idea.created_at i)) listed
                 = filter (fun i => at_instant Date_getTime t (Idea.created_at i)) stored))
  /\ (forall h : Host,
        let listed := fst (getAllNotes Date_getTime h) in
        let stored := StorageData.notes (document h) in
        Permutation listed stored
        /\ (Forall (fun n => valid_date Date_getTime (Note.created_at n)) stored ->
            StronglySorted
              (fun a b => not_before Date_getTime (Note.created_at a) (Note.created_at b))
              listed
            /\ forall t,
                 filter (fun n => at_instant Date_getTime t (Note.created_at n)) listed
                 = filter (fun n => at_instant Date_getTime t (Note.created_at n)) stored))
  /\ (forall (item : option StorageData.t) (oA oB oC : Op) (nowA nowB nowC : string),
        creates_problem_at nowA oA ->
        creates_problem_at nowB oB ->
        creates_problem_at nowC oC ->
        StorageData.problems (document (Browser item)) = [] ->
        exists a b c,
          StorageData.problems (document (run [oA; oB; oC] (Browser item))) = [a; b; c]
          /\ map Problem.id [a; b; c]
             = map (fun n => advance n (counter key_problems (document (Browser item))))
                 [1; 2; 3]%nat
          /\ Problem.created_at a = nowA
          /\ Problem.created_at b = nowB
          /\ Problem.created_at c = nowC
          /\ (forall ta tb tc,
                Date_getTime nowA = Some ta ->
                Date_getTime nowB = Some tb ->
                Date_getTime nowC = Some tc ->
                ta < tb < tc ->
                fst (getAllProblems Date_getTime (run [oA; oB; oC] (Browser item)))
                = [c; b; a])
          /\ (nowB = nowA ->
              nowC = nowA ->
              fst (getAllProblems Date_getTime (run [oA; oB; oC] (Browser item)))
              = [a; b; c])).
Proof.
  split; [|split; [|split]].
  - intros h. cbv zeta. unfold getAllProblems. rewrite bind_read. cbn [fst ret].
    split; [apply Array_sort_perm|]. intros Hvalid.
    split; [now apply Array_sort_sorted|]. intros t. apply Array_sort_stable.
  - intros h. cbv zeta. unfold getAllIdeas. rewrite bind_read. cbn [fst ret].
    split; [apply Array_sort_perm|]. intros Hvalid.
    split; [now apply Array_sort_sorted|]. intros t. apply Array_sort_stable.
  - intros h. cbv zeta. unfold getAllNotes. rewrite bind_read. cbn [fst ret].
    split; [apply Array_sort_perm|]. intros Hvalid.
    split; [now apply Array_sort_sorted|]. intros t. apply Array_sort_stable.
  - intros item oA oB oC nowA nowB nowC HA HB HC Hempty.
    destruct (three_created item oA oB oC nowA nowB nowC HA HB HC Hempty)
      as (a & b & c & E & Eid & Ea & Eb & Ec).
    exists a, b, c. split; [exact E|]. do 4 (split; [assumption|]).
    unfold getAllProblems. rewrite bind_read. cbn [fst ret]. rewrite E. split.
    + intros ta tb tc Ta Tb Tc Hlt.
      apply (Array_sort_three Problem.created_at a b c ta tb tc); congruence.
    + intros -> ->. apply Array_sort_three_ties; congruence.
Qed.

End Listings.

Lemma listings_latest_first_witness :
  Forall (fun p => valid_date sample_getTime (Problem.created_at p))
    (StorageData.problems (document sample_host))
  /\ StronglySorted
       (fun a b => not_before sample_getTime (Problem.created_at a) (Problem.created_at b))
       (fst (getAllProblems sample_getTime sample_host))
  /\ map Problem.title
       (fst (getAllProblems sample_getTime
               (run (create_ABC t0900 t0930 t1000) (Browser None))))
     = ["C"; "B"; "A"]%string.
Proof.
  assert (Hvalid : Forall (fun p => valid_date sample_getTime (Problem.created_at p))
                     (StorageData.problems (document sample_host))).
  { repeat constructor; discriminate. }
  destruct (listings_latest_first sample_getTime) as (P & _ & _ & ABC).
  destruct (P sample_host) as (_ & S).
  split; [exact Hvalid|]. split; [exact (proj1 (S Hvalid))|].
  destruct (ABC None
              (CreateProblem t0900 "A" "first" "ctx" 3 weekly open "t")
              (CreateProblem t0930 "B" "second" "ctx" 3 weekly open "t")
              (CreateProblem t1000 "C" "third" "ctx" 3 weekly open "t")
              t0900 t0930 t1000 eq_refl eq_refl eq_refl eq_refl)
    as (a & b & c & E & _ & _ & _ & _ & Up & _).
  change (run (create_ABC t0900 t0930 t1000) (Browser None))
    with (run [CreateProblem t0900 "A" "first" "ctx" 3 weekly open "t";
               CreateProblem t0930 "B" "second" "ctx" 3 weekly open "t";
               CreateProblem t1000 "C" "third" "ctx" 3 weekly open "t"] (Browser None)).
  rewrite (Up 1709283600000 1709285400000 1709287200000 eq_refl eq_refl eq_refl
             (conj eq_refl eq_refl)).
  injection E as <- <- <-. reflexivity.
Defined.

(** C7 fails as stated: three problems created in order A, B, C within one
    millisecond are listed A, B, C, not C, B, A. *)
Lemma same_instant_lists_oldest_first :
  map Problem.title
    (fst (getAllProblems sample_getTime
            (run (create_ABC t0900 t0900 t0900) (Browser None))))
  = ["A"; "B"; "C"]%string
  /\ map Problem.title
       (fst (getAllProblems sample_getTime
               (run (create_ABC t0900 t0900 t0900) (Browser None))))
     <> ["C"; "B"; "A"]%string.
Proof. split; [reflexivity | discriminate]. Qed.

(** * Further properties of the store *)

(** ** Deleting an idea, deleting a note *)

Lemma detach_notes_idea (id : Z) (l : list Note.t) :
  Forall2 (detached_from_idea id) l
    (map (fun n => if ref_is (Note.idea_id n) id then with_idea_id n None else n) l).
Proof.
  induction l as [|n l IH]; simpl; constructor; [|assumption].
  unfold detached_from_idea. destruct (ref_is (Note.idea_id n) id) eqn:E.
  - apply ref_is_true in E. cbn. repeat split; try reflexivity. intros H. congruence.
  - repeat split; try reflexivity. intros H. apply ref_is_true in H. congruence.
Qed.

(** No host without a window holds a record. *)
Lemma present_browser {A : Type} (get_id : A -> Z) (id : Z)
    (coll : StorageData.t -> list A) (h : Host) :
  coll initial = [] ->
  present get_id id (coll (document h)) ->
  exists item, h = Browser item.
Proof.
  intros Hinit Hin. destruct h as [|item]; [|now exists item].
  exfalso. rewrite document_no_window, Hinit in Hin. exact Hin.
Qed.

Lemma deleteIdea_present (item : option StorageData.t) (id : Z) :
  let before := document (Browser item) in
  present Idea.id id (StorageData.ideas before) ->
  deleteIdea id (Browser item)
  = (true,
     Browser (Some
       (StorageData.mk
          (StorageData.problems before)
          (filter (fun i => negb (Idea.id i =? id)) (StorageData.ideas before))
          (map (fun n => if ref_is (Note.idea_id n) id then with_idea_id n None else n)
             (StorageData.notes before))
          (filter (fun l => negb (ProblemIdeaLink.idea_id l =? id))
             (StorageData.links before))
          (StorageData.counters before)))).
Proof.
  intros before Hin. unfold deleteIdea. rewrite bind_read. fold before.
  cbn [set_ideas StorageData.ideas].
  rewrite filter_length_ltb_present by assumption.
  rewrite getStorageData_browser. reflexivity.
Qed.

(** Deleting an idea whose id is present answers [true] and leaves a
    document without that idea, without any link to it, with every note
    kept and detached exactly when it referenced the idea, and with the
    problems and the counters as they were. *)
Theorem deleteIdea_cascades (h : Host) (id : Z) :
  let before := document h in
  let result := deleteIdea id h in
  let after := document (snd result) in
  present Idea.id id (StorageData.ideas before) ->
  fst result = true
  /\ (forall i, In i (StorageData.ideas after)
                <-> In i (StorageData.ideas before) /\ Idea.id i <> id)
  /\ absent Idea.id id (StorageData.ideas after)
  /\ (forall l, In l (StorageData.links after)
                <-> In l (StorageData.links before) /\ ProblemIdeaLink.idea_id l <> id)
  /\ Forall2 (detached_from_idea id) (StorageData.notes before) (StorageData.notes after)
  /\ StorageData.problems after = StorageData.problems before
  /\ StorageData.counters after = StorageData.counters before
  /\ fst (getIdeaById id (snd result)) = None
  /\ fst (getProblemsForIdea id (snd result)) = [].
Proof.
  cbv zeta. intros Hin.
  destruct (present_browser Idea.id id StorageData.ideas h eq_refl Hin) as (item & ->).
  rewrite (deleteIdea_present item id Hin). cbn [fst snd]. rewrite document_stored.
  cbn [StorageData.problems StorageData.ideas StorageData.notes StorageData.links
         StorageData.counters].
  assert (Habs : absent Idea.id id
                   (filter (fun i => negb (Idea.id i =? id))
                      (StorageData.ideas (document (Browser item))))).
  { unfold absent. rewrite in_map_iff. intros (i & E & Hi).
    apply In_filter_differs in Hi. tauto. }
  split; [reflexivity|].
  split; [intros i; apply In_filter_differs|].
  split; [exact Habs|].
  split; [intros l; apply In_filter_differs|].
  split; [apply detach_notes_idea|].
  split; [reflexivity|]. split; [reflexivity|].
  split.
  - unfold getIdeaById. rewrite bind_read, document_stored. cbn [fst ret StorageData.ideas].
    now apply find_absent.
  - unfold getProblemsForIdea. rewrite bind_read, document_stored.
    cbn [fst ret StorageData.links StorageData.problems].
    replace (filter (fun l => ProblemIdeaLink.idea_id l =? id)
               (filter (fun l => negb (ProblemIdeaLink.idea_id l =? id))
                  (StorageData.links (document (Browser item)))))
      with (@nil ProblemIdeaLink.t)
      by (symmetry; apply (filter_filter_negb (fun l => ProblemIdeaLink.idea_id l =? id))).
    cbn. induction (StorageData.problems (document (Browser item))) as [|p ps IH];
      [reflexivity | exact IH].
Qed.

Lemma deleteIdea_cascades_witness :
  present Idea.id 1 (StorageData.ideas (document sample_host))
  /\ fst (deleteIdea 1 sample_host) = true
  /\ StorageData.problems (document (snd (deleteIdea 1 sample_host)))
     = StorageData.problems (document sample_host)
  /\ fst (getProblemsForIdea 1 (snd (deleteIdea 1 sample_host))) = [].
Proof.
  assert (Hp : present Idea.id 1 (StorageData.ideas (document sample_host))).
  { unfold present. cbn. left. reflexivity. }
  destruct (deleteIdea_cascades sample_host 1 Hp) as (R & _ & _ & _ & _ & P & _ & _ & G).
  split; [exact Hp|]. split; [exact R|]. split; [exact P | exact G].
Defined.

(** Deleting a note whose id is present answers [true], takes out the notes
    with that id and touches nothing else: no problem, idea or link goes,
    no counter moves. *)
Theorem deleteNote_no_cascade (h : Host) (id : Z) :
  let before := document h in
  let result := deleteNote id h in
  let after := document (snd result) in
  present Note.id id (StorageData.notes before) ->
  fst result = true
  /\ (forall n, In n (StorageData.notes after)
                <-> In n (StorageData.notes before) /\ Note.id n <> id)
  /\ StorageData.problems after = StorageData.problems before
  /\ StorageData.ideas after = StorageData.ideas before
  /\ StorageData.links after = StorageData.links before
  /\ StorageData.counters after = StorageData.counters before
  /\ fst (getNoteById id (snd result)) = None.
Proof.
  cbv zeta. intros Hin.
  destruct (present_browser Note.id id StorageData.notes h eq_refl Hin) as (item & ->).
  unfold deleteNote. rewrite bind_read. cbn [set_notes StorageData.notes].
  rewrite filter_length_ltb_present by assumption.
  rewrite getStorageData_browser. unfold bind, ret. cbn [snd fst].
  rewrite saveStorageData_browser. cbn [fst snd]. rewrite document_stored.
  cbn [StorageData.problems StorageData.ideas StorageData.notes StorageData.links
         StorageData.counters].
  split; [reflexivity|]. split; [intros n; apply In_filter_differs|].
  do 4 (split; [reflexivity|]).
  unfold getNoteById. rewrite bind_read, document_stored. cbn [fst ret StorageData.notes].
  apply find_absent. unfold absent. rewrite in_map_iff. intros (n & E & Hn).
  apply In_filter_differs in Hn. tauto.
Qed.

Lemma deleteNote_no_cascade_witness :
  present Note.id 2 (StorageData.notes (document sample_host))
  /\ fst (deleteNote 2 sample_host) = true
  /\ StorageData.links (document (snd (deleteNote 2 sample_host)))
     = StorageData.links (document sample_host)
  /\ fst (getNoteById 2 (snd (deleteNote 2 sample_host))) = None.
Proof.
  assert (Hp : present Note.id 2 (StorageData.notes (document sample_host))).
  { unfold present. cbn. right. left. reflexivity. }
  destruct (deleteNote_no_cascade sample_host 2 Hp) as (R & _ & _ & _ & L & _ & G).
  split; [exact Hp|]. split; [exact R|]. split; [exact L | exact G].
Defined.

(** ** Unlinking *)

Lemma pair_differs (p i : Z) (l : ProblemIdeaLink.t) :
  negb ((ProblemIdeaLink.problem_id l =? p) && (ProblemIdeaLink.idea_id l =? i)) = true
  <-> pair_of l <> (p, i).
Proof.
  unfold pair_of. rewrite negb_true_iff, andb_false_iff, !Z.eqb_neq. split.
  - intros [H|H] E; injection E as E1 E2; contradiction.
  - intros H. destruct (Z.eq_dec (ProblemIdeaLink.problem_id l) p) as [Ep|Hp]; [|now left].
    right. intros Ei. apply H. now rewrite Ep, Ei.
Qed.

Lemma unlink_length (p i : Z) (ls : list ProblemIdeaLink.t) :
  Nat.ltb
    (length
       (filter
          (fun l => negb ((ProblemIdeaLink.problem_id l =? p)
                          && (ProblemIdeaLink.idea_id l =? i))) ls))
    (length ls)
  = existsb
      (fun l => (ProblemIdeaLink.problem_id l =? p) && (ProblemIdeaLink.idea_id l =? i)) ls.
Proof.
  destruct (existsb _ ls) eqn:E.
  - apply Nat.ltb_lt, filter_length_lt. apply existsb_exists in E.
    destruct E as (l & Hl & El). exists l. now rewrite El.
  - apply Nat.ltb_ge. rewrite filter_all; [lia|].
    intros l Hl. apply negb_true_iff.
    destruct (_ && _) eqn:El; [|reflexivity].
    assert (existsb
              (fun l => (ProblemIdeaLink.problem_id l =? p)
                        && (ProblemIdeaLink.idea_id l =? i)) ls = true)
      by (apply existsb_exists; eauto).
    congruence.
Qed.

(** [unlinkProblemFromIdea] answers [true] exactly when some link joins the
    pair; it then removes every link of the pair and nothing else (no
    record, no other link, no counter).  With no link for the pair it
    answers [false] and writes nothing. *)
Theorem unlinkProblemFromIdea_removes_pair (h : Host) (p i : Z) :
  let before := document h in
  let result := unlinkProblemFromIdea p i h in
  let after := document (snd result) in
  (In (p, i) (map pair_of (StorageData.links before)) ->
   fst result = true
   /\ (forall l, In l (StorageData.links after)
                 <-> In l (StorageData.links before) /\ pair_of l <> (p, i))
   /\ ~ In (p, i) (map pair_of (StorageData.links after))
   /\ StorageData.problems after = StorageData.problems before
   /\ StorageData.ideas after = StorageData.ideas before
   /\ StorageData.notes after = StorageData.notes before
   /\ StorageData.counters after = StorageData.counters before)
  /\ (~ In (p, i) (map pair_of (StorageData.links before)) ->
      fst result = false /\ after = before /\ snd result = snd (getStorageData h)).
Proof.
  cbv zeta. unfold unlinkProblemFromIdea. rewrite bind_read.
  cbn [set_links StorageData.links]. rewrite unlink_length. split; intros H.
  - destruct h as [|item]; [exfalso; exact H|].
    apply existsb_pair in H. rewrite H, getStorageData_browser.
    unfold bind, ret. cbn [snd fst]. rewrite saveStorageData_browser. cbn [fst snd].
    rewrite document_stored.
    cbn [StorageData.problems StorageData.ideas StorageData.notes StorageData.links
           StorageData.counters].
    assert (Hiff : forall l,
               In l (filter
                       (fun l => negb ((ProblemIdeaLink.problem_id l =? p)
                                       && (ProblemIdeaLink.idea_id l =? i)))
                       (StorageData.links (document (Browser item))))
               <-> In l (StorageData.links (document (Browser item)))
                   /\ pair_of l <> (p, i)).
    { intros l. rewrite filter_In, pair_differs. reflexivity. }
    split; [reflexivity|]. split; [exact Hiff|]. split.
    { rewrite in_map_iff. intros (l & E & Hl). apply Hiff in Hl. tauto. }
    repeat split.
  - destruct (existsb _ _) eqn:E; [exfalso; apply H; now apply existsb_pair|].
    cbn [fst snd ret]. split; [reflexivity|]. split; [|reflexivity].
    apply document_after_read.
Qed.

Lemma unlinkProblemFromIdea_removes_pair_witness :
  In (1, 2) (map pair_of (StorageData.links (document sample_host)))
  /\ fst (unlinkProblemFromIdea 1 2 sample_host) = true
  /\ ~ In (1, 2)
       (map pair_of
          (StorageData.links (document (snd (unlinkProblemFromIdea 1 2 sample_host)))))
  /\ ~ In (2, 2) (map pair_of (StorageData.links (document sample_host)))
  /\ fst (unlinkProblemFromIdea 2 2 sample_host) = false.
Proof.
  assert (Hin : In (1, 2) (map pair_of (StorageData.links (document sample_host)))).
  { cbn. right. left. reflexivity. }
  assert (Hout : ~ In (2, 2) (map pair_of (StorageData.links (document sample_host)))).
  { cbn. intros [H|[H|[H|[]]]]; discriminate H. }
  destruct (unlinkProblemFromIdea_removes_pair sample_host 1 2) as (Y & _).
  destruct (unlinkProblemFromIdea_removes_pair sample_host 2 2) as (_ & N).
  destruct (Y Hin) as (R & _ & G & _). destruct (N Hout) as (F & _).
  split; [exact Hin|]. split; [exact R|]. split; [exact G|].
  split; [exact Hout | exact F].
Defined.





(** ** Updating a record *)

Section FirstReplaced.

Context {A : Type} (f : A -> bool) (g : A -> A).

Lemma findIndex_found (l : list A) :
  findIndex f l <> -1 <-> exists x, In x l /\ f x = true.
Proof.
  rewrite findIndex_none. split.
  - intros H. induction l as [|x l IH]; [exfalso; apply H; intros y []|].
    destruct (f x) eqn:E; [exists x; cbn; auto|].
    destruct IH as (y & Hy & Fy).
    + intros Hall. apply H. intros y [<-|Hy]; [exact E | now apply Hall].
    + exists y. cbn. auto.
  - intros (x & Hx & Fx) Hall. specialize (Hall x Hx). congruence.
Qed.

Lemma assign_at_findIndex (l : list A) :
  findIndex f l <> -1 ->
  first_replaced f g l (assign_at (Z.to_nat (findIndex f l)) g l).
Proof.
  induction l as [|x l IH]; cbn [findIndex]; [congruence|].
  destruct (f x) eqn:E; [intros _; cbn; now constructor|].
  pose proof (findIndex_ge f l) as Hge.
  destruct (findIndex f l =? -1) eqn:E1; [congruence|]. intros _.
  apply Z.eqb_neq in E1.
  replace (Z.to_nat (findIndex f l + 1)) with (S (Z.to_nat (findIndex f l))) by lia.
  cbn [assign_at]. constructor; [exact E|]. now apply IH.
Qed.

Lemma first_replaced_keys {K : Type} (key : A -> K) (l l' : list A) :
  (forall x, key (g x) = key x) ->
  first_replaced f g l l' -> map key l' = map key l.
Proof.
  intros Hkey. induction 1 as [x l Fx|x l l' Fx _ IH]; cbn.
  - now rewrite Hkey.
  - now rewrite IH.
Qed.

Lemma first_replaced_find (l l' : list A) :
  (forall x, f (g x) = f x) ->
  first_replaced f g l l' ->
  exists old, find f l = Some old /\ find f l' = Some (g old).
Proof.
  intros Hf. induction 1 as [x l Fx|x l l' Fx _ IH]; cbn.
  - exists x. now rewrite Hf, Fx.
  - rewrite Fx. exact IH.
Qed.

(** Exactly one position changes, and it held a record the test accepts;
    the records the test rejects are all still there. *)
Lemma first_replaced_others (l l' : list A) (x : A) :
  first_replaced f g l l' -> f x = false -> In x l -> In x l'.
Proof.
  induction 1 as [y l Fy|y l l' Fy _ IH]; intros Fx [<-|Hx]; cbn; auto; congruence.
Qed.

End FirstReplaced.

Lemma present_findIndex {A : Type} (get_id : A -> Z) (id : Z) (l : list A) :
  present get_id id l -> (findIndex (fun x => get_id x =? id) l =? -1) = false.
Proof.
  intros H. apply Z.eqb_neq, findIndex_found. now apply present_some.
Qed.

(** Updating a problem whose id is present answers [true] and replaces the
    first problem with that id by one with the given fields, the same id,
    the same [created_at] and [updated_at] set to the clock reading; ids
    and creation dates of the collection stay as they are, position by
    position; nothing else in the document changes; a lookup by the id
    then gives the updated problem. *)
Theorem updateProblem_replaces (h : Host) (now : string) (id : Z)
    (t d oc : string) (sv : Z) (f : Frequency) (st : ProblemStatus) (tg : string) :
  let before := document h in
  let result := updateProblem now id t d oc sv f st tg h in
  let after := document (snd result) in
  present Problem.id id (StorageData.problems before) ->
  fst result = true
  /\ first_replaced (fun p => Problem.id p =? id)
       (fun old => Problem.mk (Problem.id old) t d oc sv f st tg (Problem.created_at old) now)
       (StorageData.problems before) (StorageData.problems after)
  /\ map Problem.id (StorageData.problems after)
     = map Problem.id (StorageData.problems before)
  /\ map Problem.created_at (StorageData.problems after)
     = map Problem.created_at (StorageData.problems before)
  /\ (exists old,
        fst (getProblemById id h) = Some old
        /\ fst (getProblemById id (snd result))
           = Some (Problem.mk id t d oc sv f st tg (Problem.created_at old) now))
  /\ StorageData.ideas after = StorageData.ideas before
  /\ StorageData.notes after = StorageData.notes before
  /\ StorageData.links after = StorageData.links before
  /\ StorageData.counters after = StorageData.counters before.
Proof.
  cbv zeta. intros Hin.
  destruct (present_browser Problem.id id StorageData.problems h eq_refl Hin) as (item & ->).
  unfold updateProblem. rewrite bind_read, (present_findIndex _ _ _ Hin).
  rewrite getStorageData_browser. unfold bind, ret. cbn [snd fst].
  rewrite saveStorageData_browser. cbn [fst snd]. rewrite document_stored.
  cbn [set_problems StorageData.problems StorageData.ideas StorageData.notes
         StorageData.links StorageData.counters].
  set (test := fun p => Problem.id p =? id).
  set (g := fun old => Problem.mk (Problem.id old) t d oc sv f st tg
                         (Problem.created_at old) now).
  assert (Hrep : first_replaced test g (StorageData.problems (document (Browser item)))
                   (assign_at
                      (Z.to_nat (findIndex test (StorageData.problems (document (Browser item)))))
                      g (StorageData.problems (document (Browser item))))).
  { apply assign_at_findIndex. apply Z.eqb_neq. now apply present_findIndex. }
  split; [reflexivity|]. split; [exact Hrep|].
  split; [exact (first_replaced_keys test g Problem.id _ _ (fun _ => eq_refl) Hrep)|].
  split; [exact (first_replaced_keys test g Problem.created_at _ _ (fun _ => eq_refl) Hrep)|].
  split; [|repeat split].
  destruct (first_replaced_find test g _ _ (fun _ => eq_refl) Hrep) as (old & F1 & F2).
  exists old. unfold getProblemById. rewrite !bind_read, document_stored.
  cbn [fst ret set_problems StorageData.problems]. fold test. split; [exact F1|].
  rewrite F2. unfold g. apply find_some in F1. destruct F1 as (_ & E).
  apply Z.eqb_eq in E. now rewrite E.
Qed.

Lemma updateProblem_replaces_witness :
  present Problem.id 2 (StorageData.problems (document sample_host))
  /\ fst (updateProblem t1000 2 "Churn" "d" "c" 5 rare solved "x" sample_host) = true
  /\ map Problem.id
       (StorageData.problems
          (document (snd (updateProblem t1000 2 "Churn" "d" "c" 5 rare solved "x"
                            sample_host))))
     = map Problem.id (StorageData.problems (document sample_host)).
Proof.
  assert (Hp : present Problem.id 2 (StorageData.problems (document sample_host))).
  { unfold present. cbn. right. left. reflexivity. }
  destruct (updateProblem_replaces sample_host t1000 2 "Churn" "d" "c" 5 rare solved "x" Hp)
    as (R & _ & I & _).
  split; [exact Hp|]. split; [exact R | exact I].
Defined.

(** Updating an idea whose id is present: as for a problem. *)
Theorem updateIdea_replaces (h : Host) (now : string) (id : Z)
    (t p tu vp df a r : string) (st : IdeaStatus) (sc : option Z) (tg : string) :
  let before := document h in
  let result := updateIdea now id t p tu vp df a r st sc tg h in
  let after := document (snd result) in
  present Idea.id id (StorageData.ideas before) ->
  fst result = true
  /\ first_replaced (fun i => Idea.id i =? id)
       (fun old =>
          Idea.mk (Idea.id old) t p tu vp df a r st sc tg (Idea.created_at old) now)
       (StorageData.ideas before) (StorageData.ideas after)
  /\ map Idea.id (StorageData.ideas after) = map Idea.id (StorageData.ideas before)
  /\ map Idea.created_at (StorageData.ideas after)
     = map Idea.created_at (StorageData.ideas before)
  /\ (exists old,
        fst (getIdeaById id h) = Some old
        /\ fst (getIdeaById id (snd result))
           = Some (Idea.mk id t p tu vp df a r st sc tg (Idea.created_at old) now))
  /\ StorageData.problems after = StorageData.problems before
  /\ StorageData.notes after = StorageData.notes before
  /\ StorageData.links after = StorageData.links before
  /\ StorageData.counters after = StorageData.counters before.
Proof.
  cbv zeta. intros Hin.
  destruct (present_browser Idea.id id StorageData.ideas h eq_refl Hin) as (item & ->).
  unfold updateIdea. rewrite bind_read, (present_findIndex _ _ _ Hin).
  rewrite getStorageData_browser. unfold bind, ret. cbn [snd fst].
  rewrite saveStorageData_browser. cbn [fst snd]. rewrite document_stored.
  cbn [set_ideas StorageData.problems StorageData.ideas StorageData.notes
         StorageData.links StorageData.counters].
  set (test := fun i => Idea.id i =? id).
  set (g := fun old => Idea.mk (Idea.id old) t p tu vp df a r st sc tg
                         (Idea.created_at old) now).
  assert (Hrep : first_replaced test g (StorageData.ideas (document (Browser item)))
                   (assign_at
                      (Z.to_nat (findIndex test (StorageData.ideas (document (Browser item)))))
                      g (StorageData.ideas (document (Browser item))))).
  { apply assign_at_findIndex. apply Z.eqb_neq. now apply present_findIndex. }
  split; [reflexivity|]. split; [exact Hrep|].
  split; [exact (first_replaced_keys test g Idea.id _ _ (fun _ => eq_refl) Hrep)|].
  split; [exact (first_replaced_keys test g Idea.created_at _ _ (fun _ => eq_refl) Hrep)|].
  split; [|repeat split].
  destruct (first_replaced_find test g _ _ (fun _ => eq_refl) Hrep) as (old & F1 & F2).
  exists old. unfold getIdeaById. rewrite !bind_read, document_stored.
  cbn [fst ret set_ideas StorageData.ideas]. fold test. split; [exact F1|].
  rewrite F2. unfold g. apply find_some in F1. destruct F1 as (_ & E).
  apply Z.eqb_eq in E. now rewrite E.
Qed.

Lemma updateIdea_replaces_witness :
  present Idea.id 1 (StorageData.ideas (document sample_host))
  /\ fst (updateIdea t1000 1 "Wizard" "p" "u" "v" "d" "a" "r" building (Some 80) "x"
            sample_host) = true
  /\ StorageData.links
       (document (snd (updateIdea t1000 1 "Wizard" "p" "u" "v" "d" "a" "r" building
                         (Some 80) "x" sample_host)))
     = StorageData.links (document sample_host).
Proof.
  assert (Hp : present Idea.id 1 (StorageData.ideas (document sample_host))).
  { unfold present. cbn. left. reflexivity. }
  destruct (updateIdea_replaces sample_host t1000 1 "Wizard" "p" "u" "v" "d" "a" "r"
              building (Some 80) "x" Hp) as (R & _ & _ & _ & _ & _ & _ & L & _).
  split; [exact Hp|]. split; [exact R | exact L].
Defined.

(** Updating a note whose id is present replaces the first note with that
    id by one with the given type, content, links and references, the same
    id and the same [created_at]; the references are stored as given,
    whether or not a problem or an idea carries them. *)
Theorem updateNote_replaces (h : Host) (id : Z) (nt : NoteType) (c l : string)
    (p i : option Z) :
  let before := document h in
  let result := updateNote id nt c l p i h in
  let after := document (snd result) in
  present Note.id id (StorageData.notes before) ->
  fst result = true
  /\ first_replaced (fun n => Note.id n =? id)
       (fun old => Note.mk (Note.id old) nt c l p i (Note.created_at old))
       (StorageData.notes before) (StorageData.notes after)
  /\ map Note.id (StorageData.notes after) = map Note.id (StorageData.notes before)
  /\ map Note.created_at (StorageData.notes after)
     = map Note.created_at (StorageData.notes before)
  /\ (exists old,
        fst (getNoteById id h) = Some old
        /\ fst (getNoteById id (snd result))
           = Some (Note.mk id nt c l p i (Note.created_at old)))
  /\ StorageData.problems after = StorageData.problems before
  /\ StorageData.ideas after = StorageData.ideas before
  /\ StorageData.links after = StorageData.links before
  /\ StorageData.counters after = StorageData.counters before.
Proof.
  cbv zeta. intros Hin.
  destruct (present_browser Note.id id StorageData.notes h eq_refl Hin) as (item & ->).
  unfold updateNote. rewrite bind_read, (present_findIndex _ _ _ Hin).
  rewrite getStorageData_browser. unfold bind, ret. cbn [snd fst].
  rewrite saveStorageData_browser. cbn [fst snd]. rewrite document_stored.
  cbn [set_notes StorageData.problems StorageData.ideas StorageData.notes
         StorageData.links StorageData.counters].
  set (test := fun n => Note.id n =? id).
  set (g := fun old => Note.mk (Note.id old) nt c l p i (Note.created_at old)).
  assert (Hrep : first_replaced test g (StorageData.notes (document (Browser item)))
                   (assign_at
                      (Z.to_nat (findIndex test (StorageData.notes (document (Browser item)))))
                      g (StorageData.notes (document (Browser item))))).
  { apply assign_at_findIndex. apply Z.eqb_neq. now apply present_findIndex. }
  split; [reflexivity|]. split; [exact Hrep|].
  split; [exact (first_replaced_keys test g Note.id _ _ (fun _ => eq_refl) Hrep)|].
  split; [exact (first_replaced_keys test g Note.created_at _ _ (fun _ => eq_refl) Hrep)|].
  split; [|repeat split].
  destruct (first_replaced_find test g _ _ (fun _ => eq_refl) Hrep) as (old & F1 & F2).
  exists old. unfold getNoteById. rewrite !bind_read, document_stored.
  cbn [fst ret set_notes StorageData.notes]. fold test. split; [exact F1|].
  rewrite F2. unfold g. apply find_some in F1. destruct F1 as (_ & E).
  apply Z.eqb_eq in E. now rewrite E.
Qed.

Lemma updateNote_replaces_witness :
  present Note.id 3 (StorageData.notes (document sample_host))
  /\ fst (updateNote 3 tech "Stack" "n/a" (Some 77) None sample_host) = true
  /\ (exists old,
        fst (getNoteById 3 sample_host) = Some old
        /\ fst (getNoteById 3 (snd (updateNote 3 tech "Stack" "n/a" (Some 77) None
                                      sample_host)))
           = Some (Note.mk 3 tech "Stack" "n/a" (Some 77) None (Note.created_at old))).
Proof.
  assert (Hp : present Note.id 3 (StorageData.notes (document sample_host))).
  { unfold present. cbn. right. right. left. reflexivity. }
  destruct (updateNote_replaces sample_host 3 tech "Stack" "n/a" (Some 77) None Hp)
    as (R & _ & _ & _ & G & _).
  split; [exact Hp|]. split; [exact R | exact G].
Defined.

(** ** Updates and the listings *)

Section SortRelated.

Context {A : Type} (cmp : A -> A -> Z) (R : A -> A -> Prop).
Hypothesis cmp_related :
  forall a a' b b', R a a' -> R b b' -> cmp a b = cmp a' b'.

Lemma sort_insert_related (x x' : A) (l l' : list A) :
  R x x' -> Forall2 R l l' ->
  Forall2 R (sort_insert cmp x l) (sort_insert cmp x' l').
Proof.
  intros Hx. induction 1 as [|y y' l l' Hy Hl IH]; cbn.
  - repeat constructor. exact Hx.
  - rewrite (cmp_related x x' y y' Hx Hy).
    destruct (cmp x' y' <=? 0); repeat constructor; assumption.
Qed.

Lemma Array_sort_related (l l' : list A) :
  Forall2 R l l' -> Forall2 R (Array_sort cmp l) (Array_sort cmp l').
Proof.
  induction 1 as [|x x' l l' Hx Hl IH]; cbn; [constructor|].
  now apply sort_insert_related.
Qed.

End SortRelated.

Lemma first_replaced_related {A : Type} (f : A -> bool) (g : A -> A) (R : A -> A -> Prop)
    (l l' : list A) :
  (forall x, R x x) -> (forall x, R x (g x)) ->
  first_replaced f g l l' -> Forall2 R l l'.
Proof.
  intros Hrefl Hg. induction 1 as [x l Fx|x l l' Fx _ IH].
  - constructor; [apply Hg|]. induction l; constructor; auto.
  - constructor; [apply Hrefl | exact IH].
Qed.

Lemma Forall2_same_keys {A K : Type} (key : A -> K) (l l' : list A) :
  Forall2 (fun a a' => key a' = key a) l l' -> map key l' = map key l.
Proof. induction 1 as [|x x' l l' Hx _ IH]; cbn; [reflexivity|]. now rewrite Hx, IH. Qed.

(** Sorting by [created_at] two collections that agree, position by
    position, on ids and creation dates lists the same ids in the same
    order. *)
Lemma listing_ids_related {A : Type} (Date_getTime : string -> option Z)
    (get_id : A -> Z) (created_at : A -> string) (l l' : list A) :
  map get_id l' = map get_id l ->
  map created_at l' = map created_at l ->
  map get_id
    (Array_sort (fun a b => by_created_at_desc Date_getTime (created_at a) (created_at b)) l')
  = map get_id
      (Array_sort (fun a b => by_created_at_desc Date_getTime (created_at a) (created_at b)) l).
Proof.
  intros Hid Hdate.
  assert (H : Forall2 (fun a a' => get_id a' = get_id a /\ created_at a' = created_at a) l l').
  { revert l' Hid Hdate. induction l as [|x l IH]; intros [|x' l'] Hid Hdate;
      try discriminate; constructor.
    - cbn in Hid, Hdate. injection Hid as E1 _. injection Hdate as E2 _. auto.
    - cbn in Hid, Hdate. injection Hid as _ E1. injection Hdate as _ E2. auto. }
  apply (Forall2_same_keys get_id).
  eapply Forall2_impl; [|apply Array_sort_related; [|exact H]].
  - cbn. tauto.
  - intros a a' b b' (_ & Ea) (_ & Eb). cbn. now rewrite Ea, Eb.
Qed.

Lemma updateProblem_keys (h : Host) (now : string) (id : Z)
    (t d oc : string) (sv : Z) (f : Frequency) (st : ProblemStatus) (tg : string) :
  present Problem.id id (StorageData.problems (document h)) ->
  map Problem.id (StorageData.problems (document (snd (updateProblem now id t d oc sv f st tg h))))
  = map Problem.id (StorageData.problems (document h))
  /\ map Problem.created_at (StorageData.problems (document (snd (updateProblem now id t d oc sv f st tg h))))
     = map Problem.created_at (StorageData.problems (document h)).
Proof.
  intros Hin.
  destruct (present_browser Problem.id id StorageData.problems h eq_refl Hin) as (item & ->).
  unfold updateProblem. rewrite bind_read, (present_findIndex _ _ _ Hin).
  rewrite getStorageData_browser. unfold bind, ret. cbn [snd fst].
  rewrite saveStorageData_browser. cbn [fst snd]. rewrite document_stored.
  cbn [set_problems StorageData.problems].
  set (test := fun x => Problem.id x =? id).
  set (g := fun old => Problem.mk (Problem.id old) t d oc sv f st tg
                         (Problem.created_at old) now).
  assert (Hrep : first_replaced test g (StorageData.problems (document (Browser item)))
                   (assign_at
                      (Z.to_nat
                         (findIndex test (StorageData.problems (document (Browser item)))))
                      g (StorageData.problems (document (Browser item))))).
  { apply assign_at_findIndex. apply Z.eqb_neq. now apply present_findIndex. }
  split.
  - exact (first_replaced_keys test g Problem.id _ _ (fun _ => eq_refl) Hrep).
  - exact (first_replaced_keys test g Problem.created_at _ _ (fun _ => eq_refl) Hrep).
Qed.

Lemma updateIdea_keys (h : Host) (now : string) (id : Z)
    (t p tu vp df a r : string) (st : IdeaStatus) (sc : option Z) (tg : string) :
  present Idea.id id (StorageData.ideas (document h)) ->
  map Idea.id (StorageData.ideas (document (snd (updateIdea now id t p tu vp df a r st sc tg h))))
  = map Idea.id (StorageData.ideas (document h))
  /\ map Idea.created_at (StorageData.ideas (document (snd (updateIdea now id t p tu vp df a r st sc tg h))))
     = map Idea.created_at (StorageData.ideas (document h)).
Proof.
  intros Hin.
  destruct (present_browser Idea.id id StorageData.ideas h eq_refl Hin) as (item & ->).
  unfold updateIdea. rewrite bind_read, (present_findIndex _ _ _ Hin).
  rewrite getStorageData_browser. unfold bind, ret. cbn [snd fst].
  rewrite saveStorageData_browser. cbn [fst snd]. rewrite document_stored.
  cbn [set_ideas StorageData.ideas].
  set (test := fun x => Idea.id x =? id).
  set (g := fun old => Idea.mk (Idea.id old) t p tu vp df a r st sc tg
                         (Idea.created_at old) now).
  assert (Hrep : first_replaced test g (StorageData.ideas (document (Browser item)))
                   (assign_at
                      (Z.to_nat
                         (findIndex test (StorageData.ideas (document (Browser item)))))
                      g (StorageData.ideas (document (Browser item))))).
  { apply assign_at_findIndex. apply Z.eqb_neq. now apply present_findIndex. }
  split.
  - exact (first_replaced_keys test g Idea.id _ _ (fun _ => eq_refl) Hrep).
  - exact (first_replaced_keys test g Idea.created_at _ _ (fun _ => eq_refl) Hrep).
Qed.

Lemma updateNote_keys (h : Host) (id : Z) (nt : NoteType) (c l : string)
    (p i : option Z) :
  present Note.id id (StorageData.notes (document h)) ->
  map Note.id (StorageData.notes (document (snd (updateNote id nt c l p i h))))
  = map Note.id (StorageData.notes (document h))
  /\ map Note.created_at (StorageData.notes (document (snd (updateNote id nt c l p i h))))
     = map Note.created_at (StorageData.notes (document h)).
Proof.
  intros Hin.
  destruct (present_browser Note.id id StorageData.notes h eq_refl Hin) as (item & ->).
  unfold updateNote. rewrite bind_read, (present_findIndex _ _ _ Hin).
  rewrite getStorageData_browser. unfold bind, ret. cbn [snd fst].
  rewrite saveStorageData_browser. cbn [fst snd]. rewrite document_stored.
  cbn [set_notes StorageData.notes].
  set (test := fun x => Note.id x =? id).
  set (g := fun old => Note.mk (Note.id old) nt c l p i (Note.created_at old)).
  assert (Hrep : first_replaced test g (StorageData.notes (document (Browser item)))
                   (assign_at
                      (Z.to_nat
                         (findIndex test (StorageData.notes (document (Browser item)))))
                      g (StorageData.notes (document (Browser item))))).
  { apply assign_at_findIndex. apply Z.eqb_neq. now apply present_findIndex. }
  split.
  - exact (first_replaced_keys test g Note.id _ _ (fun _ => eq_refl) Hrep).
  - exact (first_replaced_keys test g Note.created_at _ _ (fun _ => eq_refl) Hrep).
Qed.

(** Editing never moves a record in a listing: after [updateProblem],
    [updateIdea] or [updateNote], with any arguments and whether or not
    the id is present, [getAllProblems], [getAllIdeas] and [getAllNotes]
    list the same ids in the same order as before. *)
Theorem updates_keep_listing_order (Date_getTime : string -> option Z) (h : Host)
    (now : string) (id : Z) :
  (forall t d oc sv f st tg,
     map Problem.id
       (fst (getAllProblems Date_getTime (snd (updateProblem now id t d oc sv f st tg h))))
     = map Problem.id (fst (getAllProblems Date_getTime h)))
  /\ (forall t p tu vp df a r st sc tg,
        map Idea.id
          (fst (getAllIdeas Date_getTime
                  (snd (updateIdea now id t p tu vp df a r st sc tg h))))
        = map Idea.id (fst (getAllIdeas Date_getTime h)))
  /\ (forall nt c l p i,
        map Note.id (fst (getAllNotes Date_getTime (snd (updateNote id nt c l p i h))))
        = map Note.id (fst (getAllNotes Date_getTime h))).
Proof.
  split; [|split]; intros.
  - unfold getAllProblems. rewrite !bind_read. cbn [fst ret].
    destruct (present_or_absent Problem.id id (StorageData.problems (document h)))
      as [Hin|Hout].
    + destruct (updateProblem_keys h now id t d oc sv f st tg Hin) as (Hid & Hdate).
      now apply listing_ids_related.
    + destruct (missing_problem h id Hout) as (_ & U & _).
      rewrite U. cbn [snd]. now rewrite document_after_read.
  - unfold getAllIdeas. rewrite !bind_read. cbn [fst ret].
    destruct (present_or_absent Idea.id id (StorageData.ideas (document h)))
      as [Hin|Hout].
    + destruct (updateIdea_keys h now id t p tu vp df a r st sc tg Hin) as (Hid & Hdate).
      now apply listing_ids_related.
    + destruct (missing_idea h id Hout) as (_ & U & _).
      rewrite U. cbn [snd]. now rewrite document_after_read.
  - unfold getAllNotes. rewrite !bind_read. cbn [fst ret].
    destruct (present_or_absent Note.id id (StorageData.notes (document h)))
      as [Hin|Hout].
    + destruct (updateNote_keys h id nt c l p i Hin) as (Hid & Hdate).
      now apply listing_ids_related.
    + destruct (missing_note h id Hout) as (_ & U & _).
      rewrite U. cbn [snd]. now rewrite document_after_read.
Qed.

(** ** Creating a record and looking it up *)

Lemma find_pushed {A : Type} (get_id : A -> Z) (id : Z) (l : list A) (x : A) :
  absent get_id id l -> get_id x = id ->
  find (fun a => get_id a =? id) (l ++ [x]) = Some x.
Proof.
  intros Habs Hx. induction l as [|y l IH]; cbn.
  - now rewrite Hx, Z.eqb_refl.
  - unfold absent in *. cbn in Habs.
    destruct (get_id y =? id) eqn:E.
    + apply Z.eqb_eq in E. exfalso. apply Habs. now left.
    + apply IH. intros Hin. apply Habs. now right.
Qed.

Lemma createProblem_browser (item : option StorageData.t)
    (now t d oc : string) (sv : Z) (f : Frequency) (st : ProblemStatus) (tg : string) :
  let before := document (Browser item) in
  let id := number_succ (counter key_problems before) in
  createProblem now t d oc sv f st tg (Browser item)
  = (id,
     Browser (Some
       (StorageData.mk
          (StorageData.problems before ++ [Problem.mk id t d oc sv f st tg now now])
          (StorageData.ideas before) (StorageData.notes before) (StorageData.links before)
          (Counters.mk id (counter key_ideas before) (counter key_notes before)
             (counter key_links before))))).
Proof.
  cbv zeta. unfold createProblem. rewrite bind_read, getStorageData_browser.
  destruct (document (Browser item)) as [a b c e [k1 k2 k3 k4]]. reflexivity.
Qed.

Lemma createIdea_browser (item : option StorageData.t)
    (now t p tu vp df a r : string) (st : IdeaStatus) (sc : option Z) (tg : string) :
  let before := document (Browser item) in
  let id := number_succ (counter key_ideas before) in
  createIdea now t p tu vp df a r st sc tg (Browser item)
  = (id,
     Browser (Some
       (StorageData.mk
          (StorageData.problems before)
          (StorageData.ideas before ++ [Idea.mk id t p tu vp df a r st sc tg now now])
          (StorageData.notes before) (StorageData.links before)
          (Counters.mk (counter key_problems before) id (counter key_notes before)
             (counter key_links before))))).
Proof.
  cbv zeta. unfold createIdea. rewrite bind_read, getStorageData_browser.
  destruct (document (Browser item)) as [x b c e [k1 k2 k3 k4]]. reflexivity.
Qed.

Lemma createNote_browser (item : option StorageData.t)
    (now : string) (nt : NoteType) (c l : string) (p i : option Z) :
  let before := document (Browser item) in
  let id := number_succ (counter key_notes before) in
  createNote now nt c l p i (Browser item)
  = (id,
     Browser (Some
       (StorageData.mk
          (StorageData.problems before) (StorageData.ideas before)
          (StorageData.notes before ++ [Note.mk id nt c l p i now])
          (StorageData.links before)
          (Counters.mk (counter key_problems before) (counter key_ideas before) id
             (counter key_links before))))).
Proof.
  cbv zeta. unfold createNote. rewrite bind_read, getStorageData_browser.
  destruct (document (Browser item)) as [x b y e [k1 k2 k3 k4]]. reflexivity.
Qed.

(** In a browser a creation adds one record at the end of its collection,
    with the incremented counter of the collection as id (the counter plus
    one while the counter counts exactly) and the clock reading as date (a
    note keeps the references it is given, unchecked), and leaves the other
    collections alone.  When no record of the collection already carries
    that id, as in every document the store numbered itself, looking the
    returned id up gives the record just created. *)
Theorem created_record_is_found (item : option StorageData.t) (now : string) :
  let h := Browser item in
  let before := document h in
  (forall t d oc sv f st tg,
     let result := createProblem now t d oc sv f st tg h in
     let after := document (snd result) in
     let made := Problem.mk (fst result) t d oc sv f st tg now now in
     fst result = number_succ (counter key_problems before)
     /\ (counts_exactly (counter key_problems before) 1 ->
         fst result = counter key_problems before + 1)
     /\ StorageData.problems after = StorageData.problems before ++ [made]
     /\ StorageData.ideas after = StorageData.ideas before
     /\ StorageData.notes after = StorageData.notes before
     /\ StorageData.links after = StorageData.links before
     /\ (absent Problem.id (fst result) (StorageData.problems before) ->
         fst (getProblemById (fst result) (snd result)) = Some made))
  /\ (forall t p tu vp df a r st sc tg,
        let result := createIdea now t p tu vp df a r st sc tg h in
        let after := document (snd result) in
        let made := Idea.mk (fst result) t p tu vp df a r st sc tg now now in
        fst result = number_succ (counter key_ideas before)
        /\ (counts_exactly (counter key_ideas before) 1 ->
            fst result = counter key_ideas before + 1)
        /\ StorageData.ideas after = StorageData.ideas before ++ [made]
        /\ StorageData.problems after = StorageData.problems before
        /\ StorageData.notes after = StorageData.notes before
        /\ StorageData.links after = StorageData.links before
        /\ (absent Idea.id (fst result) (StorageData.ideas before) ->
            fst (getIdeaById (fst result) (snd result)) = Some made))
  /\ (forall nt c l p i,
        let result := createNote now nt c l p i h in
        let after := document (snd result) in
        let made := Note.mk (fst result) nt c l p i now in
        fst result = number_succ (counter key_notes before)
        /\ (counts_exactly (counter key_notes before) 1 ->
            fst result = counter key_notes before + 1)
        /\ StorageData.notes after = StorageData.notes before ++ [made]
        /\ StorageData.problems after = StorageData.problems before
        /\ StorageData.ideas after = StorageData.ideas before
        /\ StorageData.links after = StorageData.links before
        /\ (absent Note.id (fst result) (StorageData.notes before) ->
            fst (getNoteById (fst result) (snd result)) = Some made)).
Proof.
  cbv zeta. split; [|split]; intros.
  - rewrite createProblem_browser. cbv zeta. cbn [fst snd]. rewrite document_stored.
    cbn [StorageData.problems StorageData.ideas StorageData.notes StorageData.links].
    split; [reflexivity|]. split; [apply number_succ_one|].
    do 4 (split; [reflexivity|]). intros Habs.
    unfold getProblemById. rewrite bind_read, document_stored.
    cbn [fst ret StorageData.problems]. now apply find_pushed.
  - rewrite createIdea_browser. cbv zeta. cbn [fst snd]. rewrite document_stored.
    cbn [StorageData.problems StorageData.ideas StorageData.notes StorageData.links].
    split; [reflexivity|]. split; [apply number_succ_one|].
    do 4 (split; [reflexivity|]). intros Habs.
    unfold getIdeaById. rewrite bind_read, document_stored.
    cbn [fst ret StorageData.ideas]. now apply find_pushed.
  - rewrite createNote_browser. cbv zeta. cbn [fst snd]. rewrite document_stored.
    cbn [StorageData.problems StorageData.ideas StorageData.notes StorageData.links].
    split; [reflexivity|]. split; [apply number_succ_one|].
    do 4 (split; [reflexivity|]). intros Habs.
    unfold getNoteById. rewrite bind_read, document_stored.
    cbn [fst ret StorageData.notes]. now apply find_pushed.
Qed.

Lemma created_record_is_found_witness :
  counts_exactly (counter key_problems (document sample_host)) 1
  /\ fst (createProblem t1000 "New" "d" "c" 2 rare open "x" sample_host) = 2 + 1
  /\ absent Problem.id 3 (StorageData.problems (document sample_host))
  /\ fst (getProblemById 3
            (snd (createProblem t1000 "New" "d" "c" 2 rare open "x" sample_host)))
     = Some (Problem.mk 3 "New" "d" "c" 2 rare open "x" t1000 t1000)
  /\ absent Note.id 4 (StorageData.notes (document sample_host))
  /\ fst (getNoteById 4
            (snd (createNote t1000 general "text" "n/a" (Some 42) None sample_host)))
     = Some (Note.mk 4 general "text" "n/a" (Some 42) None t1000).
Proof.
  assert (Hp : absent Problem.id 3 (StorageData.problems (document sample_host))).
  { unfold absent. cbn. intros [H|[H|[]]]; discriminate H. }
  assert (Hn : absent Note.id 4 (StorageData.notes (document sample_host))).
  { unfold absent. cbn. intros [H|[H|[H|[]]]]; discriminate H. }
  destruct (created_record_is_found (Some sample_document) t1000) as (P & _ & N).
  assert (Hroom : counts_exactly (counter key_problems (document sample_host)) 1).
  { split; vm_compute; discriminate. }
  destruct (P "New" "d" "c" 2 rare open "x")%string as (_ & IP & _ & _ & _ & _ & FP).
  destruct (N general "text" "n/a" (Some 42) None)%string
    as (_ & _ & _ & _ & _ & _ & FN).
  split; [exact Hroom|]. split; [exact (IP Hroom)|].
  split; [exact Hp|]. split; [exact (FP Hp)|]. split; [exact Hn | exact (FN Hn)].
Defined.

(** ** Counting by status *)

Lemma ProblemStatus_eqb_eq (a b : ProblemStatus) : ProblemStatus_eqb a b = true <-> a = b.
Proof. destruct a, b; cbn; split; congruence. Qed.

Lemma IdeaStatus_eqb_eq (a b : IdeaStatus) : IdeaStatus_eqb a b = true <-> a = b.
Proof. destruct a, b; cbn; split; congruence. Qed.

Section Counting.

Context {K : Type} (eqb : K -> K -> bool).
Hypothesis eqb_eq : forall a b, eqb a b = true <-> a = b.

(** The number a key stands at, zero when the object lacks the key. *)
Local Abbreviation standing key counts :=
  (match count_of eqb key counts with Some v => v | None => 0 end).

Lemma key_eqb_refl (a : K) : eqb a a = true.
Proof. now apply eqb_eq. Qed.

Lemma count_up_same (key : K) (counts : list (K * Z)) :
  count_of eqb key (count_up eqb key counts) = Some (standing key counts + 1).
Proof.
  induction counts as [|[k v] rest IH]; cbn.
  - now rewrite key_eqb_refl.
  - destruct (eqb k key) eqn:E; cbn; rewrite E; [reflexivity | exact IH].
Qed.

Lemma count_up_other (key other : K) (counts : list (K * Z)) :
  other <> key ->
  count_of eqb other (count_up eqb key counts) = count_of eqb other counts.
Proof.
  intros Hne. induction counts as [|[k v] rest IH]; cbn.
  - destruct (eqb key other) eqn:E; [apply eqb_eq in E; congruence | reflexivity].
  - destruct (eqb k key) eqn:E; cbn.
    + apply eqb_eq in E. subst k.
      destruct (eqb key other) eqn:E'; [apply eqb_eq in E'; congruence | reflexivity].
    + destruct (eqb k other); [reflexivity | exact IH].
Qed.

Lemma count_up_keys (key : K) (counts : list (K * Z)) :
  NoDup (map fst counts) ->
  NoDup (map fst (count_up eqb key counts))
  /\ (forall k, In k (map fst (count_up eqb key counts)) <-> k = key \/ In k (map fst counts)).
Proof.
  induction counts as [|[k v] rest IH]; cbn; intros Hnd.
  - split; [repeat constructor; intros []|]. intros k'. split; intros [H|H]; auto.
  - inversion Hnd as [|? ? Hnotin Hrest]; subst. destruct (IH Hrest) as (IH1 & IH2).
    destruct (eqb k key) eqn:E; cbn.
    + apply eqb_eq in E. subst k. split; [exact Hnd|].
      intros k'. split; [intros [H|H] | intros [H|[H|H]]]; auto.
    + split.
      * constructor; [|exact IH1]. rewrite IH2. intros [->|H]; [|contradiction].
        rewrite key_eqb_refl in E. discriminate.
      * intros k'. rewrite IH2. tauto.
Qed.

Lemma count_up_positive (key : K) (counts : list (K * Z)) :
  Forall (fun e => 1 <= snd e) counts ->
  Forall (fun e => 1 <= snd e) (count_up eqb key counts).
Proof.
  induction 1 as [|[k v] rest Hv Hrest IH]; cbn.
  - constructor; [cbn [snd]; lia | constructor].
  - cbn [snd] in Hv. destruct (eqb k key); constructor; cbn [snd]; try assumption; lia.
Qed.

Lemma fold_left_add (l : list Z) (a : Z) :
  fold_left (fun a b => a + b) l a = a + fold_left (fun a b => a + b) l 0.
Proof.
  revert a. induction l as [|x l IH]; intros a; cbn; [lia|].
  rewrite (IH (a + x)), (IH x). lia.
Qed.

Lemma count_up_total (key : K) (counts : list (K * Z)) :
  total_of (count_up eqb key counts) = total_of counts + 1.
Proof.
  unfold total_of. induction counts as [|[k v] rest IH]; cbn; [reflexivity|].
  destruct (eqb k key); cbn.
  - rewrite (fold_left_add _ (v + 1)), (fold_left_add _ v). lia.
  - rewrite (fold_left_add _ v), IH, (fold_left_add (map snd rest) v). lia.
Qed.

Lemma count_of_positive (key : K) (counts : list (K * Z)) (v : Z) :
  Forall (fun e => 1 <= snd e) counts -> count_of eqb key counts = Some v -> 1 <= v.
Proof.
  induction 1 as [|[k w] rest Hw _ IH]; cbn; [discriminate|].
  destruct (eqb k key); [intros E; injection E as <-; exact Hw | exact IH].
Qed.

(** Counting a list of records by a key of theirs, from any object. *)
Lemma counting {A : Type} (key_of : A -> K) (l : list A) (counts : list (K * Z)) :
  let counted := fold_left (fun counts x => count_up eqb (key_of x) counts) l counts in
  NoDup (map fst counts) ->
  Forall (fun e => 1 <= snd e) counts ->
  NoDup (map fst counted)
  /\ Forall (fun e => 1 <= snd e) counted
  /\ total_of counted = total_of counts + Z.of_nat (length l)
  /\ forall key,
       standing key counted
       = standing key counts
         + Z.of_nat (length (filter (fun x => eqb (key_of x) key) l)).
Proof.
  cbv zeta. revert counts. induction l as [|x l IH]; intros counts Hnd Hpos.
  - cbn [fold_left filter length Z.of_nat]. rewrite Z.add_0_r.
    split; [exact Hnd|]. split; [exact Hpos|]. split; [reflexivity|].
    intros key. now rewrite Z.add_0_r.
  - cbn [fold_left].
    destruct (IH (count_up eqb (key_of x) counts)
                (proj1 (count_up_keys (key_of x) counts Hnd))
                (count_up_positive (key_of x) counts Hpos)) as (N & P & T & S).
    split; [exact N|]. split; [exact P|]. split.
    + rewrite T, count_up_total. cbn [length]. lia.
    + intros key. rewrite S. cbn [filter].
      destruct (eqb (key_of x) key) eqn:E.
      * apply eqb_eq in E. subst key. rewrite count_up_same. cbn [length]. lia.
      * rewrite count_up_other; [lia|]. intros ->. rewrite key_eqb_refl in E. discriminate.
Qed.

(** From the empty object: the entry of a key is the number of records with
    that key, and the key has no entry when there is none. *)
Lemma counting_from_empty {A : Type} (key_of : A -> K) (l : list A) :
  let counted := fold_left (fun counts x => count_up eqb (key_of x) counts) l [] in
  NoDup (map fst counted)
  /\ total_of counted = Z.of_nat (length l)
  /\ forall key,
       let n := Z.of_nat (length (filter (fun x => eqb (key_of x) key) l)) in
       count_of eqb key counted = if n =? 0 then None else Some n.
Proof.
  cbv zeta.
  destruct (counting key_of l [] (NoDup_nil _) (Forall_nil _)) as (N & P & T & S).
  split; [exact N|]. split; [exact T|]. intros key. specialize (S key). cbn in S.
  destruct (count_of eqb key _) as [v|] eqn:E.
  - pose proof (count_of_positive key _ v P E) as Hv.
    destruct (Z.eqb_spec (Z.of_nat (length (filter (fun x => eqb (key_of x) key) l))) 0);
      [lia | now rewrite <- S].
  - now rewrite <- S.
Qed.

End Counting.

(** [getProblemsCountByStatus] and [getIdeasCountByStatus] give, for each
    status, the number of records of the collection in that status; a
    status no record is in has no entry (so no entry is zero), and no status
    has two entries. *)
Theorem counts_by_status (h : Host) :
  (let counts := fst (getProblemsCountByStatus h) in
   NoDup (map fst counts)
   /\ forall status,
        let n := Z.of_nat
                   (length (filter (fun p => ProblemStatus_eqb (Problem.status p) status)
                              (StorageData.problems (document h)))) in
        count_of ProblemStatus_eqb status counts = if n =? 0 then None else Some n)
  /\ (let counts := fst (getIdeasCountByStatus h) in
      NoDup (map fst counts)
      /\ forall status,
           let n := Z.of_nat
                      (length (filter (fun i => IdeaStatus_eqb (Idea.status i) status)
                                 (StorageData.ideas (document h)))) in
           count_of IdeaStatus_eqb status counts = if n =? 0 then None else Some n).
Proof.
  cbv zeta. unfold getProblemsCountByStatus, getIdeasCountByStatus.
  rewrite !bind_read. cbn [fst ret]. split.
  - destruct (counting_from_empty ProblemStatus_eqb ProblemStatus_eqb_eq Problem.status
                (StorageData.problems (document h))) as (N & _ & S).
    split; [exact N | exact S].
  - destruct (counting_from_empty IdeaStatus_eqb IdeaStatus_eqb_eq Idea.status
                (StorageData.ideas (document h))) as (N & _ & S).
    split; [exact N | exact S].
Qed.

(** The totals shown on the dashboard and the home page, the sum of the
    values of the counts, are the numbers of problems and of ideas in the
    store; the counts have no entry at all, and the dashboard says that
    nothing is recorded yet, exactly when the collection is empty. *)
Theorem status_totals (h : Host) :
  total_of (fst (getProblemsCountByStatus h))
  = Z.of_nat (length (StorageData.problems (document h)))
  /\ total_of (fst (getIdeasCountByStatus h))
     = Z.of_nat (length (StorageData.ideas (document h)))
  /\ (fst (getProblemsCountByStatus h) = [] <-> StorageData.problems (document h) = [])
  /\ (fst (getIdeasCountByStatus h) = [] <-> StorageData.ideas (document h) = []).
Proof.
  assert (Hp : total_of (fst (getProblemsCountByStatus h))
               = Z.of_nat (length (StorageData.problems (document h)))).
  { unfold getProblemsCountByStatus. rewrite bind_read. cbn [fst ret].
    apply (counting_from_empty ProblemStatus_eqb ProblemStatus_eqb_eq Problem.status). }
  assert (Hi : total_of (fst (getIdeasCountByStatus h))
               = Z.of_nat (length (StorageData.ideas (document h)))).
  { unfold getIdeasCountByStatus. rewrite bind_read. cbn [fst ret].
    apply (counting_from_empty IdeaStatus_eqb IdeaStatus_eqb_eq Idea.status). }
  split; [exact Hp|]. split; [exact Hi|]. split; split; intros E.
  - rewrite E in Hp. cbn in Hp.
    destruct (StorageData.problems (document h)); [reflexivity | discriminate Hp].
  - unfold getProblemsCountByStatus. rewrite bind_read. cbn [fst ret]. now rewrite E.
  - rewrite E in Hi. cbn in Hi.
    destruct (StorageData.ideas (document h)); [reflexivity | discriminate Hi].
  - unfold getIdeasCountByStatus. rewrite bind_read. cbn [fst ret]. now rewrite E.
Qed.

(** Statuses open, open, solved: two entries, in order of first occurrence. *)
Example counts_by_status_sample :
  fst (getProblemsCountByStatus
         (run [ CreateProblem t0900 "A" "d" "c" 3 weekly open "t";
                CreateProblem t0930 "B" "d" "c" 3 weekly open "t";
                CreateProblem t1000 "C" "d" "c" 3 weekly solved "t" ] (Browser None)))
  = [(open, 2); (solved, 1)].
Proof. reflexivity. Qed.

(** ** Recent records *)

Lemma slice0_prefix {A : Type} (end_ : Z) (l : list A) :
  exists rest, l = slice0 end_ l ++ rest.
Proof. unfold slice0. eexists. symmetry. apply firstn_skipn. Qed.

Lemma slice0_length {A : Type} (end_ : Z) (l : list A) :
  Z.of_nat (length (slice0 end_ l))
  = if end_ <? 0 then Z.max (Z.of_nat (length l) + end_) 0
    else Z.min end_ (Z.of_nat (length l)).
Proof.
  unfold slice0. rewrite length_firstn. destruct (Z.ltb_spec end_ 0); lia.
Qed.

Lemma getRecentProblems_fst (Date_getTime : string -> option Z) (limit : Z) (h : Host) :
  fst (getRecentProblems Date_getTime limit h)
  = slice0 limit (fst (getAllProblems Date_getTime h)).
Proof.
  unfold getRecentProblems, bind, ret.
  now destruct (getAllProblems Date_getTime h).
Qed.

Lemma getRecentIdeas_fst (Date_getTime : string -> option Z) (limit : Z) (h : Host) :
  fst (getRecentIdeas Date_getTime limit h)
  = slice0 limit (fst (getAllIdeas Date_getTime h)).
Proof.
  unfold getRecentIdeas, bind, ret.
  now destruct (getAllIdeas Date_getTime h).
Qed.

(** [getRecentProblems] and [getRecentIdeas] give the listing cut after
    [limit] records: a prefix of the full listing, all of it when the limit
    is at least its length, nothing for limit 0.  A negative limit does
    not give nothing: it cuts that many records off the end. *)
Theorem recent_is_a_prefix (Date_getTime : string -> option Z) (h : Host) (limit : Z) :
  (let all := fst (getAllProblems Date_getTime h) in
   let recent := fst (getRecentProblems Date_getTime limit h) in
   (exists rest, all = recent ++ rest)
   /\ Z.of_nat (length recent)
      = if limit <? 0 then Z.max (Z.of_nat (length all) + limit) 0
        else Z.min limit (Z.of_nat (length all)))
  /\ (let all := fst (getAllIdeas Date_getTime h) in
      let recent := fst (getRecentIdeas Date_getTime limit h) in
      (exists rest, all = recent ++ rest)
      /\ Z.of_nat (length recent)
         = if limit <? 0 then Z.max (Z.of_nat (length all) + limit) 0
           else Z.min limit (Z.of_nat (length all))).
Proof.
  cbv zeta. rewrite getRecentProblems_fst, getRecentIdeas_fst.
  split; (split; [apply slice0_prefix | apply slice0_length]).
Qed.

(** With the limit 1 the latest problem; with the limit -1 all but the
    oldest. *)
Example recent_sample :
  map Problem.id (fst (getRecentProblems sample_getTime 1 sample_host)) = [2]
  /\ map Problem.id (fst (getRecentProblems sample_getTime 5 sample_host)) = [2; 1]
  /\ map Problem.id (fst (getRecentProblems sample_getTime (-1) sample_host)) = [2].
Proof. repeat split; reflexivity. Qed.

(** ** Notes of a record *)

Section NotesOf.

Variable Date_getTime : string -> option Z.

Lemma Array_sort_In {A : Type} (cmp : A -> A -> Z) (l : list A) (x : A) :
  In x (Array_sort cmp l) <-> In x l.
Proof.
  induction l as [|y l IH]; [reflexivity|].
  cbn [Array_sort fold_right]. fold (Array_sort cmp l).
  assert (Hins : forall z s, In x (sort_insert cmp z s) <-> z = x \/ In x s).
  { intros z s. induction s as [|w s IHs]; cbn; [tauto|].
    destruct (cmp z w <=? 0); cbn; [tauto|]. rewrite IHs. tauto. }
  rewrite Hins, IH. reflexivity.
Qed.

(** [getNotesForProblem] lists exactly the notes whose [problem_id] is the
    given id, and [getNotesForIdea] those whose [idea_id] is; a note
    without the reference is never listed.  The notes come latest first
    when their dates are valid dates. *)
Theorem notes_of_a_record (h : Host) (id : Z) :
  (let listed := fst (getNotesForProblem Date_getTime id h) in
   (forall n, In n listed
              <-> In n (StorageData.notes (document h)) /\ Note.problem_id n = Some id)
   /\ (Forall (fun n => valid_date Date_getTime (Note.created_at n))
         (StorageData.notes (document h)) ->
       StronglySorted
         (fun a b => not_before Date_getTime (Note.created_at a) (Note.created_at b))
         listed))
  /\ (let listed := fst (getNotesForIdea Date_getTime id h) in
      (forall n, In n listed
                 <-> In n (StorageData.notes (document h)) /\ Note.idea_id n = Some id)
      /\ (Forall (fun n => valid_date Date_getTime (Note.created_at n))
            (StorageData.notes (document h)) ->
          StronglySorted
            (fun a b => not_before Date_getTime (Note.created_at a) (Note.created_at b))
            listed)).
Proof.
  cbv zeta. unfold getNotesForProblem, getNotesForIdea. rewrite !bind_read.
  cbn [fst ret]. split; split.
  - intros n. rewrite Array_sort_In, filter_In, ref_is_true. reflexivity.
  - intros Hvalid. apply (Array_sort_sorted Date_getTime Note.created_at).
    rewrite Forall_forall in *. intros n Hn. apply Hvalid. apply filter_In in Hn. tauto.
  - intros n. rewrite Array_sort_In, filter_In, ref_is_true. reflexivity.
  - intros Hvalid. apply (Array_sort_sorted Date_getTime Note.created_at).
    rewrite Forall_forall in *. intros n Hn. apply Hvalid. apply filter_In in Hn. tauto.
Qed.

End NotesOf.

Lemma notes_of_a_record_witness :
  Forall (fun n => valid_date sample_getTime (Note.created_at n))
    (StorageData.notes (document sample_host))
  /\ StronglySorted
       (fun a b => not_before sample_getTime (Note.created_at a) (Note.created_at b))
       (fst (getNotesForIdea sample_getTime 1 sample_host))
  /\ map Note.id (fst (getNotesForProblem sample_getTime 2 sample_host)) = [3].
Proof.
  assert (Hvalid : Forall (fun n => valid_date sample_getTime (Note.created_at n))
                     (StorageData.notes (document sample_host))).
  { repeat constructor; discriminate. }
  destruct (notes_of_a_record sample_getTime sample_host 1) as (_ & _ & S).
  split; [exact Hvalid|]. split; [exact (S Hvalid) | reflexivity].
Defined.

(** ** After a problem is deleted *)

Lemma deleteProblem_present (item : option StorageData.t) (id : Z) :
  let before := document (Browser item) in
  present Problem.id id (StorageData.problems before) ->
  deleteProblem id (Browser item)
  = (true,
     Browser (Some
       (StorageData.mk
          (filter (fun p => negb (Problem.id p =? id)) (StorageData.problems before))
          (StorageData.ideas before)
          (map (fun n => if ref_is (Note.problem_id n) id then with_problem_id n None else n)
             (StorageData.notes before))
          (filter (fun l => negb (ProblemIdeaLink.problem_id l =? id))
             (StorageData.links before))
          (StorageData.counters before)))).
Proof.
  intros before Hin. unfold deleteProblem. rewrite bind_read. fold before.
  cbn [set_problems StorageData.problems].
  rewrite filter_length_ltb_present by assumption.
  rewrite getStorageData_browser. reflexivity.
Qed.

Lemma filter_nothing {A : Type} (f : A -> bool) (l : list A) :
  (forall x, In x l -> f x = false) -> filter f l = [].
Proof.
  induction l as [|x l IH]; cbn; intros H; [reflexivity|].
  rewrite (H x (or_introl eq_refl)). apply IH. intros y Hy. apply H. now right.
Qed.

Lemma detached_notes_unreferenced (id : Z) (l : list Note.t) :
  filter (fun n => ref_is (Note.problem_id n) id)
    (map (fun n => if ref_is (Note.problem_id n) id then with_problem_id n None else n) l)
  = [].
Proof.
  apply filter_nothing. intros n Hn. apply in_map_iff in Hn.
  destruct Hn as (m & <- & _). destruct (ref_is (Note.problem_id m) id) eqn:E;
    [reflexivity | exact E].
Qed.

(** Once a problem whose id is present is deleted, no query finds it or
    anything of it: the lookup by id gives nothing, it is in no listing and
    among the problems of no idea, it has no ideas and no notes.  The notes
    themselves are all still listed, in the same order. *)
Theorem deleted_problem_is_gone (Date_getTime : string -> option Z) (h : Host) (id : Z) :
  let gone := snd (deleteProblem id h) in
  present Problem.id id (StorageData.problems (document h)) ->
  fst (getProblemById id gone) = None
  /\ ~ In id (map Problem.id (fst (getAllProblems Date_getTime gone)))
  /\ (forall idea_id, ~ In id (map Problem.id (fst (getProblemsForIdea idea_id gone))))
  /\ fst (getIdeasForProblem id gone) = []
  /\ fst (getNotesForProblem Date_getTime id gone) = []
  /\ map Note.id (fst (getAllNotes Date_getTime gone))
     = map Note.id (fst (getAllNotes Date_getTime h)).
Proof.
  cbv zeta. intros Hin.
  destruct (present_browser Problem.id id StorageData.problems h eq_refl Hin) as (item & ->).
  rewrite (deleteProblem_present item id Hin). cbn [snd].
  assert (Habs : absent Problem.id id
                   (filter (fun p => negb (Problem.id p =? id))
                      (StorageData.problems (document (Browser item))))).
  { unfold absent. rewrite in_map_iff. intros (p & E & Hp).
    apply In_filter_differs in Hp. tauto. }
  unfold getProblemById, getAllProblems, getProblemsForIdea, getIdeasForProblem,
    getNotesForProblem, getAllNotes.
  rewrite !bind_read, !document_stored.
  cbn [fst ret StorageData.problems StorageData.ideas StorageData.notes StorageData.links].
  split; [now apply find_absent|].
  split.
  { rewrite in_map_iff. intros (p & E & Hp). rewrite Array_sort_In in Hp.
    apply Habs. apply in_map_iff. exists p. split; assumption. }
  split.
  { intros idea_id. rewrite bind_read, document_stored.
    cbn [fst ret StorageData.problems]. rewrite in_map_iff.
    intros (p & E & Hp). apply filter_In in Hp.
    apply Habs. apply in_map_iff. exists p. split; [exact E | tauto]. }
  split.
  { apply filter_nothing. intros i _. apply not_true_is_false. intros Hinc.
    apply includes_In, in_map_iff in Hinc. destruct Hinc as (l & _ & Hl).
    apply filter_In in Hl. destruct Hl as (Hl & E). apply filter_In in Hl.
    destruct Hl as (_ & Hne). rewrite E in Hne. discriminate. }
  split; [now rewrite detached_notes_unreferenced|].
  apply listing_ids_related; rewrite map_map; apply map_ext; intros n;
    now destruct (ref_is (Note.problem_id n) id).
Qed.

Lemma deleted_problem_is_gone_witness :
  present Problem.id 1 (StorageData.problems (document sample_host))
  /\ fst (getIdeasForProblem 1 (snd (deleteProblem 1 sample_host))) = []
  /\ fst (getNotesForProblem sample_getTime 1 (snd (deleteProblem 1 sample_host))) = []
  /\ map Note.id (fst (getAllNotes sample_getTime (snd (deleteProblem 1 sample_host))))
     = map Note.id (fst (getAllNotes sample_getTime sample_host)).
Proof.
  assert (Hp : present Problem.id 1 (StorageData.problems (document sample_host))).
  { unfold present. cbn. left. reflexivity. }
  destruct (deleted_problem_is_gone sample_getTime sample_host 1 Hp)
    as (_ & _ & _ & I & N & A).
  split; [exact Hp|]. split; [exact I|]. split; [exact N | exact A].
Defined.

(** ** Clearing and importing *)

(** After [clearAllData] the document is the empty one on every host, so
    ids start again: the next problem, idea and note each get id 1. *)
Theorem clearAllData_restarts_ids (h : Host) (now : string) :
  let cleared := snd (clearAllData h) in
  document cleared = initial
  /\ (forall t d oc sv f st tg, fst (createProblem now t d oc sv f st tg cleared) = 1)
  /\ (forall t p tu vp df a r st sc tg,
        fst (createIdea now t p tu vp df a r st sc tg cleared) = 1)
  /\ (forall nt c l p i, fst (createNote now nt c l p i cleared) = 1).
Proof.
  destruct h as [|item]; cbn; repeat split; reflexivity.
Qed.

Lemma find_kept {A : Type} (f : A -> bool) (l : list A) (x : A) :
  (exists y, In y l /\ f y = true) ->
  exists old, In old l /\ find f (l ++ [x]) = Some old.
Proof.
  induction l as [|z l IH]; intros (y & Hy & Fy); [destruct Hy|].
  cbn. destruct (f z) eqn:E.
  - exists z. auto.
  - destruct Hy as [->|Hy]; [congruence|].
    destruct IH as (old & Hold & F); [now exists y|]. exists old. auto.
Qed.

(** In a browser, an import that answers [true] has replaced the whole
    document by the one given, whatever was stored: an export gives it
    back.  Nothing of it is checked, the counters included: the next
    problem gets the increment of the imported counter as id (the counter
    plus one while it counts exactly) even when an imported problem carries
    that id, and a lookup by that id then finds the imported problem. *)
Theorem importAllData_overwrites (item : option StorageData.t) (data : StorageData.t)
    (now t d oc : string) (sv : Z) (f : Frequency) (st : ProblemStatus) (tg : string) :
  let imported := snd (importAllData data (Browser item)) in
  let created := createProblem now t d oc sv f st tg imported in
  fst (importAllData data (Browser item)) = true ->
  document imported = data
  /\ fst (exportAllData imported) = data
  /\ fst created = number_succ (counter key_problems data)
  /\ (counts_exactly (counter key_problems data) 1 ->
      fst created = counter key_problems data + 1)
  /\ (present Problem.id (fst created) (StorageData.problems data) ->
      exists old,
        In old (StorageData.problems data)
        /\ fst (getProblemById (fst created) (snd created)) = Some old).
Proof.
  cbv zeta. intros _. unfold importAllData at 1 2. unfold bind, ret.
  rewrite saveStorageData_browser. cbn [fst snd].
  split; [reflexivity|]. split; [reflexivity|].
  unfold importAllData, bind, ret. rewrite saveStorageData_browser. cbn [snd].
  rewrite createProblem_browser. cbv zeta. rewrite document_stored. cbn [fst snd].
  split; [reflexivity|]. split; [apply number_succ_one|]. intros Hin.
  unfold getProblemById. rewrite bind_read, document_stored.
  cbn [fst ret StorageData.problems].
  apply find_kept. apply present_some in Hin. exact Hin.
Qed.

Lemma importAllData_overwrites_witness :
  fst (importAllData (set_counters sample_document (Counters.mk 0 0 0 0)) (Browser None))
  = true
  /\ counts_exactly
       (counter key_problems (set_counters sample_document (Counters.mk 0 0 0 0))) 1
  /\ fst (createProblem t1000 "New" "d" "c" 2 rare open "x"
            (snd (importAllData
                    (set_counters sample_document (Counters.mk 0 0 0 0))
                    (Browser None))))
     = 0 + 1
  /\ present Problem.id 1
       (StorageData.problems (set_counters sample_document (Counters.mk 0 0 0 0)))
  /\ exists old,
       In old (StorageData.problems sample_document)
       /\ fst (getProblemById 1
                 (snd (createProblem t1000 "New" "d" "c" 2 rare open "x"
                         (snd (importAllData
                                 (set_counters sample_document (Counters.mk 0 0 0 0))
                                 (Browser None))))))
          = Some old.
Proof.
  assert (Hok : fst (importAllData (set_counters sample_document (Counters.mk 0 0 0 0))
                       (Browser None)) = true) by reflexivity.
  assert (Hroom : counts_exactly
                    (counter key_problems
                       (set_counters sample_document (Counters.mk 0 0 0 0))) 1).
  { split; vm_compute; discriminate. }
  assert (Hin : present Problem.id 1
                  (StorageData.problems
                     (set_counters sample_document (Counters.mk 0 0 0 0)))).
  { unfold present. cbn. left. reflexivity. }
  destruct (importAllData_overwrites None
              (set_counters sample_document (Counters.mk 0 0 0 0))
              t1000 "New" "d" "c" 2 rare open "x" Hok) as (_ & _ & _ & C & F).
  split; [exact Hok|]. split; [exact Hroom|]. split; [exact (C Hroom)|].
  split; [exact Hin|]. exact (F Hin).
Defined.

(** ** What replacing the links of an idea leaves alone *)

Lemma getProblemsForIdea_In (h : Host) (idea_id : Z) (x : Problem.t) :
  In x (fst (getProblemsForIdea idea_id h))
  <-> In x (StorageData.problems (document h))
      /\ In (Problem.id x, idea_id) (map pair_of (StorageData.links (document h))).
Proof.
  unfold getProblemsForIdea. rewrite bind_read. cbn [fst ret].
  rewrite filter_In, includes_In, !in_map_iff.
  split; intros (Hx & l & E & Hl); (split; [exact Hx|]); exists l.
  - apply filter_In in Hl. destruct Hl as (Hl & Hp). apply Z.eqb_eq in Hp.
    unfold pair_of. split; [congruence | assumption].
  - unfold pair_of in E. injection E as E1 E2. split; [assumption|].
    apply filter_In. split; [assumption|]. now apply Z.eqb_eq.
Qed.

Lemma getIdeasForProblem_In (h : Host) (problem_id : Z) (x : Idea.t) :
  In x (fst (getIdeasForProblem problem_id h))
  <-> In x (StorageData.ideas (document h))
      /\ In (problem_id, Idea.id x) (map pair_of (StorageData.links (document h))).
Proof.
  unfold getIdeasForProblem. rewrite bind_read. cbn [fst ret].
  rewrite filter_In, includes_In, !in_map_iff.
  split; intros (Hx & l & E & Hl); (split; [exact Hx|]); exists l.
  - apply filter_In in Hl. destruct Hl as (Hl & Hp). apply Z.eqb_eq in Hp.
    unfold pair_of. split; [congruence | assumption].
  - unfold pair_of in E. injection E as E1 E2. split; [assumption|].
    apply filter_In. split; [assumption|]. now apply Z.eqb_eq.
Qed.

(** In a browser, [setProblemLinksForIdea] touches the links of the idea
    only: the links of every other idea stay, in their order, and so do
    problems, ideas and notes; the idea's linked problem ids then read
    back as the list given, the problems listed for it are the stored
    problems whose id is in the list, and the links counter has been
    incremented once per id of the list: by the length of the list while
    it counts exactly.  Ids that name no problem are linked all the same
    and simply list nothing. *)
Theorem setProblemLinksForIdea_replaces (item : option StorageData.t) (i : Z) (ps : list Z) :
  let h := Browser item in
  let before := document h in
  let done := snd (setProblemLinksForIdea i ps h) in
  let after := document done in
  fst (getLinkedProblemIdsForIdea i done) = ps
  /\ filter (fun l => negb (ProblemIdeaLink.idea_id l =? i)) (StorageData.links after)
     = filter (fun l => negb (ProblemIdeaLink.idea_id l =? i)) (StorageData.links before)
  /\ (forall x, In x (fst (getProblemsForIdea i done))
                <-> In x (StorageData.problems before) /\ In (Problem.id x) ps)
  /\ StorageData.problems after = StorageData.problems before
  /\ StorageData.ideas after = StorageData.ideas before
  /\ StorageData.notes after = StorageData.notes before
  /\ counter key_links after = advance (length ps) (counter key_links before)
  /\ (counts_exactly (counter key_links before) (Z.of_nat (length ps)) ->
      counter key_links after = counter key_links before + Z.of_nat (length ps)).
Proof.
  cbv zeta. rewrite setProblemLinksForIdea_browser. cbn [snd]. rewrite document_stored.
  set (d0 := document (Browser item)).
  assert (Hlinks : links_of_idea i
                     (relinked d0
                        (filter (fun l => negb (ProblemIdeaLink.idea_id l =? i))
                           (StorageData.links d0)
                         ++ numbered_links i (counter key_links d0) ps)
                        (advance (length ps) (counter key_links d0)))
                   = numbered_links i (counter key_links d0) ps)
    by apply links_of_idea_replaced.
  split.
  { unfold getLinkedProblemIdsForIdea. rewrite bind_read, document_stored. cbn [fst ret].
    change (filter _ (StorageData.links ?d)) with (links_of_idea i d).
    rewrite Hlinks. apply numbered_links_problem_ids. }
  split.
  { rewrite relinked_links, filter_app.
    replace (filter _ (numbered_links i (counter key_links d0) ps))
      with (@nil ProblemIdeaLink.t).
    - rewrite app_nil_r. apply filter_all. intros l Hl. apply filter_In in Hl. tauto.
    - symmetry. apply filter_nothing. intros l Hl. apply numbered_links_idea in Hl.
      now rewrite Hl, Z.eqb_refl. }
  split.
  { intros x. rewrite getProblemsForIdea_In, document_stored, relinked_links.
    change (StorageData.problems (relinked d0 _ _)) with (StorageData.problems d0).
    rewrite map_app, in_app_iff, numbered_links_pairs, !in_map_iff.
    split.
    - intros (Hx & [(l & E & Hl)|(p & E & Hp)]); (split; [exact Hx|]).
      + exfalso. apply filter_In in Hl. destruct Hl as (_ & Hne).
        unfold pair_of in E. injection E as _ E. rewrite E, Z.eqb_refl in Hne.
        discriminate.
      + injection E as ->. exact Hp.
    - intros (Hx & Hp). split; [exact Hx|]. right. now exists (Problem.id x). }
  rewrite relinked_counter. do 4 (split; [reflexivity|]).
  intros Hc. apply (advance_exact _ _ Hc).
Qed.

Lemma setProblemLinksForIdea_replaces_witness :
  counts_exactly (counter key_links (document sample_host)) (Z.of_nat (length [2; 7]))
  /\ counter key_links (document (snd (setProblemLinksForIdea 1 [2; 7] sample_host)))
     = 3 + Z.of_nat (length [2; 7]).
Proof.
  assert (Hroom : counts_exactly (counter key_links (document sample_host))
                    (Z.of_nat (length [2; 7]))).
  { split; vm_compute; discriminate. }
  split; [exact Hroom|].
  destruct (setProblemLinksForIdea_replaces (Some sample_document) 1 [2; 7])
    as (_ & _ & _ & _ & _ & _ & _ & C).
  exact (C Hroom).
Defined.

(** ** The checkboxes of the idea form *)

Lemma toggleProblemLink_In (ids : list Z) (x y : Z) :
  In y (toggleProblemLink ids x) <-> (y = x /\ ~ In x ids) \/ (y <> x /\ In y ids).
Proof.
  unfold toggleProblemLink. destruct (includes ids x) eqn:E.
  - apply includes_In in E. rewrite filter_In, negb_true_iff, Z.eqb_neq. tauto.
  - assert (Hx : ~ In x ids) by (intros H; apply includes_In in H; congruence).
    rewrite in_app_iff. cbn. destruct (Z.eq_dec y x) as [->|Hne]; [tauto|].
    split; [intros [H|[H|[]]]; [tauto | congruence] | tauto].
Qed.

Lemma toggleProblemLink_NoDup (ids : list Z) (x : Z) :
  NoDup ids -> NoDup (toggleProblemLink ids x).
Proof.
  intros H. unfold toggleProblemLink. destruct (includes ids x) eqn:E.
  - now apply NoDup_filter.
  - apply NoDup_snoc; [exact H|]. intros Hin. apply includes_In in Hin. congruence.
Qed.

Lemma toggles_NoDup (clicks ids : list Z) :
  NoDup ids -> NoDup (fold_left toggleProblemLink clicks ids).
Proof.
  revert ids. induction clicks as [|x clicks IH]; intros ids H; [exact H|].
  cbn. apply IH. now apply toggleProblemLink_NoDup.
Qed.

(** Clicking the checkbox of a problem flips its membership in the list of
    linked problem ids and no other; a list without repetition stays
    without repetition; clicking twice on a problem that was not in the
    list gives the list back. *)
Theorem toggleProblemLink_flips (ids : list Z) (x : Z) :
  (forall y, In y (toggleProblemLink ids x)
             <-> (y = x /\ ~ In x ids) \/ (y <> x /\ In y ids))
  /\ (NoDup ids -> NoDup (toggleProblemLink ids x))
  /\ (~ In x ids -> toggleProblemLink (toggleProblemLink ids x) x = ids).
Proof.
  split; [intros y; apply toggleProblemLink_In|].
  split; [apply toggleProblemLink_NoDup|].
  intros Hx. unfold toggleProblemLink at 2.
  replace (includes ids x) with false
    by (symmetry; apply not_true_is_false; intros H; apply includes_In in H; contradiction).
  unfold toggleProblemLink.
  replace (includes (ids ++ [x]) x) with true
    by (symmetry; apply includes_In, in_or_app; right; left; reflexivity).
  rewrite filter_app. cbn. rewrite Z.eqb_refl. cbn. rewrite app_nil_r.
  apply filter_all. intros y Hy. apply negb_true_iff, Z.eqb_neq. intros ->. contradiction.
Qed.

Lemma toggleProblemLink_flips_witness :
  NoDup [2; 1]
  /\ NoDup (toggleProblemLink [2; 1] 3)
  /\ ~ In 3 [2; 1]
  /\ toggleProblemLink (toggleProblemLink [2; 1] 3) 3 = [2; 1].
Proof.
  assert (Hnd : NoDup [2; 1]).
  { constructor; [intros [H|[]]; discriminate H|]. constructor; [intros []|constructor]. }
  assert (Hout : ~ In 3 [2; 1]).
  { intros [H|[H|[]]]; discriminate H. }
  destruct (toggleProblemLink_flips [2; 1] 3) as (_ & N & T).
  split; [exact Hnd|]. split; [exact (N Hnd)|]. split; [exact Hout | exact (T Hout)].
Defined.

Lemma linked_ids_NoDup (data : StorageData.t) (i : Z) :
  links_unique data ->
  NoDup (map ProblemIdeaLink.problem_id
           (filter (fun l => ProblemIdeaLink.idea_id l =? i) (StorageData.links data))).
Proof.
  unfold links_unique. induction (StorageData.links data) as [|l ls IH]; cbn; intros H;
    [constructor|].
  inversion H as [|? ? Hnotin Hrest]; subst.
  destruct (ProblemIdeaLink.idea_id l =? i) eqn:E; [|now apply IH].
  cbn. constructor; [|now apply IH]. apply Z.eqb_eq in E.
  rewrite in_map_iff. intros (m & Em & Hm). apply filter_In in Hm.
  destruct Hm as (Hm & Ei). apply Z.eqb_eq in Ei. apply Hnotin.
  apply in_map_iff. exists m. split; [|exact Hm]. unfold pair_of. congruence.
Qed.

Lemma updateIdea_browser (item : option StorageData.t) (now : string) (id : Z)
    (t p tu vp df a r : string) (st : IdeaStatus) (sc : option Z) (tg : string) :
  exists data,
    snd (updateIdea now id t p tu vp df a r st sc tg (Browser item)) = Browser (Some data)
    /\ StorageData.links data = StorageData.links (document (Browser item)).
Proof.
  pose proof (exec_browser (UpdateIdea now id t p tu vp df a r st sc tg) item) as E.
  unfold exec, bind, ret in E.
  destruct (updateIdea now id t p tu vp df a r st sc tg (Browser item)) as [b h'].
  injection E as _ ->. eexists. split; [reflexivity|].
  rewrite effect_UpdateIdea. now destruct (_ =? -1).
Qed.

(** The idea form cannot put two links on one pair.  Editing: the form
    loads the idea's linked problem ids, the user clicks any sequence of
    checkboxes, the form saves with [updateIdea] and then
    [setProblemLinksForIdea].  New idea: the form starts with no linked
    problem, and saves the links for the id [createIdea] returns.  Either
    way a store with one link per pair still has one link per pair. *)
Theorem idea_form_keeps_links_unique (item : option StorageData.t) (clicks : list Z) :
  let h := Browser item in
  links_unique (document h) ->
  (forall idea_id now t p tu vp df a r st sc tg,
     let loaded := getLinkedProblemIdsForIdea idea_id h in
     let chosen := fold_left toggleProblemLink clicks (fst loaded) in
     let updated := updateIdea now idea_id t p tu vp df a r st sc tg (snd loaded) in
     links_unique (document (snd (setProblemLinksForIdea idea_id chosen (snd updated)))))
  /\ (forall now t p tu vp df a r st sc tg,
        let created := createIdea now t p tu vp df a r st sc tg h in
        let chosen := fold_left toggleProblemLink clicks [] in
        links_unique
          (document (snd (setProblemLinksForIdea (fst created) chosen (snd created))))).
Proof.
  cbv zeta. intros Hu. split.
  - intros idea_id now t p tu vp df a r st sc tg.
    unfold getLinkedProblemIdsForIdea at 2. rewrite bind_read.
    rewrite getStorageData_browser. cbn [snd ret].
    destruct (updateIdea_browser (Some (document (Browser item))) now idea_id
                t p tu vp df a r st sc tg) as (d1 & -> & Hlinks).
    rewrite document_stored in Hlinks.
    rewrite setProblemLinksForIdea_browser. cbn [snd]. rewrite !document_stored.
    unfold links_unique. rewrite relinked_links.
    apply links_unique_replaced; [unfold links_unique; now rewrite Hlinks|].
    apply toggles_NoDup. unfold getLinkedProblemIdsForIdea. rewrite bind_read.
    cbn [fst ret]. now apply linked_ids_NoDup.
  - intros. rewrite createIdea_browser. cbv zeta. cbn [fst snd].
    rewrite setProblemLinksForIdea_browser. cbn [snd]. rewrite !document_stored.
    unfold links_unique. rewrite relinked_links. cbn [StorageData.links].
    apply (links_unique_replaced (document (Browser item))); [exact Hu|].
    apply toggles_NoDup. constructor.
Qed.

Lemma idea_form_keeps_links_unique_witness :
  links_unique (document sample_host)
  /\ links_unique
       (document
          (snd (setProblemLinksForIdea 1
                  (fold_left toggleProblemLink [1; 1; 2; 1]
                     (fst (getLinkedProblemIdsForIdea 1 sample_host)))
                  (snd (updateIdea t1000 1 "Wizard" "p" "u" "v" "d" "a" "r" building
                          None "x" (snd (getLinkedProblemIdsForIdea 1 sample_host))))))).
Proof.
  assert (Hu : links_unique (document sample_host)).
  { unfold links_unique. cbn.
    constructor; [intros [H|[H|[]]]; discriminate H|].
    constructor; [intros [H|[]]; discriminate H|].
    constructor; [intros []|constructor]. }
  split; [exact Hu|].
  exact (proj1 (idea_form_keeps_links_unique (Some sample_document) [1; 1; 2; 1] Hu)
           1 t1000 "Wizard" "p" "u" "v" "d" "a" "r" building None "x")%string.
Defined.

(** ** Invariants along sequences of calls *)

(** From the empty document, along any sequence of calls (an import only
    of a well numbered document) during which the four counters count
    exactly, no two records of a collection share an id, ids follow the
    storage order, and no id exceeds the counter of its collection. *)
Theorem ids_are_unique (ops : list Op) :
  let data := document (run ops (Browser None)) in
  Forall keeps_numbering ops ->
  (forall type, stays_exact_along type ops (Browser None) = true) ->
  NoDup (map Problem.id (StorageData.problems data))
  /\ NoDup (map Idea.id (StorageData.ideas data))
  /\ NoDup (map Note.id (StorageData.notes data))
  /\ NoDup (map ProblemIdeaLink.id (StorageData.links data))
  /\ well_numbered data.
Proof.
  cbv zeta. intros Hops Hex.
  pose proof (well_numbered_run ops (Browser None) Hops Hex well_numbered_initial) as W.
  destruct W as (Wp & Wi & Wn & Wl).
  split; [eapply numbered_within_NoDup; exact Wp|].
  split; [eapply numbered_within_NoDup; exact Wi|].
  split; [eapply numbered_within_NoDup; exact Wn|].
  split; [eapply numbered_within_NoDup; exact Wl|].
  repeat split; first [apply Wp | apply Wi | apply Wn | apply Wl].
Qed.

Lemma ids_are_unique_witness :
  Forall keeps_numbering sample_calls
  /\ (forall type, stays_exact_along type sample_calls (Browser None) = true)
  /\ NoDup (map ProblemIdeaLink.id
              (StorageData.links (document (run sample_calls (Browser None))))).
Proof.
  assert (H : Forall keeps_numbering sample_calls).
  { repeat constructor. }
  assert (Hex : forall type, stays_exact_along type sample_calls (Browser None) = true).
  { intros []; reflexivity. }
  destruct (ids_are_unique sample_calls H Hex) as (_ & _ & _ & L & _).
  split; [exact H|]. split; [exact Hex | exact L].
Defined.

(** Past 2^53 the numbering is lost: a well numbered document is imported,
    two problems are created, and both carry the id 2^53. *)
Example ids_repeat_past_two_53 :
  well_numbered nearly_full
  /\ map Problem.id
       (StorageData.problems
          (document
             (run [ ImportAllData nearly_full;
                    CreateProblem t0900 "A" "first" "ctx" 3 weekly open "t";
                    CreateProblem t0930 "B" "second" "ctx" 3 weekly open "t" ]
                (Browser None))))
     = [two_53; two_53]
  /\ stays_exact_along key_problems
       [ ImportAllData nearly_full;
         CreateProblem t0900 "A" "first" "ctx" 3 weekly open "t";
         CreateProblem t0930 "B" "second" "ctx" 3 weekly open "t" ]
       (Browser None)
     = false.
Proof.
  split; [repeat split; constructor|]. split; reflexivity.
Qed.

(** One link per pair holds along every sequence of calls in which each
    replacement of links is given pairwise different problem ids (and each
    import a document with one link per pair): every other call keeps
    it. *)
Theorem links_stay_unique (ops : list Op) (h : Host) :
  Forall gives_unique_links ops ->
  links_unique (document h) ->
  links_unique (document (run ops h)).
Proof.
  intros Hops. revert h. induction Hops as [|o ops Ho _ IH]; intros h H; [exact H|].
  rewrite run_cons. apply IH. destruct h as [|item].
  - rewrite exec_no_window. constructor.
  - rewrite exec_browser. cbn [snd]. rewrite document_stored.
    apply links_unique_effect; [| |exact H].
    + intros i ps ->. exact Ho.
    + intros d ->. exact Ho.
Qed.

Lemma links_stay_unique_witness :
  Forall gives_unique_links sample_calls
  /\ links_unique (document (Browser None))
  /\ links_unique (document (run sample_calls (Browser None))).
Proof.
  assert (Hops : Forall gives_unique_links sample_calls).
  { repeat constructor; cbn; try exact I.
    - intros [H|[]]; discriminate H.
    - intros []. }
  assert (H0 : links_unique (document (Browser None))) by constructor.
  split; [exact Hops|]. split; [exact H0|].
  exact (links_stay_unique sample_calls (Browser None) Hops H0).
Defined.

(** ** Without a window *)

(** Where [window] is undefined nothing is ever stored and nothing fails:
    after any sequence of calls every listing and count is empty and
    every lookup finds nothing, while the calls still answer as if they
    had written: each creation returns id 1 and [linkProblemToIdea]
    answers [true]. *)
Theorem no_window_degrades (Date_getTime : string -> option Z) (ops : list Op) :
  let h := run ops NoWindow in
  h = NoWindow
  /\ document h = initial
  /\ fst (getAllProblems Date_getTime h) = []
  /\ fst (getAllIdeas Date_getTime h) = []
  /\ fst (getAllNotes Date_getTime h) = []
  /\ fst (getProblemsCountByStatus h) = []
  /\ (forall id, fst (getProblemById id h) = None
                 /\ fst (getIdeaById id h) = None
                 /\ fst (getNoteById id h) = None)
  /\ (forall now t d oc sv f st tg, fst (createProblem now t d oc sv f st tg h) = 1)
  /\ (forall p i, fst (linkProblemToIdea p i h) = true).
Proof.
  cbv zeta. rewrite run_no_window. repeat split.
Qed.

(** ** Links read from both ends *)

(** For a stored problem and a stored idea, the idea is among the ideas of
    the problem exactly when the problem is among the problems of the
    idea. *)
Theorem links_read_both_ways (h : Host) (x : Idea.t) (y : Problem.t) :
  In x (StorageData.ideas (document h)) ->
  In y (StorageData.problems (document h)) ->
  (In x (fst (getIdeasForProblem (Problem.id y) h))
   <-> In y (fst (getProblemsForIdea (Idea.id x) h))).
Proof.
  intros Hx Hy. rewrite getIdeasForProblem_In, getProblemsForIdea_In. tauto.
Qed.

Lemma links_read_both_ways_witness :
  In (Idea.mk 2 "Trial concierge" "Human help" "Trials" "Retention" "Personal"
        "Cost" "Scale" researching (Some 70) "retention" t1000 t1000)
    (StorageData.ideas (document sample_host))
  /\ In (Problem.mk 1 "Slow onboarding" "Setup takes days" "Customer calls" 4 weekly open
           "onboarding" t0900 t0900)
       (StorageData.problems (document sample_host))
  /\ (In (Idea.mk 2 "Trial concierge" "Human help" "Trials" "Retention" "Personal"
            "Cost" "Scale" researching (Some 70) "retention" t1000 t1000)
        (fst (getIdeasForProblem 1 sample_host))
      <-> In (Problem.mk 1 "Slow onboarding" "Setup takes days" "Customer calls" 4 weekly
                open "onboarding" t0900 t0900)
            (fst (getProblemsForIdea 2 sample_host))).
Proof.
  assert (Hx : In (Idea.mk 2 "Trial concierge" "Human help" "Trials" "Retention" "Personal"
                     "Cost" "Scale" researching (Some 70) "retention" t1000 t1000)
                 (StorageData.ideas (document sample_host))).
  { cbn. right. left. reflexivity. }
  assert (Hy : In (Problem.mk 1 "Slow onboarding" "Setup takes days" "Customer calls" 4
                     weekly open "onboarding" t0900 t0900)
                 (StorageData.problems (document sample_host))).
  { cbn. left. reflexivity. }
  split; [exact Hx|]. split; [exact Hy|].
  exact (links_read_both_ways sample_host _ _ Hx Hy).
Defined.

(** ** The notes page and the notes of a record *)

Section FilterSorted.

Variable Date_getTime : string -> option Z.
Context {A : Type} (created_at : A -> string) (f : A -> bool).

Local Abbreviation cmp := (created_at_cmp Date_getTime created_at).
Local Abbreviation later_first := (created_at_desc Date_getTime created_at).
Local Abbreviation dated := (created_at_valid Date_getTime created_at).

Lemma sort_insert_first (x : A) (l : list A) :
  (forall z, In z l -> cmp x z <= 0) -> sort_insert cmp x l = x :: l.
Proof.
  destruct l as [|y l]; [reflexivity|]. intros H. cbn.
  specialize (H y (or_introl eq_refl)). apply Z.leb_le in H. now rewrite H.
Qed.

Lemma later_first_cmp (x y : A) : later_first x y -> cmp x y <= 0.
Proof.
  unfold created_at_desc, not_before, created_at_cmp, by_created_at_desc.
  destruct (Date_getTime (created_at x)), (Date_getTime (created_at y));
    intros; try contradiction. lia.
Qed.

(** Narrowing a sorted collection after inserting a record is inserting
    the record, if it is kept, into the narrowed collection. *)
Lemma filter_sort_insert (x : A) (l : list A) :
  dated x -> Forall dated l -> StronglySorted later_first l ->
  filter f (sort_insert cmp x l)
  = if f x then sort_insert cmp x (filter f l) else filter f l.
Proof.
  intros Dx Dl S. induction S as [|y l S IH Hy]; cbn.
  - now destruct (f x).
  - inversion Dl as [|? ? Dy Dl']; subst. destruct (cmp x y <=? 0) eqn:E.
    + cbn. destruct (f x) eqn:Fx; [|reflexivity].
      symmetry. apply sort_insert_first. intros z Hz.
      apply Z.leb_le in E.
      assert (Hyz : z = y \/ In z l).
      { destruct (f y); [destruct Hz as [<-|Hz]; [now left|] |];
          right; apply filter_In in Hz; tauto. }
      destruct Hyz as [->|Hz']; [exact E|].
      rewrite Forall_forall in Hy. apply later_first_cmp.
      eapply (later_first_trans Date_getTime created_at);
        [apply cmp_le; eassumption | now apply Hy].
    + cbn. rewrite (IH Dl'). destruct (f y) eqn:Fy, (f x) eqn:Fx; try reflexivity.
      cbn. now rewrite E.
Qed.

(** Narrowing and sorting by date can be done in either order. *)
Lemma filter_Array_sort (l : list A) :
  Forall dated l ->
  filter f (Array_sort cmp l) = Array_sort cmp (filter f l).
Proof.
  induction 1 as [|x l Dx Dl IH]; [reflexivity|].
  cbn [Array_sort fold_right]. fold (Array_sort cmp l).
  rewrite filter_sort_insert.
  - cbn [filter]. rewrite IH. now destruct (f x).
  - exact Dx.
  - eapply Permutation_Forall; [|exact Dl]. symmetry. apply Array_sort_perm.
  - now apply Array_sort_sorted.
Qed.

End FilterSorted.

Lemma NoteType_eqb_eq (a b : NoteType) : NoteType_eqb a b = true <-> a = b.
Proof. destruct a, b; cbn; split; congruence. Qed.

(** The filters of the notes page keep exactly the loaded notes that
    satisfy every filter that is set, in the order loaded; with no filter
    set all notes are shown.  Filtered by a problem alone (or by an idea
    alone), the page shows the same notes in the same order as the
    detail view of that problem (or idea), when the notes' dates are
    valid dates. *)
Theorem notes_page_filters (Date_getTime : string -> option Z) (h : Host) :
  let loaded := fst (getAllNotes Date_getTime h) in
  (forall type problem idea n,
     In n (NotesPage.applyFilters loaded type problem idea)
     <-> In n (StorageData.notes (document h))
         /\ (forall t, type = Some t -> Note.note_type n = t)
         /\ (forall p, problem = Some p -> Note.problem_id n = Some p)
         /\ (forall i, idea = Some i -> Note.idea_id n = Some i))
  /\ NotesPage.applyFilters loaded None None None = loaded
  /\ (Forall (fun n => valid_date Date_getTime (Note.created_at n))
        (StorageData.notes (document h)) ->
      forall id,
        NotesPage.applyFilters loaded None (Some id) None
        = fst (getNotesForProblem Date_getTime id h)
        /\ NotesPage.applyFilters loaded None None (Some id)
           = fst (getNotesForIdea Date_getTime id h)).
Proof.
  cbv zeta. unfold getAllNotes, getNotesForProblem, getNotesForIdea.
  rewrite !bind_read. cbn [fst ret]. split; [|split; [reflexivity|]].
  - intros type problem idea n. unfold NotesPage.applyFilters.
    destruct type as [t|], problem as [p|], idea as [i|];
      rewrite ?filter_In, ?NoteType_eqb_eq, ?ref_is_true, Array_sort_In;
      (split;
       [ intros H; repeat split; try tauto; intros ? E; inversion E; subst; tauto
       | intros (Hn & Ht & Hp & Hi); repeat split; auto ]).
  - intros Hvalid id. unfold NotesPage.applyFilters. rewrite !bind_read.
    cbn [fst ret]. split;
      apply (filter_Array_sort Date_getTime Note.created_at); exact Hvalid.
Qed.

Lemma notes_page_filters_witness :
  Forall (fun n => valid_date sample_getTime (Note.created_at n))
    (StorageData.notes (document sample_host))
  /\ NotesPage.applyFilters (fst (getAllNotes sample_getTime sample_host)) None (Some 1) None
     = fst (getNotesForProblem sample_getTime 1 sample_host).
Proof.
  assert (Hvalid : Forall (fun n => valid_date sample_getTime (Note.created_at n))
                     (StorageData.notes (document sample_host))).
  { repeat constructor; discriminate. }
  destruct (notes_page_filters sample_getTime sample_host) as (_ & _ & F).
  split; [exact Hvalid | exact (proj1 (F Hvalid 1))].
Defined.

(** ** The tag filter of the problems page and the ideas page *)

Example split_comma_samples :
  split_comma "ux,pricing" = ["ux"; "pricing"]%string
  /\ split_comma "ux," = ["ux"; EmptyString]%string
  /\ split_comma "," = [EmptyString; EmptyString]
  /\ split_comma "ux" = ["ux"]%string.
Proof. repeat split; reflexivity. Qed.

Lemma String_includes_empty (s : string) : String_includes s EmptyString = true.
Proof. destruct s; reflexivity. Qed.

Section TagFilter.

Variable toLowerCase : string -> string.
Variable trim : string -> string.

Lemma matches_tags_tagged (terms : list string) (tags : string) :
  matches_tags toLowerCase terms tags = true -> truthy tags = true.
Proof. unfold matches_tags. intros H. apply andb_true_iff in H. tauto. Qed.

Lemma matches_tags_blank (terms : list string) (tags : string) :
  In EmptyString terms ->
  matches_tags toLowerCase terms tags = truthy tags.
Proof.
  intros Hin. unfold matches_tags. destruct (truthy tags); [|reflexivity]. cbn.
  apply existsb_exists. exists EmptyString. split; [exact Hin|].
  apply String_includes_empty.
Qed.

(** With any text in the tag filter, a record without tags is never shown,
    whatever the text.  When one of the terms of the filter is blank (the
    text ends with a comma, has two commas in a row, or is blank itself),
    the filter lets every record with tags through: each of them contains
    the empty term.  With no filter set the pages show all records
    loaded. *)
Theorem tag_filter_edges (filterTags : string) :
  truthy filterTags = true ->
  (forall problems p,
     In p (ProblemsPage_applyFilters toLowerCase trim problems None None filterTags
             EmptyString) ->
     In p problems /\ truthy (Problem.tags p) = true)
  /\ (forall ideas i,
        In i (IdeasPage_applyFilters toLowerCase trim ideas None filterTags EmptyString) ->
        In i ideas /\ truthy (Idea.tags i) = true)
  /\ (In EmptyString (filter_terms toLowerCase trim filterTags) ->
      (forall problems,
         ProblemsPage_applyFilters toLowerCase trim problems None None filterTags
           EmptyString
         = filter (fun p => truthy (Problem.tags p)) problems)
      /\ (forall ideas,
            IdeasPage_applyFilters toLowerCase trim ideas None filterTags EmptyString
            = filter (fun i => truthy (Idea.tags i)) ideas))
  /\ (forall problems,
        ProblemsPage_applyFilters toLowerCase trim problems None None EmptyString
          EmptyString = problems)
  /\ (forall ideas,
        IdeasPage_applyFilters toLowerCase trim ideas None EmptyString EmptyString = ideas).
Proof.
  intros Hset. unfold ProblemsPage_applyFilters, IdeasPage_applyFilters.
  rewrite Hset. cbn [truthy].
  split; [|split; [|split; [|split; reflexivity]]].
  - intros problems p Hp. apply filter_In in Hp. destruct Hp as (Hp & Hm).
    split; [exact Hp | now apply matches_tags_tagged in Hm].
  - intros ideas i Hi. apply filter_In in Hi. destruct Hi as (Hi & Hm).
    split; [exact Hi | now apply matches_tags_tagged in Hm].
  - intros Hblank. split; intros l; apply filter_ext; intros x;
      now apply matches_tags_blank.
Qed.

End TagFilter.

Lemma tag_filter_edges_witness :
  truthy "ux," = true
  /\ In EmptyString (filter_terms sample_toLowerCase sample_trim "ux,")
  /\ ProblemsPage_applyFilters sample_toLowerCase sample_trim
       (StorageData.problems sample_document) None None "ux," EmptyString
     = filter (fun p => truthy (Problem.tags p)) (StorageData.problems sample_document).
Proof.
  assert (Hset : truthy "ux," = true) by reflexivity.
  assert (Hblank : In EmptyString (filter_terms sample_toLowerCase sample_trim "ux,")).
  { cbn. right. left. reflexivity. }
  destruct (tag_filter_edges sample_toLowerCase sample_trim "ux," Hset) as (_ & _ & B & _).
  split; [exact Hset|]. split; [exact Hblank|].
  exact (proj1 (B Hblank) (StorageData.problems sample_document)).
Defined.

(** The term "ux" alone matches no sample problem; "ux," matches both. *)
Example tag_filter_sample :
  map Problem.id
    (ProblemsPage_applyFilters sample_toLowerCase sample_trim
       (StorageData.problems sample_document) None None "ux" EmptyString) = []
  /\ map Problem.id
       (ProblemsPage_applyFilters sample_toLowerCase sample_trim
          (StorageData.problems sample_document) None None "ux," EmptyString) = [1; 2]
  /\ map Problem.id
       (ProblemsPage_applyFilters sample_toLowerCase sample_trim
          (StorageData.problems sample_document) None None "reten" EmptyString) = [2].
Proof. repeat split; reflexivity. Qed.
